(** * Disk layout planning and device resolution of gentoo-install

    A shallow embedding of [scripts/config.py] (the [DiskConfigurator]
    layout DSL) and of the device resolver and UUID store of
    [scripts/utils.py], followed by the properties of the identifier
    registry, the action plan and the resolver.

    Conventions of the embedding.
    - A Python [str] is a [string]; every [ascii] is one character, a code
      point below 256.  [Py.encode_utf8] encodes such a string the way
      [str.encode('utf-8')] does.
    - A [dict] is a [gmap]; [d[k]] on a missing key raises [KeyError].
    - [sys.exit] raises [SystemExit]; the objects mutated before an exception
      keep their new contents, so every computation returns the final state
      next to its result. *)

From Stdlib Require Import ZArith NArith Ascii String.
From stdpp Require Import base option gmap strings list.

Local Open Scope Z_scope.
Local Open Scope string_scope.

(** ** Python values and exceptions *)

Module Py.

(** The exceptions that the modelled code lets escape. *)
Inductive exn : Type :=
| SystemExit (code : Z) (message : string)
| KeyError (key : string)
| OSError (filename : string)
| CalledProcessError (cmd : list string).

Inductive result (A : Type) : Type :=
| Ok (a : A)
| Raise (e : exn).
Arguments Ok {A} a.
Arguments Raise {A} e.

(** Truth value of a [str]: only the empty string is false. *)
Definition truthy (s : string) : bool :=
  match s with
  | EmptyString => false
  | String _ _ => true
  end.

(** An [Optional[str]] argument tested with [if x:]; [None] and [""] are false. *)
Definition given (o : option string) : option string :=
  match o with
  | Some s => if truthy s then Some s else None
  | None => None
  end.

(** [str(x)] of an [Optional[str]] inside an f-string. *)
Definition str_opt (o : option string) : string := default "None" o.

(** [c in s] for a one-character [c]. *)
Fixpoint contains_char (c : ascii) (s : string) : bool :=
  match s with
  | EmptyString => false
  | String d s' => if Ascii.eqb c d then true else contains_char c s'
  end.

(** [o is not None]. *)
Definition is_Some_b {A : Type} (o : option A) : bool :=
  match o with
  | Some _ => true
  | None => false
  end.

(** [k in d]. *)
Definition dict_in {V : Type} (k : string) (d : gmap string V) : bool :=
  match d !! k with
  | Some _ => true
  | None => false
  end.

(** [x in (a, b, ...)] for a tuple of strings. *)
Definition tuple_in (x : string) (l : list string) : bool :=
  existsb (String.eqb x) l.

(** [sep.join(l)]. *)
Fixpoint join (sep : string) (l : list string) : string :=
  match l with
  | [] => ""
  | [x] => x
  | x :: l' => x +:+ sep +:+ join sep l'
  end.

(** [s.encode('utf-8')], as a list of byte values. *)
Definition utf8_char (c : ascii) : list N :=
  let n := N_of_ascii c in
  if (n <? 128)%N then [n] else [(192 + n / 64)%N; (128 + n mod 64)%N].

Fixpoint encode_utf8 (s : string) : list N :=
  match s with
  | EmptyString => []
  | String c s' => utf8_char c ++ encode_utf8 s'
  end.

(** [b.hex()]: two lower-case digits per byte. *)
Definition hexdigit (n : N) : ascii :=
  match String.get (N.to_nat n) "0123456789abcdef" with
  | Some c => c
  | None => "0"%char
  end.

Fixpoint hex (bs : list N) : string :=
  match bs with
  | [] => ""
  | b :: bs' => String (hexdigit (b / 16)%N) (String (hexdigit (b mod 16)%N) (hex bs'))
  end.

(** [s[:n]]. *)
Definition slice_to (n : nat) (s : string) : string := substring 0 n s.

(** [s.startswith(p)]. *)
Definition startswith (p s : string) : bool := String.prefix p s.

(** [s.endswith("/")]. *)
Fixpoint endswith_slash (s : string) : bool :=
  match s with
  | EmptyString => false
  | String c EmptyString => Ascii.eqb c "/"
  | String _ s' => endswith_slash s'
  end.

(** [os.path.join(a, b)] on POSIX. *)
Definition os_path_join (a b : string) : string :=
  if startswith "/" b then b
  else if negb (truthy a) || endswith_slash a then a +:+ b
  else a +:+ "/" +:+ b.

(** [str.isspace] of one character: the white space that [str.strip] removes
    and that [\s] matches. *)
Definition isspace (c : ascii) : bool :=
  let n := N_of_ascii c in
  ((9 <=? n) && (n <=? 13) || (28 <=? n) && (n <=? 32) || (n =? 133) || (n =? 160))%N.

(** [s.lstrip()], [s.rstrip()] and [s.strip()]. *)
Fixpoint lstrip (s : string) : string :=
  match s with
  | EmptyString => ""
  | String c s' => if isspace c then lstrip s' else s
  end.

Fixpoint rstrip (s : string) : string :=
  match s with
  | EmptyString => ""
  | String c s' =>
      match rstrip s' with
      | EmptyString => if isspace c then "" else String c ""
      | r => String c r
      end
  end.

Definition strip (s : string) : string := rstrip (lstrip s).

(** A string that does not begin with white space. *)
Definition lstripped (s : string) : Prop :=
  match s with
  | EmptyString => True
  | String c _ => isspace c = false
  end.

(** [s.lower()]: A-Z and the upper-case letters of Latin-1. *)
Definition lower_char (c : ascii) : ascii :=
  let n := N_of_ascii c in
  if ((65 <=? n) && (n <=? 90) || (192 <=? n) && (n <=? 222) && negb (n =? 215))%N
  then ascii_of_N (n + 32) else c.

Fixpoint lower (s : string) : string :=
  match s with
  | EmptyString => ""
  | String c s' => String (lower_char c) (lower s')
  end.

(** [s.replace(c, '')] for a one-character [c]. *)
Fixpoint remove_char (c : ascii) (s : string) : string :=
  match s with
  | EmptyString => ""
  | String d s' => if Ascii.eqb c d then remove_char c s' else String d (remove_char c s')
  end.

(** [s.split(c, 1)] when [c in s]: the text before and after the first [c]. *)
Fixpoint split_once (c : ascii) (s : string) : string * string :=
  match s with
  | EmptyString => ("", "")
  | String d s' =>
      if Ascii.eqb c d then ("", s')
      else let (a, b) := split_once c s' in (String d a, b)
  end.

(** The longest prefix of characters satisfying [f], and what follows it. *)
Fixpoint span (f : ascii -> bool) (s : string) : string * string :=
  match s with
  | EmptyString => ("", "")
  | String c s' =>
      if f c then let (a, b) := span f s' in (String c a, b) else ("", s)
  end.

(** Whether every character of [s] satisfies [f]. *)
Fixpoint all_chars (f : ascii -> bool) (s : string) : bool :=
  match s with
  | EmptyString => true
  | String c s' => f c && all_chars f s'
  end.

(** [s[len(p):]] when [s.startswith(p)]. *)
Fixpoint strip_prefix (p s : string) : option string :=
  match p, s with
  | EmptyString, _ => Some s
  | String a p', String b s' => if Ascii.eqb a b then strip_prefix p' s' else None
  | String _ _, EmptyString => None
  end.

(** [re.search]: the first position, from the left, at which the pattern
    matches; [at_start] is the match of the pattern at a given position. *)
Fixpoint re_search {A : Type} (at_start : string -> option A) (s : string) : option A :=
  match at_start s with
  | Some g => Some g
  | None =>
      match s with
      | EmptyString => None
      | String _ s' => re_search at_start s'
      end
  end.

(** [re.search] of a pattern that begins with [^] under [re.MULTILINE]: only
    the start of the text and the positions after a newline are tried. *)
Fixpoint re_search_bol {A : Type} (at_start : string -> option A) (bol : bool) (s : string)
    : option A :=
  match (if bol then at_start s else None) with
  | Some g => Some g
  | None =>
      match s with
      | EmptyString => None
      | String c s' => re_search_bol at_start (Ascii.eqb c "010") s'
      end
  end.

(** The double-quote character and the one-character string holding it. *)
Definition dquote_char : ascii := ascii_of_N 34.
Definition dquote : string := String dquote_char "".

(** Computations over a mutable state [S]: the result, or the exception that
    escaped, together with the state as the call left it. *)
Definition M (S A : Type) : Type := S -> result A * S.

Definition ret {S A : Type} (a : A) : M S A := fun st => (Ok a, st).

Definition bind {S A B : Type} (m : M S A) (k : A -> M S B) : M S B :=
  fun st =>
    match m st with
    | (Ok a, st') => k a st'
    | (Raise e, st') => (Raise e, st')
    end.

Definition raise {S A : Type} (e : exn) : M S A := fun st => (Raise e, st).

Definition gets {S A : Type} (f : S -> A) : M S A := fun st => (Ok (f st), st).

Definition modify {S : Type} (f : S -> S) : M S unit := fun st => (Ok tt, f st).

Declare Scope py_scope.
Delimit Scope py_scope with py.
Notation "x <- c1 ;; c2" := (bind c1 (fun x => c2))
  (at level 100, c1 at next level, right associativity) : py_scope.
Notation "c1 ;; c2" := (bind c1 (fun _ => c2))
  (at level 100, right associativity) : py_scope.
Local Open Scope py_scope.

(** [if cond: body] with no [else]. *)
Definition when {S : Type} (cond : bool) (body : M S unit) : M S unit :=
  if cond then body else ret tt.

(** [d[k]]. *)
Definition getitem {S : Type} (d : gmap string string) (k : string) : M S string :=
  match d !! k with
  | Some v => ret v
  | None => raise (KeyError k)
  end.

End Py.

(** ** [scripts/config.py] *)

Module Config.
Import Py.
Local Open Scope py_scope.

(** The attributes of a [DiskConfigurator], in the order of [__init__], and the
    standard output of the process, to which the resolve-entry placeholders print. *)
Record DiskConfigurator : Type := mkDiskConfigurator {
  TMP_DIR : string;
  ROOT_MOUNTPOINT : string;
  GENTOO_INSTALL_REPO_BIND : string;
  UUID_STORAGE_DIR : string;
  LUKS_HEADER_BACKUP_DIR : string;
  USED_RAID : bool;
  USED_LUKS : bool;
  USED_ZFS : bool;
  USED_BTRFS : bool;
  USED_ENCRYPTION : bool;
  NO_PARTITIONING_OR_FORMATTING : bool;
  DISK_ACTIONS : list string;
  DISK_DRACUT_CMDLINE : list string;
  DISK_ID_TO_RESOLVABLE : gmap string string;
  DISK_ID_PART_TO_GPT_ID : gmap string string;
  DISK_ID_TO_UUID : gmap string string;
  DISK_GPT_HAD_SIZE_REMAINING : gmap string bool;
  DISK_ID_EFI : option string;
  DISK_ID_BIOS : option string;
  DISK_ID_SWAP : option string;
  DISK_ID_ROOT : option string;
  DISK_ID_ROOT_TYPE : option string;
  DISK_ID_ROOT_MOUNT_OPTS : option string;
  stdout : list string
}.

(** Attribute assignment, [self.X = v]. *)
Definition set_USED_LUKS (v : bool) (self : DiskConfigurator) : DiskConfigurator :=
  let 'mkDiskConfigurator d0 d1 d2 d3 d4 u0 _ u2 u3 u4 u5 acts cmdl rsv p2g uu rem efi bios swp root rty rmo out := self in
  mkDiskConfigurator d0 d1 d2 d3 d4 u0 v u2 u3 u4 u5 acts cmdl rsv p2g uu rem efi bios swp root rty rmo out.

Definition set_USED_ENCRYPTION (v : bool) (self : DiskConfigurator) : DiskConfigurator :=
  let 'mkDiskConfigurator d0 d1 d2 d3 d4 u0 u1 u2 u3 _ u5 acts cmdl rsv p2g uu rem efi bios swp root rty rmo out := self in
  mkDiskConfigurator d0 d1 d2 d3 d4 u0 u1 u2 u3 v u5 acts cmdl rsv p2g uu rem efi bios swp root rty rmo out.

Definition set_DISK_ACTIONS (v : list string) (self : DiskConfigurator) : DiskConfigurator :=
  let 'mkDiskConfigurator d0 d1 d2 d3 d4 u0 u1 u2 u3 u4 u5 _ cmdl rsv p2g uu rem efi bios swp root rty rmo out := self in
  mkDiskConfigurator d0 d1 d2 d3 d4 u0 u1 u2 u3 u4 u5 v cmdl rsv p2g uu rem efi bios swp root rty rmo out.

Definition set_DISK_DRACUT_CMDLINE (v : list string) (self : DiskConfigurator) : DiskConfigurator :=
  let 'mkDiskConfigurator d0 d1 d2 d3 d4 u0 u1 u2 u3 u4 u5 acts _ rsv p2g uu rem efi bios swp root rty rmo out := self in
  mkDiskConfigurator d0 d1 d2 d3 d4 u0 u1 u2 u3 u4 u5 acts v rsv p2g uu rem efi bios swp root rty rmo out.

Definition set_DISK_ID_PART_TO_GPT_ID (v : gmap string string) (self : DiskConfigurator) : DiskConfigurator :=
  let 'mkDiskConfigurator d0 d1 d2 d3 d4 u0 u1 u2 u3 u4 u5 acts cmdl rsv _ uu rem efi bios swp root rty rmo out := self in
  mkDiskConfigurator d0 d1 d2 d3 d4 u0 u1 u2 u3 u4 u5 acts cmdl rsv v uu rem efi bios swp root rty rmo out.

Definition set_DISK_ID_TO_UUID (v : gmap string string) (self : DiskConfigurator) : DiskConfigurator :=
  let 'mkDiskConfigurator d0 d1 d2 d3 d4 u0 u1 u2 u3 u4 u5 acts cmdl rsv p2g _ rem efi bios swp root rty rmo out := self in
  mkDiskConfigurator d0 d1 d2 d3 d4 u0 u1 u2 u3 u4 u5 acts cmdl rsv p2g v rem efi bios swp root rty rmo out.

Definition set_DISK_GPT_HAD_SIZE_REMAINING (v : gmap string bool) (self : DiskConfigurator) : DiskConfigurator :=
  let 'mkDiskConfigurator d0 d1 d2 d3 d4 u0 u1 u2 u3 u4 u5 acts cmdl rsv p2g uu _ efi bios swp root rty rmo out := self in
  mkDiskConfigurator d0 d1 d2 d3 d4 u0 u1 u2 u3 u4 u5 acts cmdl rsv p2g uu v efi bios swp root rty rmo out.

Definition set_DISK_ID_EFI (v : option string) (self : DiskConfigurator) : DiskConfigurator :=
  let 'mkDiskConfigurator d0 d1 d2 d3 d4 u0 u1 u2 u3 u4 u5 acts cmdl rsv p2g uu rem _ bios swp root rty rmo out := self in
  mkDiskConfigurator d0 d1 d2 d3 d4 u0 u1 u2 u3 u4 u5 acts cmdl rsv p2g uu rem v bios swp root rty rmo out.

Definition set_DISK_ID_BIOS (v : option string) (self : DiskConfigurator) : DiskConfigurator :=
  let 'mkDiskConfigurator d0 d1 d2 d3 d4 u0 u1 u2 u3 u4 u5 acts cmdl rsv p2g uu rem efi _ swp root rty rmo out := self in
  mkDiskConfigurator d0 d1 d2 d3 d4 u0 u1 u2 u3 u4 u5 acts cmdl rsv p2g uu rem efi v swp root rty rmo out.

Definition set_DISK_ID_SWAP (v : option string) (self : DiskConfigurator) : DiskConfigurator :=
  let 'mkDiskConfigurator d0 d1 d2 d3 d4 u0 u1 u2 u3 u4 u5 acts cmdl rsv p2g uu rem efi bios _ root rty rmo out := self in
  mkDiskConfigurator d0 d1 d2 d3 d4 u0 u1 u2 u3 u4 u5 acts cmdl rsv p2g uu rem efi bios v root rty rmo out.

Definition set_DISK_ID_ROOT (v : option string) (self : DiskConfigurator) : DiskConfigurator :=
  let 'mkDiskConfigurator d0 d1 d2 d3 d4 u0 u1 u2 u3 u4 u5 acts cmdl rsv p2g uu rem efi bios swp _ rty rmo out := self in
  mkDiskConfigurator d0 d1 d2 d3 d4 u0 u1 u2 u3 u4 u5 acts cmdl rsv p2g uu rem efi bios swp v rty rmo out.

Definition set_DISK_ID_ROOT_TYPE (v : option string) (self : DiskConfigurator) : DiskConfigurator :=
  let 'mkDiskConfigurator d0 d1 d2 d3 d4 u0 u1 u2 u3 u4 u5 acts cmdl rsv p2g uu rem efi bios swp root _ rmo out := self in
  mkDiskConfigurator d0 d1 d2 d3 d4 u0 u1 u2 u3 u4 u5 acts cmdl rsv p2g uu rem efi bios swp root v rmo out.

Definition set_DISK_ID_ROOT_MOUNT_OPTS (v : option string) (self : DiskConfigurator) : DiskConfigurator :=
  let 'mkDiskConfigurator d0 d1 d2 d3 d4 u0 u1 u2 u3 u4 u5 acts cmdl rsv p2g uu rem efi bios swp root rty _ out := self in
  mkDiskConfigurator d0 d1 d2 d3 d4 u0 u1 u2 u3 u4 u5 acts cmdl rsv p2g uu rem efi bios swp root rty v out.

Definition set_stdout (v : list string) (self : DiskConfigurator) : DiskConfigurator :=
  let 'mkDiskConfigurator d0 d1 d2 d3 d4 u0 u1 u2 u3 u4 u5 acts cmdl rsv p2g uu rem efi bios swp root rty rmo _ := self in
  mkDiskConfigurator d0 d1 d2 d3 d4 u0 u1 u2 u3 u4 u5 acts cmdl rsv p2g uu rem efi bios swp root rty rmo v.


(** Computations over the configurator. *)
Abbreviation M := (Py.M DiskConfigurator).

(** [print(line)]. *)
Definition print (line : string) : M unit :=
  modify (fun self => set_stdout (stdout self ++ [line]) self).

(** [die_trace(exit_code, message)]: the message goes to stderr and the
    process exits; the exception carries both. *)
Definition die_trace {A : Type} (exit_code : Z) (message : string) : M A :=
  raise (SystemExit exit_code message).

(** The placeholder of config.py: [f"STUB-UUID-{base64_id[:4]}"]. *)
Definition load_or_generate_uuid (base64_id : string) : string :=
  "STUB-UUID-" +:+ slice_to 4 base64_id.

Definition create_resolve_entry (new_id resolve_type resolve_value : string) : M unit :=
  print ("DEBUG: Registered " +:+ new_id +:+ " -> " +:+ resolve_type +:+ "=" +:+ resolve_value).

Definition create_resolve_entry_device (new_id device : string) : M unit :=
  print ("DEBUG: Registered " +:+ new_id +:+ " -> device=" +:+ device).

(** [DiskConfigurator.__init__]. *)
Definition init (base_dir : string) : DiskConfigurator :=
  {| TMP_DIR := base_dir;
     ROOT_MOUNTPOINT := os_path_join base_dir "root";
     GENTOO_INSTALL_REPO_BIND := os_path_join base_dir "bind";
     UUID_STORAGE_DIR := os_path_join base_dir "uuids";
     LUKS_HEADER_BACKUP_DIR := os_path_join base_dir "luks-headers";
     USED_RAID := false; USED_LUKS := false; USED_ZFS := false; USED_BTRFS := false;
     USED_ENCRYPTION := false; NO_PARTITIONING_OR_FORMATTING := false;
     DISK_ACTIONS := []; DISK_DRACUT_CMDLINE := [];
     DISK_ID_TO_RESOLVABLE := ∅; DISK_ID_PART_TO_GPT_ID := ∅;
     DISK_ID_TO_UUID := ∅; DISK_GPT_HAD_SIZE_REMAINING := ∅;
     DISK_ID_EFI := None; DISK_ID_BIOS := None; DISK_ID_SWAP := None;
     DISK_ID_ROOT := None; DISK_ID_ROOT_TYPE := None; DISK_ID_ROOT_MOUNT_OPTS := None;
     stdout := [] |}.

(** [self.DISK_ACTIONS.append(action)]. *)
Definition append_action (action : string) : M unit :=
  modify (fun self => set_DISK_ACTIONS (DISK_ACTIONS self ++ [action]) self).

Definition only_one_of (arguments : gmap string string) (keys : list string) : M unit :=
  let present_keys := List.filter (fun key => dict_in key arguments) keys in
  when (1 <? length present_keys)%nat
    (die_trace 2 ("Only one of the arguments (" +:+ join ", " keys +:+ ") can be given")).

Definition create_new_id (arguments : gmap string string) (arg_name : string) : M unit :=
  let id_val := arguments !! arg_name in
  match given id_val with
  | None => die_trace 2 ("Argument '" +:+ arg_name +:+ "' is required for ID creation.")
  | Some id_val =>
      when (contains_char ";" id_val)
        (die_trace 2 "Identifier contains invalid character ';'") ;;
      uuids <- gets DISK_ID_TO_UUID ;;
      when (dict_in id_val uuids)
        (die_trace 2 ("Identifier '" +:+ id_val +:+ "' already exists")) ;;
      let base64_id := hex (encode_utf8 id_val) in
      modify (fun self =>
        set_DISK_ID_TO_UUID (<[id_val := load_or_generate_uuid base64_id]> (DISK_ID_TO_UUID self)) self)
  end.

Definition verify_existing_id (arguments : gmap string string) (arg_name : string) : M unit :=
  let id_val := arguments !! arg_name in
  uuids <- gets DISK_ID_TO_UUID ;;
  when (negb (match id_val with Some i => dict_in i uuids | None => false end))
    (die_trace 2 ("Identifier " +:+ arg_name +:+ "='" +:+ str_opt id_val +:+ "' not found")).

Definition verify_option (arguments : gmap string string) (opt : string)
    (valid_options : list string) : M unit :=
  let arg_val := arguments !! opt in
  when (negb (match arg_val with Some v => tuple_in v valid_options | None => false end))
    (die_trace 2 ("Invalid option " +:+ opt +:+ "='" +:+ str_opt arg_val +:+
                  "', must be one of (" +:+ join ", " valid_options +:+ ")")).

Definition register_existing (new_id device : string) : M unit :=
  let arguments : gmap string string := <["device" := device]> {["new_id" := new_id]} in
  create_new_id arguments "new_id" ;;
  create_resolve_entry_device new_id device ;;
  append_action ("action=existing new_id=" +:+ new_id +:+ " device=" +:+ device +:+ ";").

Definition create_gpt (new_id : string) (device id_val : option string) : M unit :=
  let arguments : gmap string string := {["new_id" := new_id]} in
  let arguments :=
    match given device with Some d => <["device" := d]> arguments | None => arguments end in
  let arguments :=
    match given id_val with Some i => <["id" := i]> arguments | None => arguments end in
  only_one_of arguments ["device"; "id"] ;;
  create_new_id arguments "new_id" ;;
  match given id_val with Some _ => verify_existing_id arguments "id" | None => ret tt end ;;
  uuids <- gets DISK_ID_TO_UUID ;;
  uuid <- getitem uuids new_id ;;
  create_resolve_entry new_id "ptuuid" uuid ;;
  let action := "action=create_gpt new_id=" +:+ new_id in
  let action :=
    match given device with Some d => action +:+ " device=" +:+ d | None => action end in
  let action :=
    match given id_val with Some i => action +:+ " id=" +:+ i | None => action end in
  append_action (action +:+ ";").

Definition partition_types : list string :=
  ["bios"; "efi"; "swap"; "raid"; "luks"; "linux"].

Definition create_partition (new_id id_val size type : string) : M unit :=
  let arguments : gmap string string :=
    <["type" := type]> (<["size" := size]> (<["id" := id_val]> {["new_id" := new_id]})) in
  create_new_id arguments "new_id" ;;
  verify_existing_id arguments "id" ;;
  verify_option arguments "type" partition_types ;;
  had_remaining <- gets DISK_GPT_HAD_SIZE_REMAINING ;;
  when (default false (had_remaining !! id_val))
    (die_trace 1 ("Cannot add another partition to table (" +:+ id_val +:+
                  ") after size=remaining was used")) ;;
  when (String.eqb size "remaining")
    (modify (fun self =>
       set_DISK_GPT_HAD_SIZE_REMAINING (<[id_val := true]> (DISK_GPT_HAD_SIZE_REMAINING self)) self)) ;;
  modify (fun self =>
    set_DISK_ID_PART_TO_GPT_ID (<[new_id := id_val]> (DISK_ID_PART_TO_GPT_ID self)) self) ;;
  uuids <- gets DISK_ID_TO_UUID ;;
  uuid <- getitem uuids new_id ;;
  create_resolve_entry new_id "partuuid" uuid ;;
  append_action ("action=create_partition new_id=" +:+ new_id +:+ " id=" +:+ id_val +:+
                 " size=" +:+ size +:+ " type=" +:+ type +:+ ";").

Definition create_classic_single_disk_layout
    (device swap type luks root_fs : string) : M unit :=
  let use_luks := String.eqb luks "true" in
  create_gpt "gpt" (Some device) None ;;
  create_partition ("part_" +:+ type) "gpt" "1GiB" type ;;
  when (negb (String.eqb swap "false"))
    (create_partition "part_swap" "gpt" swap "swap") ;;
  create_partition "part_root" "gpt" "remaining" "linux" ;;
  root_id <-
    (if use_luks then
       modify (set_USED_LUKS true) ;;
       modify (set_USED_ENCRYPTION true) ;;
       append_action "action=create_luks new_id=part_luks_root name=root id=part_root;" ;;
       uuids <- gets DISK_ID_TO_UUID ;;
       luks_uuid <- getitem uuids "part_luks_root" ;;
       modify (fun self =>
         set_DISK_DRACUT_CMDLINE (DISK_DRACUT_CMDLINE self ++ ["rd.luks.uuid=" +:+ luks_uuid]) self) ;;
       ret "part_luks_root"
     else ret "part_root") ;;
  append_action ("action=format id=part_" +:+ type +:+ " type=" +:+ type +:+ " label=" +:+ type +:+ ";") ;;
  when (negb (String.eqb swap "false"))
    (append_action "action=format id=part_swap type=swap label=swap;") ;;
  append_action ("action=format id=" +:+ root_id +:+ " type=" +:+ root_fs +:+ " label=root;") ;;
  (if String.eqb type "efi"
   then modify (set_DISK_ID_EFI (Some ("part_" +:+ type)))
   else modify (set_DISK_ID_BIOS (Some ("part_" +:+ type)))) ;;
  when (negb (String.eqb swap "false"))
    (modify (set_DISK_ID_SWAP (Some "part_swap"))) ;;
  modify (set_DISK_ID_ROOT (Some root_id)) ;;
  modify (set_DISK_ID_ROOT_TYPE (Some root_fs)) ;;
  if String.eqb root_fs "btrfs" then
    modify (set_DISK_ID_ROOT_MOUNT_OPTS (Some "defaults,noatime,compress-force=zstd,subvol=/root"))
  else if String.eqb root_fs "ext4" then
    modify (set_DISK_ID_ROOT_MOUNT_OPTS (Some "defaults,noatime,errors=remount-ro,discard"))
  else
    die_trace 1 "Unsupported root filesystem type".

End Config.

(** ** [scripts/utils.py]: device resolution and the UUID store *)

Module Utils.
Import Py.
Local Open Scope py_scope.

(** [UUID_STORAGE_DIR], the directory of the persisted UUID store. *)
Definition UUID_STORAGE_DIR : string := "/tmp/gentoo-install/uuids".

(** What [subprocess.run(cmd, check=True, capture_output=True, text=True)]
    can do: complete with an output, exit with a non-zero status
    ([CalledProcessError], with the text of stderr), or not find the program
    ([FileNotFoundError]). *)
Inductive completed : Type :=
| Completed (out : string)
| NonZeroExit (err : string)
| NoSuchProgram.

(** What a call on the file system can do: succeed, raise
    [FileNotFoundError], or raise another [OSError], whose text ([str(e)]) is
    [text]. *)
Inductive io_outcome : Type :=
| IoOk
| IoNotFound
| IoError (text : string).

(** The machine the installer runs on, as the resolver observes it. *)
Record System : Type := mkSystem {
  subprocess_run : list string -> completed;
  (** paths that exist and are not regular files (device nodes, symbolic
      links, directories), given the directories that [os.makedirs] has been
      asked for since the process started *)
  special_exists : list string -> string -> bool;
  (** [os.path.realpath], which resolves as far as it can and does not raise *)
  realpath : string -> string;
  (** [os.listdir]; [None] when the directory cannot be listed ([OSError]) *)
  listdir : string -> option (list string);
  (** the text of the [OSError] that reading a path raises when it exists
      and is not a regular file *)
  read_error : string -> string;
  (** [os.makedirs(d, exist_ok=True)], [open(f, 'w')], and the write of the
      text with the close of the file at the end of the [with] block *)
  makedirs : string -> io_outcome;
  open_w : string -> io_outcome;
  write_w : string -> io_outcome
}.

(** The module globals of utils.py and what the process can change on the
    file system: the regular files, by path, and the directories that
    [os.makedirs] has been asked for, the latest first (a call makes what it
    can, also when it raises). *)
Record World : Type := mkWorld {
  DISK_ID_TO_RESOLVABLE : gmap string string;
  CACHED_LSBLK_OUTPUT : option string;
  files : gmap string string;
  made_dirs : list string
}.

Definition set_CACHED_LSBLK_OUTPUT (v : option string) (w : World) : World :=
  let 'mkWorld rsv _ fs ds := w in mkWorld rsv v fs ds.

Definition set_files (v : gmap string string) (w : World) : World :=
  let 'mkWorld rsv cache _ ds := w in mkWorld rsv cache v ds.

Definition set_made_dirs (v : list string) (w : World) : World :=
  let 'mkWorld rsv cache fs _ := w in mkWorld rsv cache fs v.

Abbreviation M := (Py.M World).

(** [die(message)]: the message goes to stderr and the process exits with
    status 1 (the signal sent to the parent script is left out). *)
Definition die {A : Type} (message : string) : M A :=
  raise (SystemExit 1 message).

(** [os.path.exists(path)]. *)
Definition os_path_exists (sys : System) (path : string) : M bool :=
  gets (fun w => dict_in path (files w) || special_exists sys (made_dirs w) path).

(** The match, at the start of a line, of the pattern DEVNAME=Q?(G+)Q? where Q
    is a single or double quote and G any character but a quote or a newline:
    group 1. *)
Definition devname_char (c : ascii) : bool :=
  negb (Ascii.eqb c dquote_char || Ascii.eqb c "'" || Ascii.eqb c "010").

Definition skip_optional_quote (s : string) : string :=
  match s with
  | String c s' => if Ascii.eqb c dquote_char || Ascii.eqb c "'" then s' else s
  | EmptyString => s
  end.

Definition match_devname (s : string) : option string :=
  match strip_prefix "DEVNAME=" s with
  | None => None
  | Some r =>
      let (g, _) := span devname_char (skip_optional_quote r) in
      if truthy g then Some g else None
  end.

(** The match, at a position, of the pattern name=D(N+)D ptuuid=D<ptuuid>D
    partuuid=DD where D is the double quote and N any other character: group 1. *)
Definition lsblk_row_tail (ptuuid : string) : string :=
  dquote +:+ " ptuuid=" +:+ dquote +:+ ptuuid +:+ dquote +:+ " partuuid=" +:+ dquote +:+ dquote.

Definition match_lsblk_row (ptuuid : string) (s : string) : option string :=
  match strip_prefix ("name=" +:+ dquote) s with
  | None => None
  | Some r =>
      let (g, r') := span (fun c => negb (Ascii.eqb c dquote_char)) r in
      if truthy g then
        match strip_prefix (lsblk_row_tail ptuuid) r' with
        | Some _ => Some g
        | None => None
        end
      else None
  end.

(** The match of [array (\S+)\s+uuid=<mduuid>] at a position: group 1.  The
    pattern is searched with [re.IGNORECASE] in a text that has been
    lower-cased, and its own letters and [mduuid] are lower-case: the flag
    changes nothing. *)
Definition match_mdadm_array (mduuid : string) (s : string) : option string :=
  match strip_prefix "array " s with
  | None => None
  | Some r =>
      let (g, r') := span (fun c => negb (isspace c)) r in
      let (sp, r'') := span isspace r' in
      if truthy g && truthy sp then
        match strip_prefix ("uuid=" +:+ mduuid) r'' with
        | Some _ => Some g
        | None => None
        end
      else None
  end.

Definition blkid_gc_cmd : list string := ["blkid"; "-g"; "-c"; "/dev/null"].

Definition blkid_export_cmd (device tag_value : option string) : list string :=
  let cmd := ["blkid"; "-c"; "/dev/null"; "-o"; "export"] in
  let cmd := match given tag_value with Some t => (cmd ++ ["-t"; t])%list | None => cmd end in
  match given device with Some d => (cmd ++ [d])%list | None => cmd end.

Definition _run_blkid_export (sys : System) (device tag_value : option string) : M string :=
  match subprocess_run sys blkid_gc_cmd with
  | Completed _ => ret tt
  | NonZeroExit _ => raise (CalledProcessError blkid_gc_cmd)
  | NoSuchProgram => raise (OSError "blkid")
  end ;;
  let cmd := blkid_export_cmd device tag_value in
  match subprocess_run sys cmd with
  | Completed out => ret out
  | NonZeroExit err =>
      match given tag_value with
      | None => die ("Error while executing blkid for device '" +:+ str_opt device +:+ "': " +:+ err)
      | Some _ => ret ""
      end
  | NoSuchProgram => raise (OSError "blkid")
  end.

Definition get_device_by_blkid_field (sys : System) (blkid_field field_value : string) : M string :=
  let tag_value := blkid_field +:+ "=" +:+ field_value in
  dev_output <- _run_blkid_export sys None (Some tag_value) ;;
  match re_search_bol match_devname true dev_output with
  | None => die ("Could not find device by blkid tag '" +:+ tag_value +:+ "'")
  | Some g => ret (strip g)
  end.

Definition get_device_by_partuuid (sys : System) (partuuid : string) : M string :=
  let by_path := "/dev/disk/by-partuuid/" +:+ partuuid in
  found <- os_path_exists sys by_path ;;
  if (found : bool) then ret by_path else get_device_by_blkid_field sys "PARTUUID" partuuid.

Definition get_device_by_uuid (sys : System) (uuid : string) : M string :=
  let by_path := "/dev/disk/by-uuid/" +:+ uuid in
  found <- os_path_exists sys by_path ;;
  if (found : bool) then ret by_path else get_device_by_blkid_field sys "UUID" uuid.

Definition lsblk_cmd : list string :=
  ["lsblk"; "--all"; "--path"; "--pairs"; "--output"; "NAME,PTUUID,PARTUUID"].

Definition cache_lsblk_output (sys : System) : M unit :=
  match subprocess_run sys lsblk_cmd with
  | Completed out => modify (set_CACHED_LSBLK_OUTPUT (Some out))
  | NonZeroExit err => die ("Error while executing lsblk to cache output: " +:+ err)
  | NoSuchProgram => die "lsblk command not found."
  end.

Definition get_device_by_ptuuid (sys : System) (ptuuid : string) : M string :=
  let ptuuid := lower ptuuid in
  cached <- gets CACHED_LSBLK_OUTPUT ;;
  when (negb (is_Some_b cached)) (cache_lsblk_output sys) ;;
  output <- gets CACHED_LSBLK_OUTPUT ;;
  match given output with
  | None => die "lsblk output cache is empty."
  | Some output =>
      match re_search (match_lsblk_row ptuuid) (lower output) with
      | None => die ("Could not find PTUUID='" +:+ ptuuid +:+ "' in lsblk output")
      | Some name => ret name
      end
  end.

Definition uuid_to_mduuid (uuid : string) : string :=
  let uuid := remove_char "-" (lower uuid) in
  substring 0 8 uuid +:+ ":" +:+ substring 8 8 uuid +:+ ":" +:+
  substring 16 8 uuid +:+ ":" +:+ substring 24 8 uuid.

Definition mdadm_cmd : list string := ["mdadm"; "--examine"; "--scan"].

Definition get_device_by_mdadm_uuid (sys : System) (uuid : string) : M string :=
  let mduuid := uuid_to_mduuid uuid in
  match subprocess_run sys mdadm_cmd with
  | NonZeroExit err =>
      die ("Error while executing mdadm to find array with UUID=" +:+ mduuid +:+ ": " +:+ err)
  | NoSuchProgram => die "mdadm command not found."
  | Completed out =>
      match re_search (match_mdadm_array mduuid) (lower out) with
      | None => die ("Could not find UUID='" +:+ mduuid +:+ "' in mdadm output")
      | Some dev => ret dev
      end
  end.

Definition get_device_by_luks_name (name : string) : string := "/dev/mapper/" +:+ name.

(** The loop of [canonicalize_device] over the entries of /dev/disk/by-id. *)
Fixpoint canonicalize_loop (sys : System) (given_dev_realpath given_dev : string)
    (entries : list string) : string :=
  match entries with
  | [] => given_dev
  | dev_id_path :: rest =>
      let full_path := os_path_join "/dev/disk/by-id" dev_id_path in
      if String.eqb (realpath sys full_path) given_dev_realpath then full_path
      else canonicalize_loop sys given_dev_realpath given_dev rest
  end.

Definition canonicalize_device (sys : System) (given_dev : string) : M string :=
  let given_dev_realpath := realpath sys given_dev in
  match listdir sys "/dev/disk/by-id" with
  | None => raise (OSError "/dev/disk/by-id")
  | Some entries => ret (canonicalize_loop sys given_dev_realpath given_dev entries)
  end.

Definition resolve_device_by_id (sys : System) (id_val : string) : M string :=
  table <- gets DISK_ID_TO_RESOLVABLE ;;
  when (negb (dict_in id_val table))
    (die ("Cannot resolve id='" +:+ id_val +:+ "' to a block device (no table entry)")) ;;
  entry <- getitem table id_val ;;
  when (negb (contains_char ":" entry))
    (die ("Invalid resolve entry format: '" +:+ entry +:+ "'")) ;;
  let (type_val, arg) := split_once ":" entry in
  dev <-
    (if String.eqb type_val "partuuid" then get_device_by_partuuid sys arg
     else if String.eqb type_val "ptuuid" then get_device_by_ptuuid sys arg
     else if String.eqb type_val "uuid" then get_device_by_uuid sys arg
     else if String.eqb type_val "mdadm" then get_device_by_mdadm_uuid sys arg
     else if String.eqb type_val "luks" then ret (get_device_by_luks_name arg)
     else if String.eqb type_val "device" then ret arg
     else die ("Cannot resolve '" +:+ entry +:+ "' to device (unknown type)")) ;;
  canonicalize_device sys dev.

Definition uuidgen_cmd : list string := ["uuidgen"; "-r"].

(** A call on the file system inside the [try] of the generating branch,
    with the [except] clauses in their order: a [FileNotFoundError] is
    reported as a missing uuidgen wherever it comes from, any other [IOError]
    as a failed write, with its text. *)
Definition io_or_die (uuid_file : string) (o : io_outcome) : M unit :=
  match o with
  | IoOk => ret tt
  | IoNotFound => die "uuidgen command not found."
  | IoError text => die ("Failed to write UUID file " +:+ uuid_file +:+ ": " +:+ text)
  end.

(** [load_or_generate_uuid].  A path that exists and is not a regular file
    cannot be read.  [os.makedirs] is recorded before its outcome is known;
    [open(uuid_file, 'w')] creates the file, or empties it, before anything is
    written; the text reaches the file when the write and the close of the
    [with] block succeed. *)
Definition load_or_generate_uuid (sys : System) (base64_id : string) : M string :=
  let uuid_file := os_path_join UUID_STORAGE_DIR base64_id in
  found <- os_path_exists sys uuid_file ;;
  if (found : bool) then
    fs <- gets files ;;
    match fs !! uuid_file with
    | Some content => ret (strip content)
    | None =>
        die ("Failed to read UUID file " +:+ uuid_file +:+ ": " +:+ read_error sys uuid_file)
    end
  else
    match subprocess_run sys uuidgen_cmd with
    | NonZeroExit err => die ("Failed to execute uuidgen: " +:+ err)
    | NoSuchProgram => die "uuidgen command not found."
    | Completed out =>
        let uuid := strip out in
        modify (fun w => set_made_dirs (UUID_STORAGE_DIR :: made_dirs w) w) ;;
        io_or_die uuid_file (makedirs sys UUID_STORAGE_DIR) ;;
        io_or_die uuid_file (open_w sys uuid_file) ;;
        modify (fun w => set_files (<[uuid_file := ""]> (files w)) w) ;;
        io_or_die uuid_file (write_w sys uuid_file) ;;
        modify (fun w => set_files (<[uuid_file := uuid]> (files w)) w) ;;
        ret uuid
    end.

End Utils.

(** ** What the resolver's patterns look for

    The language of each of the three patterns, stated on the text that is
    searched: the text has an occurrence of the pattern if it splits into what
    comes before, the pieces of the pattern, and what comes after.  These are
    the readings of "a matching entry in the output of the probe utility". *)

Module ResolverSpec.
Import Py Utils.

Definition newline : string := String "010" "".

(** The start of the text or of a line. *)
Definition line_start (pre : string) : Prop :=
  pre = "" \/ exists pre', pre = pre' +:+ newline.

(** A line of the blkid export that names the device. *)
Definition devname_line (out : string) : Prop :=
  exists pre q g post,
    out = pre +:+ "DEVNAME=" +:+ q +:+ g +:+ post /\
    line_start pre /\
    (q = "" \/ q = dquote \/ q = "'") /\
    g <> "" /\ all_chars devname_char g = true.

(** A row of the lsblk output, lower-cased, whose table UUID is [ptuuid] and
    whose partition UUID is empty. *)
Definition lsblk_row (ptuuid text : string) : Prop :=
  exists pre name post,
    text = pre +:+ "name=" +:+ dquote +:+ name +:+ lsblk_row_tail ptuuid +:+ post /\
    name <> "" /\ all_chars (fun c => negb (Ascii.eqb c dquote_char)) name = true.

(** An array of the mdadm scan, lower-cased, whose UUID is [mduuid]. *)
Definition mdadm_array (mduuid text : string) : Prop :=
  exists pre dev sp post,
    text = pre +:+ "array " +:+ dev +:+ sp +:+ "uuid=" +:+ mduuid +:+ post /\
    dev <> "" /\ all_chars (fun c => negb (isspace c)) dev = true /\
    sp <> "" /\ all_chars isspace sp = true.

(** [needle] occurs in [text]. *)
Definition occurs (needle text : string) : Prop :=
  exists pre post, text = pre +:+ needle +:+ post.

(** blkid reports no device for the tag: the export exits with a non-zero
    status, or its output has no DEVNAME line. *)
Definition blkid_no_match (sys : System) (blkid_field field_value : string) : Prop :=
  (exists err,
      subprocess_run sys (blkid_export_cmd None (Some (blkid_field +:+ "=" +:+ field_value))) =
        NonZeroExit err) \/
  (exists out,
      subprocess_run sys (blkid_export_cmd None (Some (blkid_field +:+ "=" +:+ field_value))) =
        Completed out /\ ~ devname_line out).

(** The locator [entry] of the resolve table matches nothing on the system:
    - partuuid, uuid: no symbolic link for the UUID and no blkid match;
    - ptuuid: no matching row in the lsblk output that the resolver reads (the
      cached one, or the one lsblk returns now);
    - mdadm: no matching array in the mdadm scan. *)
Inductive no_probe_match (sys : System) (w : World) : string -> Prop :=
| no_partuuid value :
    files w !! ("/dev/disk/by-partuuid/" +:+ value) = None ->
    special_exists sys (made_dirs w) ("/dev/disk/by-partuuid/" +:+ value) = false ->
    blkid_no_match sys "PARTUUID" value ->
    no_probe_match sys w ("partuuid:" +:+ value)
| no_uuid value :
    files w !! ("/dev/disk/by-uuid/" +:+ value) = None ->
    special_exists sys (made_dirs w) ("/dev/disk/by-uuid/" +:+ value) = false ->
    blkid_no_match sys "UUID" value ->
    no_probe_match sys w ("uuid:" +:+ value)
| no_ptuuid value :
    (forall out, CACHED_LSBLK_OUTPUT w = Some out -> ~ lsblk_row (lower value) (lower out)) ->
    (forall out, CACHED_LSBLK_OUTPUT w = None ->
                 subprocess_run sys lsblk_cmd = Completed out ->
                 ~ lsblk_row (lower value) (lower out)) ->
    no_probe_match sys w ("ptuuid:" +:+ value)
| no_mdadm value :
    (forall out, subprocess_run sys mdadm_cmd = Completed out ->
                 ~ mdadm_array (uuid_to_mduuid value) (lower out)) ->
    no_probe_match sys w ("mdadm:" +:+ value).

End ResolverSpec.

(** ** Sample systems *)

Module Samples.
Import Py Utils.

(** A machine without the directory /dev/disk/by-id and without the probe
    programs. *)
Definition bare_system : System :=
  {| subprocess_run := fun _ => NoSuchProgram;
     special_exists := fun _ _ => false;
     realpath := fun path => path;
     listdir := fun _ => None;
     read_error := fun _ => "[Errno 21] Is a directory";
     makedirs := fun _ => IoOk;
     open_w := fun _ => IoOk;
     write_w := fun _ => IoOk |}.

(** A machine with one disk, /dev/sda, that has an alias in /dev/disk/by-id;
    lsblk lists the disk and one partition, blkid finds nothing, and uuidgen
    prints the UUID [uuid] followed by a newline. *)
Definition one_disk_system (uuid : string) : System :=
  {| subprocess_run := fun cmd =>
       if decide (cmd = lsblk_cmd) then
         Completed ("NAME=" +:+ dquote +:+ "/dev/sda" +:+ dquote +:+
                    " PTUUID=" +:+ dquote +:+ "0AF3" +:+ dquote +:+
                    " PARTUUID=" +:+ dquote +:+ dquote +:+ String "010" "" +:+
                    "NAME=" +:+ dquote +:+ "/dev/sda1" +:+ dquote +:+
                    " PTUUID=" +:+ dquote +:+ "0AF3" +:+ dquote +:+
                    " PARTUUID=" +:+ dquote +:+ "77" +:+ dquote +:+ String "010" "")
       else if decide (cmd = blkid_gc_cmd) then Completed ""
       else if decide (cmd = uuidgen_cmd) then Completed (uuid +:+ String "010" "")
       else if decide (cmd = mdadm_cmd) then Completed ""
       else NonZeroExit "";
     special_exists := fun _ _ => false;
     realpath := fun path =>
       if decide (path = "/dev/disk/by-id/ata-DISK0") then "/dev/sda" else path;
     listdir := fun _ => Some ["wwn-0x5000"; "ata-DISK0"];
     read_error := fun _ => "[Errno 21] Is a directory";
     makedirs := fun _ => IoOk;
     open_w := fun _ => IoOk;
     write_w := fun _ => IoOk |}.

Definition sample_world : World :=
  {| DISK_ID_TO_RESOLVABLE :=
       <["disk" := "device:/dev/sda"]>
         (<["table" := "ptuuid:dead-beef"]>
            (<["root" := "partuuid:1234"]> (<["md" := "mdadm:aa-bb"]> ∅)));
     CACHED_LSBLK_OUTPUT := None;
     files := ∅;
     made_dirs := [] |}.

(** A machine on which every command runs and exits with an error: blkid
    fails already at the collection of its cache. *)
Definition failing_tools_system : System :=
  {| subprocess_run := fun _ => NonZeroExit "error";
     special_exists := fun _ _ => false;
     realpath := fun path => path;
     listdir := fun _ => Some [];
     read_error := fun _ => "[Errno 21] Is a directory";
     makedirs := fun _ => IoOk;
     open_w := fun _ => IoOk;
     write_w := fun _ => IoOk |}.


End Samples.

(** ** Sequences of builder calls

    A driver that issues builder calls one after another and, like the
    [try ... except SystemExit] of the [__main__] block of config.py, goes on
    after a rejected call.  It is used to state properties of whole plans. *)

Module Driver.
Import Py Config.

Inductive call : Type :=
| Register_existing (new_id device : string)
| Create_gpt (new_id : string) (device id_val : option string)
| Create_partition (new_id id_val size type : string).

Definition exec (c : call) : M unit :=
  match c with
  | Register_existing new_id device => register_existing new_id device
  | Create_gpt new_id device id_val => create_gpt new_id device id_val
  | Create_partition new_id id_val size type => create_partition new_id id_val size type
  end.

(** The identifier that a call asks the registry to mint. *)
Definition new_id_of (c : call) : string :=
  match c with
  | Register_existing new_id _ => new_id
  | Create_gpt new_id _ _ => new_id
  | Create_partition new_id _ _ _ => new_id
  end.

(** The UUID that [create_new_id] assigns to an identifier, and the
    configurator after the identifier has been minted. *)
Definition uuid_for (id : string) : string :=
  load_or_generate_uuid (hex (encode_utf8 id)).

Definition minted (id : string) (self : DiskConfigurator) : DiskConfigurator :=
  set_DISK_ID_TO_UUID (<[id := uuid_for id]> (DISK_ID_TO_UUID self)) self.

(** *** Summaries of the builder calls

    What each call does, written as one case analysis: the error of the first
    failing check, or the configurator after an accepted call.  The section on
    the equations of the builder proves that the methods of config.py compute
    exactly these. *)

(** The rejection of [create_new_id] for the argument [new_id], if any. *)
Definition new_id_error (new_id : string) (self : DiskConfigurator) : option exn :=
  if negb (truthy new_id) then
    Some (SystemExit 2 "Argument 'new_id' is required for ID creation.")
  else if contains_char ";" new_id then
    Some (SystemExit 2 "Identifier contains invalid character ';'")
  else if dict_in new_id (DISK_ID_TO_UUID self) then
    Some (SystemExit 2 ("Identifier '" +:+ new_id +:+ "' already exists"))
  else None.

Definition not_found_error (arg_name id : string) : exn :=
  SystemExit 2 ("Identifier " +:+ arg_name +:+ "='" +:+ id +:+ "' not found").

Definition only_one_error : exn :=
  SystemExit 2 "Only one of the arguments (device, id) can be given".

Definition invalid_type_error (type : string) : exn :=
  SystemExit 2 ("Invalid option type='" +:+ type +:+
                "', must be one of (bios, efi, swap, raid, luks, linux)").

Definition table_full_error (id_val : string) : exn :=
  SystemExit 1 ("Cannot add another partition to table (" +:+ id_val +:+
                ") after size=remaining was used").

(** The text of the actions. *)
Definition existing_action (new_id device : string) : string :=
  "action=existing new_id=" +:+ new_id +:+ " device=" +:+ device +:+ ";".

Definition gpt_action (new_id : string) (device id_val : option string) : string :=
  let action := "action=create_gpt new_id=" +:+ new_id in
  let action :=
    match given device with Some d => action +:+ " device=" +:+ d | None => action end in
  let action :=
    match given id_val with Some i => action +:+ " id=" +:+ i | None => action end in
  action +:+ ";".

Definition partition_action (new_id id_val size type : string) : string :=
  "action=create_partition new_id=" +:+ new_id +:+ " id=" +:+ id_val +:+
  " size=" +:+ size +:+ " type=" +:+ type +:+ ";".


(** The configurator after an accepted call. *)
Definition logged (line action : string) (self : DiskConfigurator) : DiskConfigurator :=
  let self := set_stdout (stdout self ++ [line]) self in
  set_DISK_ACTIONS (DISK_ACTIONS self ++ [action]) self.

Definition existing_post (new_id device : string) (self : DiskConfigurator) : DiskConfigurator :=
  logged ("DEBUG: Registered " +:+ new_id +:+ " -> device=" +:+ device)
         (existing_action new_id device) (minted new_id self).

Definition gpt_post (new_id : string) (device id_val : option string)
    (self : DiskConfigurator) : DiskConfigurator :=
  logged ("DEBUG: Registered " +:+ new_id +:+ " -> ptuuid=" +:+ uuid_for new_id)
         (gpt_action new_id device id_val) (minted new_id self).

Definition partition_post (new_id id_val size type : string)
    (self : DiskConfigurator) : DiskConfigurator :=
  let self := minted new_id self in
  let self :=
    if String.eqb size "remaining"
    then set_DISK_GPT_HAD_SIZE_REMAINING (<[id_val := true]> (DISK_GPT_HAD_SIZE_REMAINING self)) self
    else self in
  let self := set_DISK_ID_PART_TO_GPT_ID (<[new_id := id_val]> (DISK_ID_PART_TO_GPT_ID self)) self in
  logged ("DEBUG: Registered " +:+ new_id +:+ " -> partuuid=" +:+ uuid_for new_id)
         (partition_action new_id id_val size type) self.

Definition register_existing_summary (new_id device : string) : M unit :=
  fun self =>
    match new_id_error new_id self with
    | Some e => (Raise e, self)
    | None => (Ok tt, existing_post new_id device self)
    end.

Definition create_gpt_summary (new_id : string) (device id_val : option string) : M unit :=
  fun self =>
    match given device, given id_val with
    | Some _, Some _ => (Raise only_one_error, self)
    | _, table =>
        match new_id_error new_id self with
        | Some e => (Raise e, self)
        | None =>
            match table with
            | Some i =>
                if dict_in i (DISK_ID_TO_UUID (minted new_id self))
                then (Ok tt, gpt_post new_id device id_val self)
                else (Raise (not_found_error "id" i), minted new_id self)
            | None => (Ok tt, gpt_post new_id device id_val self)
            end
        end
    end.

Definition create_partition_summary (new_id id_val size type : string) : M unit :=
  fun self =>
    match new_id_error new_id self with
    | Some e => (Raise e, self)
    | None =>
        if negb (dict_in id_val (DISK_ID_TO_UUID (minted new_id self))) then
          (Raise (not_found_error "id" id_val), minted new_id self)
        else if negb (tuple_in type partition_types) then
          (Raise (invalid_type_error type), minted new_id self)
        else if default false (DISK_GPT_HAD_SIZE_REMAINING self !! id_val) then
          (Raise (table_full_error id_val), minted new_id self)
        else (Ok tt, partition_post new_id id_val size type self)
    end.

Fixpoint run (cs : list call) (self : DiskConfigurator) : list (result unit) * DiskConfigurator :=
  match cs with
  | [] => ([], self)
  | c :: cs' =>
      let (r, self1) := exec c self in
      let (rs, self2) := run cs' self1 in
      (r :: rs, self2)
  end.


(** The plan of the classic single-disk recipe: table, boot partition, swap
    partition unless [swap] is "false", root partition, encryption action when
    [luks] is "true", then the format actions. *)
Definition classic_root_id (luks : string) : string :=
  if String.eqb luks "true" then "part_luks_root" else "part_root".

Definition classic_plan (device swap type luks root_fs : string) : list string :=
  [gpt_action "gpt" (Some device) None;
   partition_action ("part_" +:+ type) "gpt" "1GiB" type] ++
  (if String.eqb swap "false" then []
   else [partition_action "part_swap" "gpt" swap "swap"]) ++
  [partition_action "part_root" "gpt" "remaining" "linux"] ++
  (if String.eqb luks "true"
   then ["action=create_luks new_id=part_luks_root name=root id=part_root;"] else []) ++
  ["action=format id=part_" +:+ type +:+ " type=" +:+ type +:+ " label=" +:+ type +:+ ";"] ++
  (if String.eqb swap "false" then []
   else ["action=format id=part_swap type=swap label=swap;"]) ++
  ["action=format id=" +:+ classic_root_id luks +:+ " type=" +:+ root_fs +:+ " label=root;"].

(** The table [t] is registered and a partition of size remaining has been
    placed on it. *)
Definition table_full (t : string) (self : DiskConfigurator) : Prop :=
  DISK_GPT_HAD_SIZE_REMAINING self !! t = Some true /\
  is_Some (DISK_ID_TO_UUID self !! t).

End Driver.

(** ** The rest of [scripts/config.py] *)

Module ConfigRest.
Import Py Config.
Local Open Scope py_scope.

(** [s.split(c)] for a one-character separator: the pieces between the
    separators; there is always at least one piece. *)
Fixpoint split_char (c : ascii) (s : string) : list string :=
  match s with
  | EmptyString => [""]
  | String d s' =>
      if Ascii.eqb c d then "" :: split_char c s'
      else
        match split_char c s' with
        | piece :: pieces => String d piece :: pieces
        | [] => [String d ""]
        end
  end.

(** One step of the loop of [parse_arguments_python]. *)
Definition parse_argument (acc : gmap string string * list string) (arg : string)
    : gmap string string * list string :=
  let (arguments, extra_arguments) := acc in
  if contains_char "=" arg then
    let (key, value) := split_once "=" arg in
    (<[key := value]> arguments, extra_arguments)
  else (arguments, (extra_arguments ++ [arg])%list).

Definition parse_arguments_python (arg_list : list string)
    : gmap string string * list string :=
  fold_left parse_argument arg_list (∅, []).

(** [[i.strip() for i in ids_str.split(';') if i.strip()]]. *)
Definition id_list (ids_str : string) : list string :=
  List.filter truthy (map strip (split_char ";" ids_str)).

(** The loop over the identifiers of [verify_existing_unique_ids]. *)
Fixpoint verify_known (arg : string) (ids : list string) : M unit :=
  match ids with
  | [] => ret tt
  | id_val :: rest =>
      uuids <- gets DISK_ID_TO_UUID ;;
      when (negb (dict_in id_val uuids))
        (die_trace 2 (arg +:+ "=... contains unknown identifier '" +:+ id_val +:+ "'")) ;;
      verify_known arg rest
  end.

Definition verify_existing_unique_ids (arguments : gmap string string) (arg : string) : M unit :=
  let ids_str := default "" (arguments !! arg) in
  let ids := id_list ids_str in
  when (match ids with [] => true | _ :: _ => false end)
    (die_trace 2 (arg +:+ "=... must contain at least one entry")) ;;
  when (negb (Nat.eqb (length ids) (length (remove_dups ids))))
    (die_trace 2 (arg +:+ "=... contains duplicate identifiers")) ;;
  verify_known arg ids.

End ConfigRest.

(** ** The rest of the device utilities of [scripts/utils.py] *)

Module UtilsRest.
Import Py Utils.
Local Open Scope py_scope.

Definition shorten_device (device_path : string) : string :=
  match strip_prefix "/dev/disk/by-id/" device_path with
  | Some rest => rest
  | None => device_path
  end.

(** The match, at the start of a line, of the pattern <field>=Q?(G+)Q? of
    [get_blkid_field_by_device] (the field is escaped, so it is matched as it
    is written): group 1. *)
Definition match_blkid_field (blkid_field : string) (s : string) : option string :=
  match strip_prefix (blkid_field +:+ "=") s with
  | None => None
  | Some r =>
      let (g, _) := span devname_char (skip_optional_quote r) in
      if truthy g then Some g else None
  end.

Definition partprobe_cmd : list string := ["partprobe"].

Definition get_blkid_field_by_device (sys : System) (blkid_field device : string) : M string :=
  match subprocess_run sys partprobe_cmd with
  | NoSuchProgram => raise (OSError "partprobe")
  | _ => ret tt
  end ;;
  val_output <- _run_blkid_export sys (Some device) None ;;
  match re_search_bol (match_blkid_field blkid_field) true val_output with
  | None =>
      die ("Could not find " +:+ blkid_field +:+ "=... in blkid output for device '" +:+
           device +:+ "'")
  | Some g => ret (strip g)
  end.

End UtilsRest.

(** ** The yes/no prompt of [scripts/utils.py] *)

Module Prompt.
Import Py.

(** The terminal of the installer: the lines still to be read from standard
    input (without their newline) and what has been written to standard
    output. *)
Record Terminal : Type := mkTerminal {
  stdin : list string;
  stdout : list string
}.

Definition yes_responses : list string := [""; "y"; "yes"].
Definition no_responses : list string := ["n"; "no"].

(** The [while True] loop of [ask]; [lines] is the standard input of the
    terminal, on which the loop recurs: every turn writes the prompt and reads
    one line, and the end of the input ([EOFError]) ends in [die]. *)
Fixpoint ask_loop (prompt : string) (lines : list string) : M Terminal bool :=
  fun t =>
    let t := {| stdin := stdin t; stdout := stdout t ++ [prompt +:+ " (Y/n) "] |} in
    match lines with
    | [] => (Raise (SystemExit 1 "Error in reading input (EOF)"), t)
    | line :: rest =>
        let t := {| stdin := rest; stdout := stdout t |} in
        let response := lower (strip line) in
        if tuple_in response yes_responses then (Ok true, t)
        else if tuple_in response no_responses then (Ok false, t)
        else ask_loop prompt rest t
    end.

Definition ask (prompt : string) : M Terminal bool :=
  fun t => ask_loop prompt (stdin t) t.

End Prompt.

(** ** Invariants of the configurator and the state after the partitions of
    the classic recipe *)

Module Invariants.
Import Py Config Driver.

(** Every registered identifier is a valid one and carries the UUID that
    [create_new_id] computes from its name. *)
Definition registry_ok (self : DiskConfigurator) : Prop :=
  forall id u,
    DISK_ID_TO_UUID self !! id = Some u ->
    id <> "" /\ contains_char ";" id = false /\ u = uuid_for id.

(** The membership map relates registered partitions to registered tables, and
    a table is marked only with [True], only when registered and only when a
    partition is recorded on it. *)
Definition membership_ok (self : DiskConfigurator) : Prop :=
  (forall p t,
     DISK_ID_PART_TO_GPT_ID self !! p = Some t ->
     is_Some (DISK_ID_TO_UUID self !! p) /\ is_Some (DISK_ID_TO_UUID self !! t)) /\
  (forall t b,
     DISK_GPT_HAD_SIZE_REMAINING self !! t = Some b ->
     b = true /\ is_Some (DISK_ID_TO_UUID self !! t) /\
     exists p, DISK_ID_PART_TO_GPT_ID self !! p = Some t).

(** The configurator after the table and the partitions of the classic
    recipe have been accepted. *)
Definition classic_partitions (device swap type : string) (self : DiskConfigurator)
    : DiskConfigurator :=
  let self := gpt_post "gpt" (Some device) None self in
  let self := partition_post ("part_" +:+ type) "gpt" "1GiB" type self in
  let self :=
    if String.eqb swap "false" then self
    else partition_post "part_swap" "gpt" swap "swap" self in
  partition_post "part_root" "gpt" "remaining" "linux" self.

(** The preconditions under which they are accepted. *)
Definition classic_accepts (swap type : string) (self : DiskConfigurator) : Prop :=
  type ∈ partition_types /\
  (swap = "false" \/ swap <> "remaining" /\ type <> "swap") /\
  DISK_ID_TO_UUID self !! "gpt" = None /\
  DISK_ID_TO_UUID self !! ("part_" +:+ type) = None /\
  (swap <> "false" -> DISK_ID_TO_UUID self !! "part_swap" = None) /\
  DISK_ID_TO_UUID self !! "part_root" = None /\
  DISK_GPT_HAD_SIZE_REMAINING self !! "gpt" <> Some true.

(** Two configurators with the same feature flags, dracut fragments and role
    identifiers. *)
Definition same_roles (s s' : DiskConfigurator) : Prop :=
  USED_LUKS s' = USED_LUKS s /\ USED_ENCRYPTION s' = USED_ENCRYPTION s /\
  DISK_DRACUT_CMDLINE s' = DISK_DRACUT_CMDLINE s /\
  DISK_ID_EFI s' = DISK_ID_EFI s /\ DISK_ID_BIOS s' = DISK_ID_BIOS s /\
  DISK_ID_SWAP s' = DISK_ID_SWAP s /\ DISK_ID_ROOT s' = DISK_ID_ROOT s /\
  DISK_ID_ROOT_TYPE s' = DISK_ID_ROOT_TYPE s /\
  DISK_ID_ROOT_MOUNT_OPTS s' = DISK_ID_ROOT_MOUNT_OPTS s.

(** The mount options that the recipe chooses for the root file system. *)
Definition root_mount_opts (root_fs : string) : string :=
  if String.eqb root_fs "btrfs" then "defaults,noatime,compress-force=zstd,subvol=/root"
  else "defaults,noatime,errors=remount-ro,discard".

End Invariants.

Import Py Config Driver.
Local Open Scope py_scope.

(** * Properties of the layout DSL *)

(** ** The encrypted single-disk scenario *)

(** C1. On a fresh configurator the call with device /dev/sda, swap 8GiB, type
    efi, luks true and root_fs ext4 does not succeed: after the table, the three
    partitions and the create_luks action it raises [KeyError] on
    [DISK_ID_TO_UUID['part_luks_root']], an identifier that was never
    registered.  No format action is appended, no dracut fragment is recorded
    and [DISK_ID_ROOT] stays unset. *)
Theorem classic_luks_scenario_raises_KeyError (base_dir : string) :
  let r := create_classic_single_disk_layout "/dev/sda" "8GiB" "efi" "true" "ext4" (init base_dir) in
  fst r = Raise (KeyError "part_luks_root") /\
  DISK_ACTIONS (snd r) =
    ["action=create_gpt new_id=gpt device=/dev/sda;";
     "action=create_partition new_id=part_efi id=gpt size=1GiB type=efi;";
     "action=create_partition new_id=part_swap id=gpt size=8GiB type=swap;";
     "action=create_partition new_id=part_root id=gpt size=remaining type=linux;";
     "action=create_luks new_id=part_luks_root name=root id=part_root;"] /\
  DISK_ID_TO_UUID (snd r) !! "part_luks_root" = None /\
  DISK_DRACUT_CMDLINE (snd r) = [] /\
  DISK_ID_ROOT (snd r) = None.
Proof.
  vm_compute. repeat split; reflexivity.
Qed.

(** The same call on a configurator where part_luks_root has been registered
    beforehand goes through and leaves what the recipe is written to produce:
    the eight actions, the dracut fragment and the encrypted volume as root. *)
Lemma classic_luks_scenario_when_registered :
  let self := snd (register_existing "part_luks_root" "/dev/mapper/root"
                     (init "/tmp/gentoo-install-python")) in
  let r := create_classic_single_disk_layout "/dev/sda" "8GiB" "efi" "true" "ext4" self in
  fst r = Ok tt /\
  DISK_ACTIONS (snd r) =
    (DISK_ACTIONS self ++ classic_plan "/dev/sda" "8GiB" "efi" "true" "ext4")%list /\
  length (classic_plan "/dev/sda" "8GiB" "efi" "true" "ext4") = 8%nat /\
  DISK_DRACUT_CMDLINE (snd r) = ["rd.luks.uuid=STUB-UUID-7061"] /\
  DISK_ID_ROOT (snd r) = Some "part_luks_root".
Proof.
  vm_compute. repeat split; reflexivity.
Qed.

(** ** Equations of the registry primitives *)

Section Registry.

Implicit Types (self : DiskConfigurator) (arguments : gmap string string).

Lemma truthy_nonempty (s : string) : truthy s = true <-> s <> "".
Proof. destruct s; simpl; split; intros; congruence. Qed.

Lemma given_Some_iff (o : option string) (s : string) :
  given o = Some s <-> o = Some s /\ s <> "".
Proof.
  destruct o as [[|c t]|]; simpl; split; try discriminate.
  all: try (intros [H1 H2]; congruence).
  intros H. inversion H. split; congruence.
Qed.

Lemma dict_in_lookup {V : Type} (k : string) (d : gmap string V) :
  dict_in k d = true <-> is_Some (d !! k).
Proof.
  unfold dict_in. destruct (d !! k); split; intros H; done.
Qed.

Lemma dict_in_None {V : Type} (k : string) (d : gmap string V) :
  dict_in k d = false <-> d !! k = None.
Proof. unfold dict_in. destruct (d !! k); split; intros H; done. Qed.

(** [create_new_id], case by case. *)
Lemma create_new_id_eq arguments arg_name self :
  create_new_id arguments arg_name self =
  match given (arguments !! arg_name) with
  | None =>
      (Raise (SystemExit 2 ("Argument '" +:+ arg_name +:+ "' is required for ID creation.")), self)
  | Some id =>
      if contains_char ";" id
      then (Raise (SystemExit 2 "Identifier contains invalid character ';'"), self)
      else if dict_in id (DISK_ID_TO_UUID self)
      then (Raise (SystemExit 2 ("Identifier '" +:+ id +:+ "' already exists")), self)
      else (Ok tt, minted id self)
  end.
Proof.
  unfold create_new_id. destruct (given (arguments !! arg_name)) as [id|]; [|reflexivity].
  unfold bind, when, gets, die_trace, raise, ret, modify.
  destruct (contains_char ";" id); [reflexivity|]. simpl.
  destruct (dict_in id (DISK_ID_TO_UUID self)); reflexivity.
Qed.

Lemma verify_existing_id_eq arguments arg_name self :
  verify_existing_id arguments arg_name self =
  match arguments !! arg_name with
  | Some i =>
      if dict_in i (DISK_ID_TO_UUID self) then (Ok tt, self)
      else (Raise (SystemExit 2 ("Identifier " +:+ arg_name +:+ "='" +:+ i +:+ "' not found")), self)
  | None =>
      (Raise (SystemExit 2 ("Identifier " +:+ arg_name +:+ "='None' not found")), self)
  end.
Proof.
  unfold verify_existing_id, bind, when, gets, die_trace, raise, ret.
  destruct (arguments !! arg_name) as [i|]; simpl; [|reflexivity].
  destruct (dict_in i (DISK_ID_TO_UUID self)); reflexivity.
Qed.

Lemma verify_option_eq arguments opt valid_options self :
  verify_option arguments opt valid_options self =
  match arguments !! opt with
  | Some v =>
      if tuple_in v valid_options then (Ok tt, self)
      else (Raise (SystemExit 2 ("Invalid option " +:+ opt +:+ "='" +:+ v +:+
               "', must be one of (" +:+ join ", " valid_options +:+ ")")), self)
  | None =>
      (Raise (SystemExit 2 ("Invalid option " +:+ opt +:+ "='None', must be one of (" +:+
               join ", " valid_options +:+ ")")), self)
  end.
Proof.
  unfold verify_option, bind, when, die_trace, raise, ret.
  destruct (arguments !! opt) as [v|]; simpl; [|reflexivity].
  destruct (tuple_in v valid_options); reflexivity.
Qed.

Lemma tuple_in_elem (x : string) (l : list string) : tuple_in x l = true <-> x ∈ l.
Proof.
  unfold tuple_in. rewrite existsb_exists. split.
  - intros (y & Hin & Heq). apply String.eqb_eq in Heq. subst. by apply list_elem_of_In.
  - intros Hin. exists x. split; [by apply list_elem_of_In | apply String.eqb_refl].
Qed.

End Registry.

(** ** Equations of the builder calls *)

Section Builder.

Implicit Types (self : DiskConfigurator).

Lemma create_new_id_new_id arguments new_id self :
  arguments !! "new_id" = Some new_id ->
  create_new_id arguments "new_id" self =
  match new_id_error new_id self with
  | Some e => (Raise e, self)
  | None => (Ok tt, minted new_id self)
  end.
Proof.
  intros Harg. rewrite create_new_id_eq, Harg. unfold new_id_error.
  destruct new_id as [|c s]; [reflexivity|].
  change (given (Some (String c s))) with (Some (String c s)).
  change (negb (truthy (String c s))) with false. cbv iota.
  destruct (contains_char ";" (String c s)); [reflexivity|].
  destruct (dict_in (String c s) (DISK_ID_TO_UUID self)); reflexivity.
Qed.

Lemma lookup_minted id self :
  DISK_ID_TO_UUID (minted id self) !! id = Some (uuid_for id).
Proof. destruct self. unfold minted. simpl. apply lookup_insert_eq. Qed.

Lemma register_existing_eq new_id device self :
  register_existing new_id device self = register_existing_summary new_id device self.
Proof.
  unfold register_existing, register_existing_summary, bind.
  rewrite (create_new_id_new_id _ new_id) by (by rewrite lookup_insert_ne, lookup_singleton_eq).
  destruct (new_id_error new_id self); reflexivity.
Qed.

Lemma create_partition_eq new_id id_val size type self :
  create_partition new_id id_val size type self =
  create_partition_summary new_id id_val size type self.
Proof.
  unfold create_partition, create_partition_summary, bind.
  rewrite (create_new_id_new_id _ new_id)
    by (by rewrite !lookup_insert_ne, lookup_singleton_eq).
  destruct (new_id_error new_id self); [reflexivity|].
  rewrite verify_existing_id_eq.
  rewrite !lookup_insert_ne, lookup_insert_eq by done.
  destruct (dict_in id_val (DISK_ID_TO_UUID (minted new_id self))); [|reflexivity].
  rewrite verify_option_eq, lookup_insert_eq.
  change (negb true) with false. cbv iota.
  destruct (tuple_in type partition_types); [|reflexivity].
  change (negb true) with false. cbv iota.
  destruct self; unfold minted, gets, when, die_trace, raise, ret, modify; simpl.
  destruct (default false (_ !! id_val)); [reflexivity|].
  unfold partition_post, logged, getitem, create_resolve_entry, print, append_action, modify, minted.
  destruct (size =? "remaining"); simpl; rewrite lookup_insert_eq; reflexivity.
Qed.

Lemma create_gpt_eq new_id device id_val self :
  create_gpt new_id device id_val self = create_gpt_summary new_id device id_val self.
Proof.
  unfold create_gpt, create_gpt_summary, gpt_post, gpt_action.
  destruct (given device) as [d|], (given id_val) as [i|];
    unfold bind at 1; unfold only_one_of, dict_in; simpl;
    rewrite ?lookup_insert_eq, ?lookup_insert_ne, ?lookup_singleton_eq,
      ?lookup_singleton_ne by done; simpl; try reflexivity.
  all: unfold bind at 1; rewrite (create_new_id_new_id _ new_id)
         by (by rewrite ?lookup_insert_ne, ?lookup_singleton_eq by done).
  all: destruct (new_id_error new_id self); [reflexivity|].
  all: unfold bind at 1; rewrite ?verify_existing_id_eq, ?lookup_insert_eq; unfold dict_in.
  all: try destruct (DISK_ID_TO_UUID (minted new_id self) !! i) eqn:Hi; try reflexivity.
  all: unfold bind, gets, getitem, ret; rewrite lookup_minted; reflexivity.
Qed.

End Builder.

(** ** The identifier registry *)

Section RegistryProperties.

Implicit Types (self : DiskConfigurator) (arguments : gmap string string).

(** C7. Creating an identifier a second time, on the configurator that the
    first creation left or on any later one (one whose registry extends it),
    is rejected with the "already exists" error and keeps the entry of the
    first creation; an empty identifier and an identifier containing [;] are
    rejected with their own errors; no rejected creation changes the
    configurator. *)
Theorem create_new_id_duplicate_and_invalid arguments (arg_name id : string) self :
  arguments !! arg_name = Some id ->
  (forall self1,
      create_new_id arguments arg_name self = (Ok tt, self1) ->
      DISK_ID_TO_UUID self1 !! id = Some (uuid_for id) /\
      forall self2,
        DISK_ID_TO_UUID self1 ⊆ DISK_ID_TO_UUID self2 ->
        create_new_id arguments arg_name self2 =
          (Raise (SystemExit 2 ("Identifier '" +:+ id +:+ "' already exists")), self2) /\
        DISK_ID_TO_UUID self2 !! id = Some (uuid_for id)) /\
  (id = "" ->
   create_new_id arguments arg_name self =
     (Raise (SystemExit 2 ("Argument '" +:+ arg_name +:+ "' is required for ID creation.")), self)) /\
  (id <> "" -> contains_char ";" id = true ->
   create_new_id arguments arg_name self =
     (Raise (SystemExit 2 "Identifier contains invalid character ';'"), self)).
Proof.
  intros Harg. split; [|split].
  - intros self1. rewrite create_new_id_eq, Harg.
    destruct (given (Some id)) as [i|] eqn:Hg; [|discriminate].
    apply given_Some_iff in Hg as [Hi Hne]. injection Hi as <-.
    destruct (contains_char ";" id) eqn:Hsemi; [discriminate|].
    destruct (dict_in id (DISK_ID_TO_UUID self)) eqn:Hin; [discriminate|].
    intros [= <-]. split; [apply lookup_minted|].
    intros self2 Hsub.
    assert (Hl : DISK_ID_TO_UUID self2 !! id = Some (uuid_for id)).
    { eapply lookup_weaken; [apply lookup_minted | exact Hsub]. }
    split; [|exact Hl].
    rewrite create_new_id_eq, Harg.
    replace (given (Some id)) with (Some id)
      by (symmetry; apply given_Some_iff; split; [reflexivity | exact Hne]).
    rewrite Hsemi. unfold dict_in. rewrite Hl. reflexivity.
  - intros ->. rewrite create_new_id_eq, Harg. reflexivity.
  - intros Hne Hsemi. rewrite create_new_id_eq, Harg.
    replace (given (Some id)) with (Some id)
      by (symmetry; apply given_Some_iff; split; [reflexivity | exact Hne]).
    rewrite Hsemi. reflexivity.
Qed.

Lemma create_new_id_duplicate_and_invalid_witness :
  let self := init "/tmp/gentoo-install-python" in
  let arguments : gmap string string := {["new_id" := "gpt"]} in
  arguments !! "new_id" = Some "gpt" /\
  create_new_id arguments "new_id" self = (Ok tt, minted "gpt" self) /\
  create_new_id arguments "new_id" (minted "gpt" self) =
    (Raise (SystemExit 2 "Identifier 'gpt' already exists"), minted "gpt" self).
Proof.
  intros self arguments.
  assert (Harg : arguments !! "new_id" = Some "gpt") by reflexivity.
  assert (Hfirst : create_new_id arguments "new_id" self = (Ok tt, minted "gpt" self))
    by reflexivity.
  split; [exact Harg | split; [exact Hfirst|]].
  destruct (create_new_id_duplicate_and_invalid arguments "new_id" "gpt" self Harg)
    as [Hdup _].
  destruct (Hdup (minted "gpt" self) Hfirst) as [_ Hlater].
  destruct (Hlater (minted "gpt" self) (reflexivity _)) as [Hsecond _].
  exact Hsecond.
Defined.

(** What a builder call leaves of a later creation of the same identifier: the
    registry only grows. *)
Lemma exec_registry_grows (c : call) self r self' :
  exec c self = (r, self') -> DISK_ID_TO_UUID self ⊆ DISK_ID_TO_UUID self'.
Proof.
  assert (Hm : forall id s, new_id_error id s = None ->
                 DISK_ID_TO_UUID s ⊆ DISK_ID_TO_UUID (minted id s)).
  { intros id s. unfold new_id_error.
    destruct (negb (truthy id)); [discriminate|].
    destruct (contains_char ";" id); [discriminate|].
    destruct (dict_in id (DISK_ID_TO_UUID s)) eqn:Hin; [discriminate|].
    intros _. apply dict_in_None in Hin. destruct s; simpl in *.
    by apply insert_subseteq. }
  destruct c as [new_id device|new_id device id_val|new_id id_val size type]; simpl.
  - rewrite register_existing_eq. unfold register_existing_summary.
    destruct (new_id_error new_id self) eqn:He; intros [= <- <-]; [done|].
    specialize (Hm _ _ He). destruct self; exact Hm.
  - rewrite create_gpt_eq. unfold create_gpt_summary.
    destruct (given device), (given id_val);
      try (intros [= <- <-]; done);
      destruct (new_id_error new_id self) eqn:He; try (intros [= <- <-]; done);
      try destruct (dict_in _ _); intros [= <- <-];
      specialize (Hm _ _ He); destruct self; exact Hm.
  - rewrite create_partition_eq. unfold create_partition_summary.
    destruct (new_id_error new_id self) eqn:He; [intros [= <- <-]; done|].
    specialize (Hm _ _ He).
    destruct (negb (dict_in _ _)); [intros [= <- <-]; exact Hm|].
    destruct (negb (tuple_in _ _)); [intros [= <- <-]; exact Hm|].
    destruct (default false _); intros [= <- <-]; [exact Hm|].
    unfold partition_post. destruct self, (size =? "remaining"); exact Hm.
Qed.

End RegistryProperties.

(** ** Rejected calls and the state they leave *)

Section Rejection.

Implicit Types (self : DiskConfigurator).

Lemma minted_other_fields id self :
  DISK_ACTIONS (minted id self) = DISK_ACTIONS self /\
  DISK_ID_TO_RESOLVABLE (minted id self) = DISK_ID_TO_RESOLVABLE self /\
  DISK_ID_PART_TO_GPT_ID (minted id self) = DISK_ID_PART_TO_GPT_ID self /\
  DISK_GPT_HAD_SIZE_REMAINING (minted id self) = DISK_GPT_HAD_SIZE_REMAINING self /\
  stdout (minted id self) = stdout self.
Proof. destruct self. repeat split. Qed.

Lemma new_id_error_None id self :
  new_id_error id self = None <->
  id <> "" /\ contains_char ";" id = false /\ DISK_ID_TO_UUID self !! id = None.
Proof.
  unfold new_id_error. destruct id as [|c s].
  - simpl. split; [discriminate | intros [H _]; congruence].
  - change (negb (truthy (String c s))) with false. cbv iota.
    destruct (contains_char ";" (String c s)).
    + split; [discriminate | intros (_ & H & _); discriminate].
    + destruct (dict_in (String c s) (DISK_ID_TO_UUID self)) eqn:Hin.
      * split; [discriminate|]. intros (_ & _ & H).
        apply dict_in_None in H. congruence.
      * apply dict_in_None in Hin. split; [|reflexivity]. intros _.
        split; [discriminate | split; [reflexivity | exact Hin]].
Qed.

(** A rejected call either leaves the configurator as it was or leaves it with
    the new identifier minted and nothing else. *)
Lemma exec_rejected (c : call) self e self' :
  exec c self = (Raise e, self') ->
  (self' = self /\ (e = only_one_error \/ new_id_error (new_id_of c) self = Some e)) \/
  (self' = minted (new_id_of c) self /\ new_id_error (new_id_of c) self = None).
Proof.
  destruct c as [new_id device|new_id device id_val|new_id id_val size type]; simpl.
  - rewrite register_existing_eq. unfold register_existing_summary.
    destruct (new_id_error new_id self) eqn:He; [|discriminate].
    intros [= <- <-]. left. auto.
  - rewrite create_gpt_eq. unfold create_gpt_summary.
    destruct (given device), (given id_val);
      try (intros [= <- <-]; left; by auto);
      (destruct (new_id_error new_id self) eqn:He;
       [intros [= <- <-]; left; by auto|]);
      try destruct (dict_in _ _); try discriminate;
      intros [= <- <-]; right; by auto.
  - rewrite create_partition_eq. unfold create_partition_summary.
    destruct (new_id_error new_id self) eqn:He; [intros [= <- <-]; left; by auto|].
    destruct (negb (dict_in _ _)); [intros [= <- <-]; right; by auto|].
    destruct (negb (tuple_in _ _)); [intros [= <- <-]; right; by auto|].
    destruct (default false _); [intros [= <- <-]; right; by auto|discriminate].
Qed.

(** C2, as the code has it.  For each of [register_existing], [create_gpt]
    and [create_partition], a rejected call leaves [DISK_ID_PART_TO_GPT_ID],
    [DISK_GPT_HAD_SIZE_REMAINING], the resolve entries (the table and the
    lines printed for them) and [DISK_ACTIONS] as they were.  [DISK_ID_TO_UUID]
    is left as it was only when the rejection comes from the exclusivity check
    or from the check of the new identifier; a rejection by a later check
    (unknown table, invalid type, full table) finds the new identifier already
    minted and leaves it registered. *)
Theorem rejected_call_keeps_plan_but_may_mint (c : call) self e self' :
  exec c self = (Raise e, self') ->
  DISK_ID_PART_TO_GPT_ID self' = DISK_ID_PART_TO_GPT_ID self /\
  DISK_GPT_HAD_SIZE_REMAINING self' = DISK_GPT_HAD_SIZE_REMAINING self /\
  DISK_ID_TO_RESOLVABLE self' = DISK_ID_TO_RESOLVABLE self /\
  stdout self' = stdout self /\
  DISK_ACTIONS self' = DISK_ACTIONS self /\
  ((e = only_one_error \/ new_id_error (new_id_of c) self = Some e) /\ self' = self \/
   new_id_error (new_id_of c) self = None /\
   DISK_ID_TO_UUID self !! new_id_of c = None /\
   DISK_ID_TO_UUID self' = <[new_id_of c := uuid_for (new_id_of c)]> (DISK_ID_TO_UUID self) /\
   self' = minted (new_id_of c) self).
Proof.
  intros Hex. apply exec_rejected in Hex as [[-> He]|[-> He]].
  - repeat split; try reflexivity. left. auto.
  - destruct (minted_other_fields (new_id_of c) self) as (H1 & H2 & H3 & H4 & H5).
    repeat split; try assumption. right.
    pose proof (proj1 (new_id_error_None _ _) He) as (_ & _ & Hfresh).
    repeat split; try assumption. destruct self; reflexivity.
Qed.

Lemma rejected_call_keeps_plan_but_may_mint_witness :
  exists self',
    exec (Create_partition "p1" "nope" "1GiB" "efi") (init "/tmp/gentoo-install-python") =
      (Raise (not_found_error "id" "nope"), self') /\
    DISK_ACTIONS self' = [] /\
    DISK_ID_TO_UUID self' = <["p1" := "STUB-UUID-7031"]> ∅.
Proof.
  set (self := init "/tmp/gentoo-install-python").
  assert (Hex : exec (Create_partition "p1" "nope" "1GiB" "efi") self =
                (Raise (not_found_error "id" "nope"), minted "p1" self)) by reflexivity.
  exists (minted "p1" self). split; [exact Hex|].
  destruct (rejected_call_keeps_plan_but_may_mint _ _ _ _ Hex) as (_ & _ & _ & _ & Hacts & Hreg).
  split; [exact Hacts|].
  destruct Hreg as [[[He|He] _]|(_ & _ & Hm & _)]; [discriminate He|discriminate He|exact Hm].
Defined.

(** C2, the counterexample: on a fresh configurator [create_partition] with an
    unknown table is rejected, and yet the new identifier [p1] is left in
    [DISK_ID_TO_UUID], which was empty before the call. *)
Lemma rejected_create_partition_leaves_new_id :
  let self := init "/tmp/gentoo-install-python" in
  let r := create_partition "p1" "nope" "1GiB" "efi" self in
  fst r = Raise (SystemExit 2 "Identifier id='nope' not found") /\
  DISK_ID_TO_UUID self !! "p1" = None /\
  DISK_ID_TO_UUID (snd r) !! "p1" = Some "STUB-UUID-7031" /\
  DISK_ID_TO_UUID (snd r) <> DISK_ID_TO_UUID self.
Proof.
  vm_compute. repeat split; try reflexivity. discriminate.
Qed.

End Rejection.

(** ** Mutually exclusive arguments of [create_gpt] *)

Section CreateGpt.

Implicit Types (self : DiskConfigurator).

(** C4, as the code has it.  [create_gpt] is rejected with the "only one of"
    error, and changes nothing, when both [device] and [id] are given.  When
    at most one of them is given (neither included) the exclusivity check
    passes, and the call is accepted as soon as the new identifier is valid
    and unused and the table identifier, if one is given, is registered. *)
Theorem create_gpt_at_most_one_of new_id (device id_val : option string) self :
  (is_Some (given device) -> is_Some (given id_val) ->
   create_gpt new_id device id_val self =
     (Raise (SystemExit 2 "Only one of the arguments (device, id) can be given"), self)) /\
  (~ (is_Some (given device) /\ is_Some (given id_val)) ->
   new_id <> "" -> contains_char ";" new_id = false ->
   DISK_ID_TO_UUID self !! new_id = None ->
   (forall i, given id_val = Some i -> is_Some (DISK_ID_TO_UUID self !! i)) ->
   create_gpt new_id device id_val self = (Ok tt, gpt_post new_id device id_val self) /\
   DISK_ACTIONS (gpt_post new_id device id_val self) =
     (DISK_ACTIONS self ++ [gpt_action new_id device id_val])%list).
Proof.
  rewrite create_gpt_eq. unfold create_gpt_summary. split.
  - intros [d ->] [i ->]. reflexivity.
  - intros Hnot Hne Hsemi Hfresh Hid.
    assert (He : new_id_error new_id self = None) by (by apply new_id_error_None).
    split; [|destruct self; reflexivity].
    destruct (given device) as [d|], (given id_val) as [i|]; rewrite ?He.
    + exfalso. apply Hnot. split; by eexists.
    + reflexivity.
    + destruct (Hid i eq_refl) as [u Hu].
      assert (Hin : dict_in i (DISK_ID_TO_UUID (minted new_id self)) = true).
      { apply dict_in_lookup. destruct self; simpl in *.
        destruct (decide (new_id = i)) as [->|Hni]; [congruence|].
        rewrite lookup_insert_ne by done. by eexists. }
      rewrite Hin. reflexivity.
    + reflexivity.
Qed.

Lemma create_gpt_at_most_one_of_witness :
  let self := init "/tmp/gentoo-install-python" in
  create_gpt "gpt" (Some "/dev/sda") (Some "other") self =
    (Raise (SystemExit 2 "Only one of the arguments (device, id) can be given"), self) /\
  create_gpt "gpt" (Some "/dev/sda") None self =
    (Ok tt, gpt_post "gpt" (Some "/dev/sda") None self) /\
  create_gpt "gpt" None None self = (Ok tt, gpt_post "gpt" None None self).
Proof.
  intros self. split; [|split].
  - apply (create_gpt_at_most_one_of "gpt" (Some "/dev/sda") (Some "other") self);
      simpl; by eexists.
  - apply (create_gpt_at_most_one_of "gpt" (Some "/dev/sda") None self).
    + simpl. intros [_ [x Hx]]. discriminate Hx.
    + discriminate.
    + reflexivity.
    + reflexivity.
    + simpl. intros i Hi. discriminate Hi.
  - apply (create_gpt_at_most_one_of "gpt" None None self).
    + simpl. intros [[x Hx] _]. discriminate Hx.
    + discriminate.
    + reflexivity.
    + reflexivity.
    + simpl. intros i Hi. discriminate Hi.
Defined.

(** C4, the counterexample: with neither [device] nor [id], [create_gpt] on a
    fresh configurator does not fail; it appends a create_gpt action that names
    no device and no table. *)
Lemma create_gpt_with_neither_is_accepted :
  let r := create_gpt "gpt" None None (init "/tmp/gentoo-install-python") in
  fst r = Ok tt /\
  DISK_ACTIONS (snd r) = ["action=create_gpt new_id=gpt;"] /\
  ~ (exists e, fst r = Raise e).
Proof.
  vm_compute. repeat split; try reflexivity. intros [e He]. discriminate He.
Qed.

End CreateGpt.

(** ** Partitions after a partition of size remaining *)

Section Remaining.

Implicit Types (self : DiskConfigurator) (t : string).

(** An accepted partition of size remaining fills its table. *)
Lemma remaining_partition_fills new_id t type self self' :
  create_partition new_id t "remaining" type self = (Ok tt, self') ->
  table_full t self'.
Proof.
  rewrite create_partition_eq. unfold create_partition_summary.
  destruct (new_id_error new_id self); [discriminate|].
  destruct (dict_in t (DISK_ID_TO_UUID (minted new_id self))) eqn:Hin; [|discriminate].
  destruct (negb (tuple_in _ _)); [discriminate|].
  destruct (default false _); [discriminate|].
  intros [= <-]. apply dict_in_lookup in Hin.
  unfold table_full, partition_post. destruct self; simpl in *.
  split; [apply lookup_insert_eq | exact Hin].
Qed.


(** On a full table every partition is rejected, with the table-full error
    unless the new identifier or the partition type is rejected first. *)
Lemma table_full_rejects new_id t size type self :
  table_full t self ->
  exists e self',
    create_partition new_id t size type self = (Raise e, self') /\
    (e = table_full_error t \/
     e = invalid_type_error type /\ tuple_in type partition_types = false \/
     new_id_error new_id self = Some e) /\
    (new_id_error new_id self = None -> tuple_in type partition_types = true ->
     e = table_full_error t).
Proof.
  intros [Hflag [u Hu]]. rewrite create_partition_eq. unfold create_partition_summary.
  destruct (new_id_error new_id self) as [e|] eqn:He.
  { exists e, self. split; [reflexivity|]. split; [by auto|discriminate]. }
  assert (Hin : dict_in t (DISK_ID_TO_UUID (minted new_id self)) = true).
  { apply dict_in_lookup. destruct self; simpl in *.
    destruct (decide (new_id = t)) as [->|Hne];
      [rewrite lookup_insert_eq | rewrite lookup_insert_ne by done]; by eexists. }
  rewrite Hin. change (negb true) with false. cbv iota.
  destruct (tuple_in type partition_types) eqn:Hty.
  - change (negb true) with false. cbv iota. rewrite Hflag. simpl.
    exists (table_full_error t), (minted new_id self). by auto.
  - exists (invalid_type_error type), (minted new_id self). simpl.
    split; [reflexivity|]. split; [by auto|discriminate].
Qed.






End Remaining.

(** ** The classic single-disk recipe *)

Section ClassicLayout.

Implicit Types (self : DiskConfigurator).

Lemma create_gpt_accepted new_id device self :
  new_id_error new_id self = None ->
  create_gpt new_id device None self = (Ok tt, gpt_post new_id device None self).
Proof.
  intros He. rewrite create_gpt_eq. unfold create_gpt_summary. simpl.
  destruct (given device); rewrite He; reflexivity.
Qed.

Lemma create_partition_accepted new_id id_val size type self :
  new_id_error new_id self = None ->
  dict_in id_val (DISK_ID_TO_UUID (minted new_id self)) = true ->
  tuple_in type partition_types = true ->
  default false (DISK_GPT_HAD_SIZE_REMAINING self !! id_val) = false ->
  create_partition new_id id_val size type self =
    (Ok tt, partition_post new_id id_val size type self).
Proof.
  intros He Hin Hty Hflag. rewrite create_partition_eq. unfold create_partition_summary.
  rewrite He, Hin, Hty, Hflag. reflexivity.
Qed.

Lemma post_fields new_id id_val size type device tbl self :
  DISK_ID_TO_UUID (gpt_post new_id device tbl self) =
    <[new_id := uuid_for new_id]> (DISK_ID_TO_UUID self) /\
  DISK_GPT_HAD_SIZE_REMAINING (gpt_post new_id device tbl self) =
    DISK_GPT_HAD_SIZE_REMAINING self /\
  DISK_ID_TO_UUID (partition_post new_id id_val size type self) =
    <[new_id := uuid_for new_id]> (DISK_ID_TO_UUID self) /\
  DISK_ID_TO_UUID (minted new_id self) =
    <[new_id := uuid_for new_id]> (DISK_ID_TO_UUID self) /\
  (String.eqb size "remaining" = false ->
   DISK_GPT_HAD_SIZE_REMAINING (partition_post new_id id_val size type self) =
     DISK_GPT_HAD_SIZE_REMAINING self).
Proof.
  unfold partition_post. destruct self; repeat split.
  - destruct (size =? "remaining"); reflexivity.
  - intros ->. reflexivity.
Qed.




End ClassicLayout.

(** ** Identifiers and their UUIDs *)

Section StubUuid.

(** The UUID of the placeholder depends on the first four hexadecimal digits
    of the encoded identifier only. *)
Lemma uuid_for_first_digits (id1 id2 : string) :
  slice_to 4 (hex (encode_utf8 id1)) = slice_to 4 (hex (encode_utf8 id2)) ->
  uuid_for id1 = uuid_for id2.
Proof. unfold uuid_for, Config.load_or_generate_uuid. by intros ->. Qed.

(** C3. The identifiers part_efi and part_swap are distinct and both are
    created on a fresh configurator, and [DISK_ID_TO_UUID] maps both to the UUID
    STUB-UUID-7061: the placeholder [load_or_generate_uuid] of config.py keeps
    the first two bytes of the identifier only, so the map from identifiers to
    UUIDs is not injective. *)
Theorem stub_uuid_not_injective :
  let self0 := init "/tmp/gentoo-install-python" in
  let r1 := create_new_id {["new_id" := "part_efi"]} "new_id" self0 in
  let r2 := create_new_id {["new_id" := "part_swap"]} "new_id" (snd r1) in
  fst r1 = Ok tt /\ fst r2 = Ok tt /\
  "part_efi" <> "part_swap" /\
  DISK_ID_TO_UUID (snd r2) !! "part_efi" = Some "STUB-UUID-7061" /\
  DISK_ID_TO_UUID (snd r2) !! "part_swap" = Some "STUB-UUID-7061".
Proof.
  vm_compute. repeat split; try reflexivity. discriminate.
Qed.

End StubUuid.

(** * Properties of the UUID store and of the device resolver *)

Import Utils ResolverSpec Samples.

(** ** Strings *)

Section Strings.

Lemma append_cons (x : ascii) (a b : string) : String x a +:+ b = String x (a +:+ b).
Proof. reflexivity. Qed.

Lemma append_assoc (a b c : string) : (a +:+ b) +:+ c = a +:+ (b +:+ c).
Proof.
  induction a as [|x a IH]; [reflexivity|]. rewrite !append_cons. by rewrite IH.
Qed.

Lemma lstrip_idem (s : string) : lstrip (lstrip s) = lstrip s.
Proof.
  induction s as [|c s IH]; simpl; [reflexivity|].
  destruct (isspace c) eqn:Hc; [exact IH|]. simpl. by rewrite Hc.
Qed.

Lemma rstrip_idem (s : string) : rstrip (rstrip s) = rstrip s.
Proof.
  induction s as [|c s IH]; simpl; [reflexivity|].
  destruct (rstrip s) as [|d r] eqn:Hr.
  - destruct (isspace c) eqn:Hc; simpl; [reflexivity | by rewrite Hc].
  - change (rstrip (String c (String d r))) with
      (match rstrip (String d r) with
       | EmptyString => if isspace c then "" else String c ""
       | r' => String c r'
       end).
    rewrite IH. reflexivity.
Qed.

Lemma lstrip_lstripped (s : string) : lstripped (lstrip s).
Proof.
  induction s as [|c s IH]; simpl; [exact I|].
  destruct (isspace c) eqn:Hc; [exact IH | exact Hc].
Qed.

Lemma lstripped_fixed (s : string) : lstripped s -> lstrip s = s.
Proof. destruct s as [|c s]; simpl; [reflexivity | by intros ->]. Qed.

Lemma rstrip_lstripped (s : string) : lstripped s -> lstripped (rstrip s).
Proof.
  destruct s as [|c s]; simpl; [done|]. intros Hc.
  destruct (rstrip s); rewrite ?Hc; exact Hc.
Qed.

Lemma strip_idem (s : string) : strip (strip s) = strip s.
Proof.
  unfold strip.
  rewrite (lstripped_fixed (rstrip (lstrip s)))
    by (apply rstrip_lstripped, lstrip_lstripped).
  apply rstrip_idem.
Qed.

Lemma strip_prefix_Some (p s r : string) : strip_prefix p s = Some r -> s = p +:+ r.
Proof.
  revert s. induction p as [|a p IH]; intros s; simpl.
  - by intros [= ->].
  - destruct s as [|b s]; [discriminate|].
    destruct (Ascii.eqb_spec a b) as [->|]; [|discriminate].
    intros H. by rewrite (IH _ H).
Qed.

Lemma strip_prefix_app (p r : string) : strip_prefix p (p +:+ r) = Some r.
Proof.
  induction p as [|a p IH]; simpl; [reflexivity|]. by rewrite Ascii.eqb_refl.
Qed.

Lemma span_app (f : ascii -> bool) (s a b : string) :
  span f s = (a, b) -> s = a +:+ b /\ all_chars f a = true.
Proof.
  revert a b. induction s as [|c s IH]; intros a b; simpl.
  - intros [= <- <-]. done.
  - destruct (f c) eqn:Hc.
    + destruct (span f s) as [a' b'] eqn:Hs. intros [= <- <-].
      destruct (IH _ _ eq_refl) as [-> Hall]. simpl. by rewrite Hc.
    + intros [= <- <-]. done.
Qed.

(** [span] stops at the first character that fails the test. *)
Lemma span_stop (f : ascii -> bool) (a rest : string) (c : ascii) :
  all_chars f a = true -> f c = false ->
  span f (a +:+ String c rest) = (a, String c rest).
Proof.
  intros Hall Hc. induction a as [|x a IH]; simpl in *.
  - by rewrite Hc.
  - apply andb_true_iff in Hall as [Hx Hall]. by rewrite Hx, (IH Hall).
Qed.

Lemma re_search_Some {A : Type} (m : string -> option A) (s : string) (g : A) :
  re_search m s = Some g -> exists pre post, s = pre +:+ post /\ m post = Some g.
Proof.
  induction s as [|c s IH]; simpl.
  - destruct (m "") eqn:Hm; [|discriminate]. intros [= <-]. by exists "", "".
  - destruct (m (String c s)) eqn:Hm.
    + intros [= <-]. by exists "", (String c s).
    + intros H. destruct (IH H) as (pre & post & -> & Hp).
      by exists (String c pre), post.
Qed.

Lemma re_search_None {A : Type} (m : string -> option A) (pre post : string) :
  re_search m (pre +:+ post) = None -> m post = None.
Proof.
  induction pre as [|c pre IH]; simpl.
  - destruct post; simpl; destruct (m _); done.
  - destruct (m (String c (pre +:+ post))); [discriminate | exact IH].
Qed.

Lemma re_search_bol_Some {A : Type} (m : string -> option A) (bol : bool) (s : string) (g : A) :
  re_search_bol m bol s = Some g ->
  exists pre post, s = pre +:+ post /\ m post = Some g /\
                   (pre = "" /\ bol = true \/ exists pre', pre = pre' +:+ newline).
Proof.
  revert bol. induction s as [|c s IH]; intros bol; simpl.
  - destruct bol; [|discriminate]. destruct (m "") eqn:Hm; [|discriminate].
    intros [= <-]. exists "", "". by auto.
  - destruct (if bol then m (String c s) else None) eqn:Hm.
    + intros [= <-]. destruct bol; [|discriminate]. exists "", (String c s). by auto.
    + intros H. destruct (IH _ H) as (pre & post & -> & Hp & Hpre).
      exists (String c pre), post. split; [reflexivity|]. split; [exact Hp|]. right.
      destruct Hpre as [[-> Hbol]|[pre' ->]].
      * apply Ascii.eqb_eq in Hbol. subst c. by exists "".
      * by exists (String c pre').
Qed.

End Strings.

(** ** The persisted UUID store *)

Section UuidStore.

Implicit Types (sys : System) (w : World).

Lemma os_path_exists_eq sys path w :
  os_path_exists sys path w =
    (Ok (dict_in path (files w) || special_exists sys (made_dirs w) path), w).
Proof. reflexivity. Qed.

(** C6. [load_or_generate_uuid] on an encoding whose file is in the store
    returns the UUID of the file (its text without the surrounding white
    space) and changes nothing.  Otherwise, when uuidgen runs and the file can
    be written, it returns the generated UUID and the store gains exactly that
    file.  Hence a call that returned a UUID is repeated by every later call
    for the same encoding, in the same process or in a fresh one (whatever
    uuidgen would print then, whatever the module globals are), as long as
    the files of the store are kept: the same UUID comes back and the store is
    not modified. *)
Theorem load_or_generate_uuid_idempotent sys (base64_id : string) w :
  let uuid_file := os_path_join UUID_STORAGE_DIR base64_id in
  (forall content,
      files w !! uuid_file = Some content ->
      Utils.load_or_generate_uuid sys base64_id w = (Ok (strip content), w)) /\
  (forall out,
      files w !! uuid_file = None ->
      special_exists sys (made_dirs w) uuid_file = false ->
      subprocess_run sys uuidgen_cmd = Completed out ->
      makedirs sys UUID_STORAGE_DIR = IoOk ->
      open_w sys uuid_file = IoOk ->
      write_w sys uuid_file = IoOk ->
      Utils.load_or_generate_uuid sys base64_id w =
        (Ok (strip out),
         set_files (<[uuid_file := strip out]> (files w))
           (set_made_dirs (UUID_STORAGE_DIR :: made_dirs w) w))) /\
  (forall uuid w1,
      Utils.load_or_generate_uuid sys base64_id w = (Ok uuid, w1) ->
      forall sys' w2,
        files w1 ⊆ files w2 ->
        Utils.load_or_generate_uuid sys' base64_id w2 = (Ok uuid, w2)).
Proof.
  intros uuid_file.
  assert (Hstored : forall sys0 w0 content,
            files w0 !! uuid_file = Some content ->
            Utils.load_or_generate_uuid sys0 base64_id w0 = (Ok (strip content), w0)).
  { intros sys0 w0 content Hc. unfold Utils.load_or_generate_uuid. fold uuid_file.
    unfold bind. rewrite os_path_exists_eq. unfold dict_in. rewrite Hc. simpl.
    unfold gets. by rewrite Hc. }
  split; [apply Hstored|]. split.
  - intros out Hnone Hspecial Hgen Hmk Hopen Hwrite.
    unfold Utils.load_or_generate_uuid. fold uuid_file.
    unfold bind. rewrite os_path_exists_eq. unfold dict_in.
    rewrite Hnone, Hspecial, Hgen, Hmk, Hopen, Hwrite.
    destruct w as [rsv cache fs ds]. simpl. by rewrite insert_insert_eq.
  - intros uuid w1 Hfirst sys' w2 Hsub.
    unfold Utils.load_or_generate_uuid in Hfirst. fold uuid_file in Hfirst.
    unfold bind in Hfirst. rewrite os_path_exists_eq in Hfirst. unfold dict_in in Hfirst.
    destruct (files w !! uuid_file) as [content|] eqn:Hc; simpl in Hfirst.
    + unfold gets in Hfirst. rewrite Hc in Hfirst. injection Hfirst as <- <-.
      apply Hstored. eapply lookup_weaken; eassumption.
    + destruct (special_exists sys (made_dirs w) uuid_file); simpl in Hfirst.
      { unfold gets in Hfirst. rewrite Hc in Hfirst. discriminate. }
      destruct (subprocess_run sys uuidgen_cmd) as [out| |]; try discriminate.
      destruct (makedirs sys UUID_STORAGE_DIR); try discriminate.
      destruct (open_w sys uuid_file); try discriminate.
      destruct (write_w sys uuid_file); try discriminate.
      injection Hfirst as <- <-.
      rewrite <- (strip_idem out). apply Hstored.
      eapply lookup_weaken; [|exact Hsub]. destruct w; simpl. apply lookup_insert_eq.
Qed.

Lemma load_or_generate_uuid_idempotent_witness :
  let first := Utils.load_or_generate_uuid (one_disk_system "1b4e28ba-2fa1") "677074" sample_world in
  fst first = Ok "1b4e28ba-2fa1" /\
  files (snd first) !! "/tmp/gentoo-install/uuids/677074" = Some "1b4e28ba-2fa1" /\
  Utils.load_or_generate_uuid (one_disk_system "9c5b94b1-35ad") "677074" (snd first) =
    (Ok "1b4e28ba-2fa1", snd first).
Proof.
  intros first.
  destruct (load_or_generate_uuid_idempotent (one_disk_system "1b4e28ba-2fa1") "677074"
              sample_world) as (_ & Hgen & Hagain).
  assert (Hfirst : first = (Ok "1b4e28ba-2fa1",
            set_files (<["/tmp/gentoo-install/uuids/677074" := "1b4e28ba-2fa1"]> ∅)
              (set_made_dirs ["/tmp/gentoo-install/uuids"] sample_world))).
  { apply (Hgen ("1b4e28ba-2fa1" +:+ String "010" "")); reflexivity. }
  rewrite Hfirst. split; [reflexivity|]. split; [reflexivity|].
  apply (Hagain _ _ Hfirst). reflexivity.
Defined.

End UuidStore.

(** ** Resolution of raw devices *)

Section RawDevice.

Implicit Types (sys : System) (w : World).

(** What the loop of [canonicalize_device] returns: the given path when no
    entry of the directory has its real path, and otherwise the first entry
    that has it. *)
Lemma canonicalize_loop_spec sys (real given_dev : string) (entries : list string) :
  let r := canonicalize_loop sys real given_dev entries in
  (r = given_dev /\
   forall e, e ∈ entries -> realpath sys (os_path_join "/dev/disk/by-id" e) <> real) \/
  (exists e, e ∈ entries /\ r = os_path_join "/dev/disk/by-id" e /\ realpath sys r = real).
Proof.
  induction entries as [|e entries IH]; simpl.
  - left. split; [reflexivity|]. intros e He. by apply elem_of_nil in He.
  - destruct (String.eqb_spec (realpath sys (os_path_join "/dev/disk/by-id" e)) real)
      as [Heq|Hne].
    + right. exists e. split; [by left|]. by split.
    + destruct IH as [[Hr Hall]|(e' & He' & Hr & Hreal)].
      * left. split; [exact Hr|]. intros e0 He0.
        apply elem_of_cons in He0 as [->|He0]; [exact Hne | by apply Hall].
      * right. exists e'. split; [by right|]. by split.
Qed.

Lemma resolve_raw_device_eq sys w (id p : string) :
  DISK_ID_TO_RESOLVABLE w !! id = Some ("device:" +:+ p) ->
  resolve_device_by_id sys id w = canonicalize_device sys p w.
Proof.
  intros Hid. unfold resolve_device_by_id, bind, gets, when, getitem, dict_in.
  rewrite Hid. reflexivity.
Qed.

(** The round trip of a raw device on a machine whose /dev/disk/by-id can be
    listed: the stored path, or its alias in that directory when one exists;
    the globals and the files are left as they were, so every repetition of
    the query gives the same answer. *)
Lemma raw_device_round_trip sys w (id p : string) (entries : list string) :
  DISK_ID_TO_RESOLVABLE w !! id = Some ("device:" +:+ p) ->
  listdir sys "/dev/disk/by-id" = Some entries ->
  exists r,
    resolve_device_by_id sys id w = (Ok r, w) /\
    ((r = p /\
      forall e, e ∈ entries ->
                realpath sys (os_path_join "/dev/disk/by-id" e) <> realpath sys p) \/
     (exists e, e ∈ entries /\ r = os_path_join "/dev/disk/by-id" e /\
                realpath sys r = realpath sys p)).
Proof.
  intros Hid Hls. rewrite (resolve_raw_device_eq _ _ _ _ Hid).
  unfold canonicalize_device. rewrite Hls.
  eexists. split; [reflexivity|]. apply canonicalize_loop_spec.
Qed.

Lemma raw_device_round_trip_example :
  resolve_device_by_id (one_disk_system "") "disk" sample_world =
    (Ok "/dev/disk/by-id/ata-DISK0", sample_world).
Proof. vm_compute. reflexivity. Qed.

(** C8. On a machine where /dev/disk/by-id cannot be listed (the directory
    does not exist), resolving an identifier registered with a raw device does
    not return the stored path: [os.listdir] raises and nothing in
    [canonicalize_device] or [resolve_device_by_id] handles it. *)
Theorem raw_device_without_by_id_raises sys w (id p : string) :
  DISK_ID_TO_RESOLVABLE w !! id = Some ("device:" +:+ p) ->
  listdir sys "/dev/disk/by-id" = None ->
  resolve_device_by_id sys id w = (Raise (OSError "/dev/disk/by-id"), w).
Proof.
  intros Hid Hls. rewrite (resolve_raw_device_eq _ _ _ _ Hid).
  unfold canonicalize_device. by rewrite Hls.
Qed.

Lemma raw_device_without_by_id_raises_witness :
  DISK_ID_TO_RESOLVABLE sample_world !! "disk" = Some "device:/dev/sda" /\
  resolve_device_by_id bare_system "disk" sample_world =
    (Raise (OSError "/dev/disk/by-id"), sample_world).
Proof.
  split; [reflexivity|].
  apply (raw_device_without_by_id_raises bare_system sample_world "disk" "/dev/sda");
    reflexivity.
Defined.

End RawDevice.

(** ** Locators that match nothing *)

Section NoMatch.

Implicit Types (sys : System) (w : World).

Lemma truthy_ne (s : string) : truthy s = true -> s <> "".
Proof. by destruct s. Qed.

(** Each search finds only occurrences of its pattern. *)
Lemma match_devname_sound (s g : string) :
  match_devname s = Some g ->
  exists q rest, s = "DEVNAME=" +:+ q +:+ g +:+ rest /\
    (q = "" \/ q = dquote \/ q = "'") /\ g <> "" /\ all_chars devname_char g = true.
Proof.
  unfold match_devname. destruct (strip_prefix "DEVNAME=" s) as [r|] eqn:Hp; [|discriminate].
  apply strip_prefix_Some in Hp. subst s.
  destruct (span devname_char (skip_optional_quote r)) as [g' rest] eqn:Hs.
  destruct (truthy g') eqn:Hg; [|discriminate]. intros [= ->].
  apply span_app in Hs as [Hr Hall]. apply truthy_ne in Hg.
  unfold skip_optional_quote in Hr. destruct r as [|c r].
  - destruct g; [done | discriminate Hr].
  - destruct (Ascii.eqb c dquote_char || Ascii.eqb c "'") eqn:Hq.
    + apply orb_true_iff in Hq as [Hq|Hq]; apply Ascii.eqb_eq in Hq; subst c r.
      * exists dquote, rest. by auto.
      * exists "'", rest. by auto.
    + exists "", rest. split; [by rewrite Hr | by auto].
Qed.

Lemma search_devname_sound (out g : string) :
  re_search_bol match_devname true out = Some g -> devname_line out.
Proof.
  intros H. apply re_search_bol_Some in H as (pre & post & -> & Hm & Hpre).
  apply match_devname_sound in Hm as (q & rest & -> & Hq & Hg & Hall).
  exists pre, q, g, rest. repeat split; try assumption.
  destruct Hpre as [[-> _]|Hpre]; [by left | by right].
Qed.

Lemma match_lsblk_row_sound (ptuuid s g : string) :
  match_lsblk_row ptuuid s = Some g ->
  exists rest, s = "name=" +:+ dquote +:+ g +:+ lsblk_row_tail ptuuid +:+ rest /\
    g <> "" /\ all_chars (fun c => negb (Ascii.eqb c dquote_char)) g = true.
Proof.
  unfold match_lsblk_row.
  destruct (strip_prefix ("name=" +:+ dquote) s) as [r|] eqn:Hp; [|discriminate].
  apply strip_prefix_Some in Hp. subst s.
  destruct (span _ r) as [g' r'] eqn:Hs.
  destruct (truthy g') eqn:Hg; [|discriminate].
  destruct (strip_prefix (lsblk_row_tail ptuuid) r') as [rest|] eqn:Ht; [|discriminate].
  intros [= ->]. apply strip_prefix_Some in Ht. apply span_app in Hs as [-> Hall].
  subst r'. exists rest. rewrite append_assoc. by auto using truthy_ne.
Qed.

Lemma search_lsblk_sound (ptuuid text g : string) :
  re_search (match_lsblk_row ptuuid) text = Some g -> lsblk_row ptuuid text.
Proof.
  intros H. apply re_search_Some in H as (pre & post & -> & Hm).
  apply match_lsblk_row_sound in Hm as (rest & -> & Hg & Hall).
  by exists pre, g, rest.
Qed.

Lemma match_mdadm_array_sound (mduuid s g : string) :
  match_mdadm_array mduuid s = Some g ->
  exists sp rest, s = "array " +:+ g +:+ sp +:+ "uuid=" +:+ mduuid +:+ rest /\
    g <> "" /\ all_chars (fun c => negb (isspace c)) g = true /\
    sp <> "" /\ all_chars isspace sp = true.
Proof.
  unfold match_mdadm_array.
  destruct (strip_prefix "array " s) as [r|] eqn:Hp; [|discriminate].
  apply strip_prefix_Some in Hp. subst s.
  destruct (span _ r) as [g' r'] eqn:Hs.
  destruct (span isspace r') as [sp r''] eqn:Hs'.
  destruct (truthy g' && truthy sp) eqn:Hg; [|discriminate].
  apply andb_true_iff in Hg as [Hg Hsp].
  destruct (strip_prefix ("uuid=" +:+ mduuid) r'') as [rest|] eqn:Ht; [|discriminate].
  intros [= ->]. apply strip_prefix_Some in Ht.
  apply span_app in Hs as [-> Hall]. apply span_app in Hs' as [-> Hall']. subst r''.
  exists sp, rest. rewrite !append_assoc. by auto 10 using truthy_ne.
Qed.

Lemma search_mdadm_sound (mduuid text g : string) :
  re_search (match_mdadm_array mduuid) text = Some g -> mdadm_array mduuid text.
Proof.
  intros H. apply re_search_Some in H as (pre & post & -> & Hm).
  apply match_mdadm_array_sound in Hm as (sp & rest & -> & Hg & Hall & Hsp & Hall').
  by exists pre, g, sp, rest.
Qed.

(** Each search finds an occurrence of its pattern when there is one. *)
Lemma search_lsblk_complete (ptuuid text : string) :
  lsblk_row ptuuid text -> is_Some (re_search (match_lsblk_row ptuuid) text).
Proof.
  intros (pre & name & post & -> & Hne & Hall).
  destruct (re_search (match_lsblk_row ptuuid) _) eqn:Hs; [by eexists|].
  apply re_search_None in Hs. exfalso. revert Hs. unfold match_lsblk_row.
  rewrite <- (append_assoc "name=" dquote), strip_prefix_app.
  pose proof (span_stop (fun c => negb (Ascii.eqb c dquote_char)) name
    ((" ptuuid=" +:+ dquote +:+ ptuuid +:+ dquote +:+ " partuuid=" +:+ dquote +:+ dquote)
       +:+ post) dquote_char Hall eq_refl) as Hspan.
  change (String dquote_char ?x) with (dquote +:+ x) in Hspan.
  rewrite <- !(append_assoc dquote _ post) in Hspan.
  change (dquote +:+ _ +:+ dquote +:+ ptuuid +:+ dquote +:+ _ +:+ dquote +:+ dquote)
    with (lsblk_row_tail ptuuid) in Hspan.
  rewrite Hspan, strip_prefix_app.
  destruct name; [done | discriminate].
Qed.

Lemma search_mdadm_complete (mduuid text : string) :
  mdadm_array mduuid text -> is_Some (re_search (match_mdadm_array mduuid) text).
Proof.
  intros (pre & dev & sp & post & -> & Hne & Hall & Hsne & Hsall).
  destruct (re_search (match_mdadm_array mduuid) _) eqn:Hs; [by eexists|].
  apply re_search_None in Hs. exfalso. revert Hs. unfold match_mdadm_array.
  rewrite strip_prefix_app.
  destruct sp as [|c sp]; [done|].
  pose proof Hsall as Hsall'. simpl in Hsall'.
  apply andb_true_iff in Hsall' as [Hc _].
  rewrite append_cons, (span_stop (fun c => negb (isspace c)) dev _ c Hall)
    by (by rewrite Hc).
  rewrite <- append_cons.
  change ("uuid=" +:+ mduuid +:+ post) with (String "u" ("uid=" +:+ mduuid +:+ post)).
  rewrite (span_stop isspace (String c sp) _ "u" Hsall eq_refl).
  change (String "u" ("uid=" +:+ mduuid +:+ post)) with ("uuid=" +:+ mduuid +:+ post).
  rewrite <- (append_assoc "uuid=" mduuid post), strip_prefix_app.
  destruct dev; [done | discriminate].
Qed.

Lemma re_search_bol_None {A : Type} (m : string -> option A) (bol : bool) (pre post : string) :
  re_search_bol m bol (pre +:+ post) = None ->
  (pre = "" /\ bol = true \/ exists pre', pre = pre' +:+ newline) ->
  m post = None.
Proof.
  revert bol. induction pre as [|c pre IH]; intros bol Hs Hpre.
  - destruct Hpre as [[_ ->]|[[|x pre'] Hp]]; try discriminate Hp.
    change ("" +:+ post) with post in Hs.
    destruct post; simpl in Hs; destruct (m _); done.
  - rewrite append_cons in Hs. simpl in Hs.
    destruct (if bol then m (String c (pre +:+ post)) else None); [discriminate|].
    apply (IH _ Hs).
    destruct Hpre as [[Hp _]|[pre' Hp]]; [discriminate Hp|].
    destruct pre' as [|x pre'].
    + injection Hp as Hc Hp. subst c pre. left. by rewrite Ascii.eqb_refl.
    + rewrite append_cons in Hp. injection Hp as Hc Hp. subst c pre. right. by eexists.
Qed.

Lemma span_nonempty (f : ascii -> bool) (g post : string) :
  g <> "" -> all_chars f g = true -> truthy (fst (span f (g +:+ post))) = true.
Proof.
  destruct g as [|c g]; [done|]. intros _ Hall. simpl in Hall.
  apply andb_true_iff in Hall as [Hc _]. rewrite append_cons. simpl. rewrite Hc.
  by destruct (span f (g +:+ post)).
Qed.

Lemma search_devname_complete (out : string) :
  devname_line out -> is_Some (re_search_bol match_devname true out).
Proof.
  intros (pre & q & g & post & -> & Hpre & Hq & Hg & Hall).
  destruct (re_search_bol match_devname true _) eqn:Hs; [by eexists|].
  apply re_search_bol_None in Hs.
  2:{ destruct Hpre as [->|Hpre]; [by left | by right]. }
  exfalso. revert Hs. unfold match_devname. rewrite strip_prefix_app.
  assert (Hskip : skip_optional_quote (q +:+ g +:+ post) = g +:+ post).
  { destruct Hq as [-> | [-> | ->]]; [|reflexivity|reflexivity].
    change ("" +:+ ?x) with x. destruct g as [|c g]; [done|].
    simpl in Hall. apply andb_true_iff in Hall as [Hc _].
    rewrite append_cons. unfold skip_optional_quote.
    unfold devname_char in Hc. apply negb_true_iff in Hc.
    apply orb_false_iff in Hc as [Hc _]. by rewrite Hc. }
  rewrite Hskip. pose proof (span_nonempty devname_char g post Hg Hall) as Hne.
  destruct (span devname_char (g +:+ post)) as [a b]. simpl in Hne. by rewrite Hne.
Qed.

(** A matching row or array contains the UUID it is searched for: an output in
    which the UUID does not occur at all has no match. *)
Lemma lsblk_row_occurs (ptuuid text : string) :
  lsblk_row ptuuid text -> occurs (lsblk_row_tail ptuuid) text.
Proof.
  intros (pre & name & post & -> & _). exists (pre +:+ "name=" +:+ dquote +:+ name), post.
  by rewrite !append_assoc.
Qed.

Lemma mdadm_array_occurs (mduuid text : string) :
  mdadm_array mduuid text -> occurs ("uuid=" +:+ mduuid) text.
Proof.
  intros (pre & dev & sp & post & -> & _). exists (pre +:+ "array " +:+ dev +:+ sp), post.
  by rewrite !append_assoc.
Qed.

(** The dispatch of [resolve_device_by_id] on the four probed kinds. *)
Lemma resolve_probed_eq sys w (id value : string) :
  (DISK_ID_TO_RESOLVABLE w !! id = Some ("partuuid:" +:+ value) ->
   resolve_device_by_id sys id w =
     (dev <- get_device_by_partuuid sys value ;; canonicalize_device sys dev) w) /\
  (DISK_ID_TO_RESOLVABLE w !! id = Some ("uuid:" +:+ value) ->
   resolve_device_by_id sys id w =
     (dev <- get_device_by_uuid sys value ;; canonicalize_device sys dev) w) /\
  (DISK_ID_TO_RESOLVABLE w !! id = Some ("ptuuid:" +:+ value) ->
   resolve_device_by_id sys id w =
     (dev <- get_device_by_ptuuid sys value ;; canonicalize_device sys dev) w) /\
  (DISK_ID_TO_RESOLVABLE w !! id = Some ("mdadm:" +:+ value) ->
   resolve_device_by_id sys id w =
     (dev <- get_device_by_mdadm_uuid sys value ;; canonicalize_device sys dev) w).
Proof.
  repeat split; intros Hid;
    unfold resolve_device_by_id, bind, gets, when, getitem, dict_in;
    rewrite Hid; reflexivity.
Qed.

Lemma get_device_by_blkid_field_dies sys w (blkid_field field_value : string) :
  (exists out, subprocess_run sys blkid_gc_cmd = Completed out) ->
  blkid_no_match sys blkid_field field_value ->
  get_device_by_blkid_field sys blkid_field field_value w =
    (Raise (SystemExit 1 ("Could not find device by blkid tag '" +:+
                          (blkid_field +:+ "=" +:+ field_value) +:+ "'")), w).
Proof.
  intros [out0 Hgc] Hquery.
  unfold get_device_by_blkid_field, _run_blkid_export, bind. rewrite Hgc.
  assert (Hgiven : given (Some (blkid_field +:+ "=" +:+ field_value)) =
                   Some (blkid_field +:+ "=" +:+ field_value)).
  { apply given_Some_iff. split; [reflexivity|]. destruct blkid_field; discriminate. }
  rewrite ?Hgiven.
  destruct Hquery as [[err ->]|(out & -> & Hno)]; unfold ret.
  - reflexivity.
  - destruct (re_search_bol match_devname true out) as [g|] eqn:Hs; [|reflexivity].
    exfalso. apply Hno. by eapply search_devname_sound.
Qed.

(** The first command of [_run_blkid_export] runs outside of the [try]: when
    it fails, its exception leaves the lookup, whatever the export would
    print. *)
Lemma get_device_by_blkid_field_escapes sys w (blkid_field field_value : string) :
  (forall err, subprocess_run sys blkid_gc_cmd = NonZeroExit err ->
     get_device_by_blkid_field sys blkid_field field_value w =
       (Raise (CalledProcessError blkid_gc_cmd), w)) /\
  (subprocess_run sys blkid_gc_cmd = NoSuchProgram ->
     get_device_by_blkid_field sys blkid_field field_value w = (Raise (OSError "blkid"), w)).
Proof.
  split; [intros err Hgc | intros Hgc];
    unfold get_device_by_blkid_field, _run_blkid_export, bind; by rewrite Hgc.
Qed.

Lemma get_device_by_ptuuid_dies sys w (value : string) :
  (forall out, CACHED_LSBLK_OUTPUT w = Some out -> ~ lsblk_row (lower value) (lower out)) ->
  (forall out, CACHED_LSBLK_OUTPUT w = None ->
               subprocess_run sys lsblk_cmd = Completed out ->
               ~ lsblk_row (lower value) (lower out)) ->
  exists message w',
    get_device_by_ptuuid sys value w = (Raise (SystemExit 1 message), w') /\
    DISK_ID_TO_RESOLVABLE w' = DISK_ID_TO_RESOLVABLE w /\ files w' = files w.
Proof.
  intros Hcache Hrun.
  assert (Hsearch : forall out, ~ lsblk_row (lower value) (lower out) ->
            re_search (match_lsblk_row (lower value)) (lower out) = None).
  { intros out Hno. destruct (re_search _ _) eqn:Hs; [|reflexivity].
    exfalso. apply Hno. by eapply search_lsblk_sound. }
  assert (Hfinal : forall out w0,
            ~ lsblk_row (lower value) (lower out) ->
            exists message,
              match given (Some out) with
              | None => die "lsblk output cache is empty."
              | Some output =>
                  match re_search (match_lsblk_row (lower value)) (lower output) with
                  | None => die ("Could not find PTUUID='" +:+ lower value +:+
                                 "' in lsblk output")
                  | Some name => ret name
                  end
              end w0 = (Raise (SystemExit 1 message), w0)).
  { intros out w0 Hno. destruct (given (Some out)) as [output|] eqn:Hg; [|by eexists].
    apply given_Some_iff in Hg as [[= ->] _]. rewrite (Hsearch _ Hno). by eexists. }
  unfold get_device_by_ptuuid, bind, gets, when, cache_lsblk_output.
  destruct w as [table cache fs ds]. cbn [CACHED_LSBLK_OUTPUT] in *.
  destruct cache as [out|].
  - destruct (Hfinal out (mkWorld table (Some out) fs ds)) as [msg Hmsg]; [by apply Hcache|].
    exists msg, (mkWorld table (Some out) fs ds). split; [exact Hmsg | by split].
  - destruct (subprocess_run sys lsblk_cmd) as [out| |] eqn:Hls;
      [|eexists _, _; split; [reflexivity | by split]..].
    destruct (Hfinal out (mkWorld table (Some out) fs ds)) as [msg Hmsg]; [by apply Hrun|].
    exists msg, (mkWorld table (Some out) fs ds). split; [exact Hmsg | by split].
Qed.

Lemma get_device_by_mdadm_uuid_dies sys w (value : string) :
  (forall out, subprocess_run sys mdadm_cmd = Completed out ->
               ~ mdadm_array (uuid_to_mduuid value) (lower out)) ->
  exists message,
    get_device_by_mdadm_uuid sys value w = (Raise (SystemExit 1 message), w).
Proof.
  intros Hno. unfold get_device_by_mdadm_uuid.
  destruct (subprocess_run sys mdadm_cmd) as [out| |]; [|by eexists|by eexists].
  destruct (re_search _ _) eqn:Hs; [|by eexists].
  exfalso. eapply Hno; [reflexivity|]. by eapply search_mdadm_sound.
Qed.

(** Where the resolver dies on a locator that matches nothing: for a table
    UUID and for an mdadm UUID always, for a partition or file-system UUID
    when the first blkid command completed. *)
Lemma resolve_probe_dies sys w (id entry : string) :
  DISK_ID_TO_RESOLVABLE w !! id = Some entry ->
  no_probe_match sys w entry ->
  (exists value, entry = "ptuuid:" +:+ value \/ entry = "mdadm:" +:+ value) \/
  (exists out, subprocess_run sys blkid_gc_cmd = Completed out) ->
  exists message w',
    resolve_device_by_id sys id w = (Raise (SystemExit 1 message), w') /\
    DISK_ID_TO_RESOLVABLE w' = DISK_ID_TO_RESOLVABLE w /\
    files w' = files w.
Proof.
  intros Hid Hno Hgc.
  destruct Hno as [value Hf Hsp Hblk|value Hf Hsp Hblk|value Hcache Hrun|value Hmdadm];
    destruct (resolve_probed_eq sys w id value) as (Hpart & Huuid & Hpt & Hmd).
  - destruct Hgc as [[v [H|H]]|Hgc]; [discriminate H | discriminate H |].
    rewrite (Hpart Hid). unfold bind at 1, get_device_by_partuuid, bind at 1.
    rewrite os_path_exists_eq. unfold dict_in. rewrite Hf, Hsp. simpl.
    rewrite (get_device_by_blkid_field_dies _ _ _ _ Hgc Hblk). by eauto.
  - destruct Hgc as [[v [H|H]]|Hgc]; [discriminate H | discriminate H |].
    rewrite (Huuid Hid). unfold bind at 1, get_device_by_uuid, bind at 1.
    rewrite os_path_exists_eq. unfold dict_in. rewrite Hf, Hsp. simpl.
    rewrite (get_device_by_blkid_field_dies _ _ _ _ Hgc Hblk). by eauto.
  - rewrite (Hpt Hid). unfold bind at 1.
    destruct (get_device_by_ptuuid_dies sys w value Hcache Hrun) as (msg & w' & -> & Ht & Hfs).
    by eauto.
  - rewrite (Hmd Hid). unfold bind at 1.
    destruct (get_device_by_mdadm_uuid_dies sys w value Hmdadm) as (msg & ->).
    by eauto.
Qed.

(** C9, as the code has it.  When the locator of an identifier matches nothing
    (no symbolic link and no blkid match for a partition or file-system UUID,
    no row of the lsblk output with the table UUID and an empty partition
    UUID, no array of the mdadm scan with the transformed UUID),
    [resolve_device_by_id] returns no path and leaves the resolve table and
    the files as they were.  It ends with [die] (status 1 and a message) for
    a table UUID and an mdadm UUID, also when lsblk or mdadm fails or is
    missing, and for a partition or file-system UUID when the first blkid
    command, blkid -g -c /dev/null, completed.  When that command exits with an
    error or blkid is missing, the lookup of a partition or file-system UUID
    does not die: [CalledProcessError], or the error of the missing program,
    escapes from the resolver. *)
Theorem resolve_without_match_blkid_escapes sys w (id entry : string) :
  DISK_ID_TO_RESOLVABLE w !! id = Some entry ->
  no_probe_match sys w entry ->
  ((exists value, entry = "ptuuid:" +:+ value \/ entry = "mdadm:" +:+ value) \/
   (exists out, subprocess_run sys blkid_gc_cmd = Completed out) ->
   exists message w',
     resolve_device_by_id sys id w = (Raise (SystemExit 1 message), w') /\
     DISK_ID_TO_RESOLVABLE w' = DISK_ID_TO_RESOLVABLE w /\
     files w' = files w) /\
  ((exists value, entry = "partuuid:" +:+ value \/ entry = "uuid:" +:+ value) ->
   (forall err, subprocess_run sys blkid_gc_cmd = NonZeroExit err ->
      resolve_device_by_id sys id w = (Raise (CalledProcessError blkid_gc_cmd), w)) /\
   (subprocess_run sys blkid_gc_cmd = NoSuchProgram ->
      resolve_device_by_id sys id w = (Raise (OSError "blkid"), w))).
Proof.
  intros Hid Hno. split; [by apply resolve_probe_dies|].
  intros Hkind.
  assert (Hescape : forall e,
            (forall blkid_field field_value,
               get_device_by_blkid_field sys blkid_field field_value w = (Raise e, w)) ->
            resolve_device_by_id sys id w = (Raise e, w)).
  { intros e He.
    destruct Hno as [value Hf Hsp Hblk|value Hf Hsp Hblk|value Hcache Hrun|value Hmdadm];
      destruct (resolve_probed_eq sys w id value) as (Hpart & Huuid & Hpt & Hmd).
    - rewrite (Hpart Hid). unfold bind at 1, get_device_by_partuuid, bind at 1.
      rewrite os_path_exists_eq. unfold dict_in. rewrite Hf, Hsp. simpl. by rewrite He.
    - rewrite (Huuid Hid). unfold bind at 1, get_device_by_uuid, bind at 1.
      rewrite os_path_exists_eq. unfold dict_in. rewrite Hf, Hsp. simpl. by rewrite He.
    - destruct Hkind as [v [H|H]]; discriminate H.
    - destruct Hkind as [v [H|H]]; discriminate H. }
  split.
  - intros err Hgc. apply Hescape. intros f v.
    by apply (proj1 (get_device_by_blkid_field_escapes sys w f v) err).
  - intros Hgc. apply Hescape. intros f v.
    by apply (proj2 (get_device_by_blkid_field_escapes sys w f v)).
Qed.

Lemma resolve_without_match_blkid_escapes_witness :
  no_probe_match failing_tools_system sample_world "partuuid:1234" /\
  resolve_device_by_id failing_tools_system "root" sample_world =
    (Raise (CalledProcessError blkid_gc_cmd), sample_world) /\
  (exists message w',
     resolve_device_by_id failing_tools_system "table" sample_world =
       (Raise (SystemExit 1 message), w') /\
     DISK_ID_TO_RESOLVABLE w' = DISK_ID_TO_RESOLVABLE sample_world /\
     files w' = files sample_world).
Proof.
  assert (Hroot : no_probe_match failing_tools_system sample_world "partuuid:1234").
  { apply (no_partuuid _ _ "1234"); [reflexivity | reflexivity |]. left. by exists "error". }
  assert (Htable : no_probe_match failing_tools_system sample_world "ptuuid:dead-beef").
  { apply (no_ptuuid _ _ "dead-beef"); [intros out Hout | intros out _ Hout]; discriminate Hout. }
  split; [exact Hroot|]. split.
  - destruct (resolve_without_match_blkid_escapes failing_tools_system sample_world
                "root" "partuuid:1234" eq_refl Hroot) as [_ Hesc].
    destruct Hesc as [Hnonzero _]; [exists "1234"; by left|].
    exact (Hnonzero "error" eq_refl).
  - destruct (resolve_without_match_blkid_escapes failing_tools_system sample_world
                "table" "ptuuid:dead-beef" eq_refl Htable) as [Hdie _].
    apply Hdie. left. exists "dead-beef". by left.
Defined.

End NoMatch.

(** * Further properties of the layout DSL *)

Import ConfigRest Invariants.

(** ** Invariants of the registry and of the membership map *)

Section ReachableInvariants.

Implicit Types (self : DiskConfigurator).

Lemma minted_registry_ok id self :
  new_id_error id self = None -> registry_ok self -> registry_ok (minted id self).
Proof.
  intros He Hok. apply new_id_error_None in He as (Hne & Hsemi & _).
  intros i u. destruct self; simpl in *.
  destruct (decide (id = i)) as [<-|Hni].
  - rewrite lookup_insert_eq. intros [= <-]. by auto.
  - rewrite lookup_insert_ne by done. apply Hok.
Qed.

Lemma exec_registry_ok (c : call) self r self' :
  exec c self = (r, self') -> registry_ok self -> registry_ok self'.
Proof.
  intros Hex Hok.
  assert (Huu : forall s s0, DISK_ID_TO_UUID s0 = DISK_ID_TO_UUID s ->
                  registry_ok s -> registry_ok s0).
  { intros s s0 Heq H i u. rewrite Heq. apply H. }
  destruct r as [[]|e].
  - destruct c as [new_id device|new_id device id_val|new_id id_val size type];
      simpl in Hex.
    + rewrite register_existing_eq in Hex. unfold register_existing_summary in Hex.
      destruct (new_id_error new_id self) eqn:He; [discriminate|].
      injection Hex as <-. eapply Huu; [|by apply minted_registry_ok].
      destruct self; reflexivity.
    + rewrite create_gpt_eq in Hex. unfold create_gpt_summary in Hex.
      destruct (given device), (given id_val); try discriminate;
        (destruct (new_id_error new_id self) eqn:He; [discriminate|]);
        try destruct (dict_in _ _); try discriminate;
        injection Hex as <-; (eapply Huu; [|by apply minted_registry_ok]);
        destruct self; reflexivity.
    + rewrite create_partition_eq in Hex. unfold create_partition_summary in Hex.
      destruct (new_id_error new_id self) eqn:He; [discriminate|].
      destruct (negb (dict_in _ _)); [discriminate|].
      destruct (negb (tuple_in _ _)); [discriminate|].
      destruct (default false _); [discriminate|].
      injection Hex as <-. eapply Huu; [|by apply minted_registry_ok].
      unfold partition_post. destruct self, (size =? "remaining"); reflexivity.
  - apply exec_rejected in Hex as [[-> _]|[-> He]]; [exact Hok|].
    by apply minted_registry_ok.
Qed.

Lemma run_preserves (P : DiskConfigurator -> Prop) :
  (forall c self r self', exec c self = (r, self') -> P self -> P self') ->
  forall cs self, P self -> P (snd (run cs self)).
Proof.
  intros Hstep cs. induction cs as [|c cs IH]; intros self HP; [exact HP|].
  simpl. destruct (exec c self) as [r self1] eqn:Hex.
  specialize (IH self1 (Hstep _ _ _ _ Hex HP)).
  destruct (run cs self1) as [rs self2]. exact IH.
Qed.

(** X1. Whatever builder calls are issued on a new configurator, accepted or
    rejected, every identifier in [DISK_ID_TO_UUID] is non-empty, free of the
    separator [;] and mapped to the UUID computed from its own name. *)
Theorem reachable_registry_ok (cs : list call) (base_dir : string) :
  registry_ok (snd (run cs (init base_dir))).
Proof.
  apply (run_preserves registry_ok exec_registry_ok).
  intros id u H. discriminate H.
Qed.

Lemma exec_membership_ok (c : call) self r self' :
  exec c self = (r, self') -> membership_ok self -> membership_ok self'.
Proof.
  intros Hex [Hp Hf].
  (* a state that only gained a registered identifier *)
  assert (Hgrow : forall id s0,
            DISK_ID_TO_UUID s0 = <[id := uuid_for id]> (DISK_ID_TO_UUID self) ->
            DISK_ID_TO_UUID self !! id = None ->
            DISK_ID_PART_TO_GPT_ID s0 = DISK_ID_PART_TO_GPT_ID self ->
            DISK_GPT_HAD_SIZE_REMAINING s0 = DISK_GPT_HAD_SIZE_REMAINING self ->
            membership_ok s0).
  { intros id s0 Hu Hfresh Hp0 Hf0. split.
    - intros p t. rewrite Hp0, Hu. intros Hpt. destruct (Hp p t Hpt) as [[x Hx] [y Hy]].
      split; eapply lookup_insert_is_Some'; right; by eexists.
    - intros t b. rewrite Hf0, Hp0, Hu. intros Htb.
      destruct (Hf t b Htb) as (-> & [x Hx] & Hex').
      split; [reflexivity|]. split; [|exact Hex'].
      eapply lookup_insert_is_Some'; right; by eexists. }
  destruct r as [[]|e].
  - destruct c as [new_id device|new_id device id_val|new_id id_val size type];
      simpl in Hex.
    + rewrite register_existing_eq in Hex. unfold register_existing_summary in Hex.
      destruct (new_id_error new_id self) eqn:He; [discriminate|].
      apply new_id_error_None in He as (_ & _ & Hfresh).
      injection Hex as <-. apply (Hgrow new_id); try assumption; destruct self; reflexivity.
    + rewrite create_gpt_eq in Hex. unfold create_gpt_summary in Hex.
      destruct (given device), (given id_val); try discriminate;
        (destruct (new_id_error new_id self) eqn:He; [discriminate|]);
        apply new_id_error_None in He as (_ & _ & Hfresh);
        try destruct (dict_in _ _); try discriminate;
        injection Hex as <-;
        apply (Hgrow new_id); try assumption; destruct self; reflexivity.
    + rewrite create_partition_eq in Hex. unfold create_partition_summary in Hex.
      destruct (new_id_error new_id self) eqn:He; [discriminate|].
      apply new_id_error_None in He as (_ & _ & Hfresh).
      destruct (dict_in id_val (DISK_ID_TO_UUID (minted new_id self))) eqn:Hin;
        [|discriminate].
      apply dict_in_lookup in Hin.
      change (negb true) with false in Hex. cbv iota in Hex.
      destruct (negb (tuple_in _ _)); [discriminate|].
      destruct (default false _); [discriminate|].
      injection Hex as <-.
      assert (Hnop : DISK_ID_PART_TO_GPT_ID self !! new_id = None).
      { destruct (DISK_ID_PART_TO_GPT_ID self !! new_id) as [t|] eqn:Hpt; [|reflexivity].
        destruct (Hp _ _ Hpt) as [[x Hx] _]. congruence. }
      unfold partition_post. destruct self; simpl in *. split.
      * intros p t. destruct (size =? "remaining"); simpl;
          (destruct (decide (new_id = p)) as [<-|Hnp];
           [rewrite !lookup_insert_eq; intros [= <-]; split; [by eexists | exact Hin]
           |rewrite lookup_insert_ne by done; intros Hpt;
            destruct (Hp p t Hpt) as [[x Hx] [y Hy]];
            split; eapply lookup_insert_is_Some'; right; by eexists]).
      * intros t b. destruct (size =? "remaining"); simpl.
        -- destruct (decide (id_val = t)) as [<-|Hit].
           ++ rewrite lookup_insert_eq. intros [= <-]. split; [reflexivity|].
              split; [exact Hin|]. exists new_id. apply lookup_insert_eq.
           ++ rewrite lookup_insert_ne by done. intros Htb.
              destruct (Hf t b Htb) as (-> & [x Hx] & [p Hpt]).
              split; [reflexivity|]. split.
              ** eapply lookup_insert_is_Some'; right; by eexists.
              ** exists p. rewrite lookup_insert_ne; [exact Hpt|]. congruence.
        -- intros Htb. destruct (Hf t b Htb) as (-> & [x Hx] & [p Hpt]).
           split; [reflexivity|]. split.
           ++ eapply lookup_insert_is_Some'; right; by eexists.
           ++ exists p. rewrite lookup_insert_ne; [exact Hpt|]. congruence.
  - apply exec_rejected in Hex as [[-> _]|[-> He]]; [by split|].
    apply new_id_error_None in He as (_ & _ & Hfresh).
    apply (Hgrow (new_id_of c)); try assumption; destruct self; reflexivity.
Qed.

(** X2. Whatever builder calls are issued on a new configurator, every
    partition of [DISK_ID_PART_TO_GPT_ID] and its table are registered
    identifiers, and every table of [DISK_GPT_HAD_SIZE_REMAINING] is marked
    [True], is registered and has a partition recorded on it. *)
Theorem reachable_membership_ok (cs : list call) (base_dir : string) :
  membership_ok (snd (run cs (init base_dir))).
Proof.
  apply (run_preserves membership_ok exec_membership_ok).
  split; intros ? ? H; discriminate H.
Qed.

End ReachableInvariants.

(** ** Lists of identifiers and parsed arguments *)

Section IdLists.

Implicit Types (self : DiskConfigurator) (arguments : gmap string string).

Lemma remove_dups_length_le (l : list string) : (length (remove_dups l) <= length l)%nat.
Proof.
  induction l as [|x l IH]; simpl; [lia|].
  destruct (decide_rel elem_of x l); simpl; lia.
Qed.

Lemma remove_dups_length_NoDup (l : list string) :
  length (remove_dups l) = length l <-> NoDup l.
Proof.
  induction l as [|x l IH]; simpl.
  - split; [intros _; constructor | done].
  - destruct (decide_rel elem_of x l) as [Hin|Hnin]; simpl.
    + split.
      * intros Hlen. pose proof (remove_dups_length_le l). lia.
      * intros Hnd. apply NoDup_cons in Hnd as [Hx _]. done.
    + split.
      * intros [= Hlen]. apply NoDup_cons. split; [exact Hnin | by apply IH].
      * intros Hnd. apply NoDup_cons in Hnd as [_ Hnd]. f_equal. by apply IH.
Qed.

Lemma verify_known_eq (arg : string) (ids : list string) self :
  verify_known arg ids self =
  match List.find (fun i => negb (dict_in i (DISK_ID_TO_UUID self))) ids with
  | Some u =>
      (Raise (SystemExit 2 (arg +:+ "=... contains unknown identifier '" +:+ u +:+ "'")), self)
  | None => (Ok tt, self)
  end.
Proof.
  induction ids as [|i ids IH]; [reflexivity|].
  simpl. unfold bind, gets, when. simpl.
  destruct (dict_in i (DISK_ID_TO_UUID self)); simpl; [exact IH | reflexivity].
Qed.

(** The outcomes of [verify_existing_unique_ids], check by check. *)
Lemma verify_existing_unique_ids_cases arguments (arg : string) self :
  let ids := id_list (default "" (arguments !! arg)) in
  let r := verify_existing_unique_ids arguments arg self in
  snd r = self /\
  (ids = [] ->
   fst r = Raise (SystemExit 2 (arg +:+ "=... must contain at least one entry"))) /\
  (ids <> [] -> ~ NoDup ids ->
   fst r = Raise (SystemExit 2 (arg +:+ "=... contains duplicate identifiers"))) /\
  (ids <> [] -> NoDup ids ->
   forall u, List.find (fun i => negb (dict_in i (DISK_ID_TO_UUID self))) ids = Some u ->
   fst r = Raise (SystemExit 2 (arg +:+ "=... contains unknown identifier '" +:+ u +:+ "'"))) /\
  (fst r = Ok tt <->
   ids <> [] /\ NoDup ids /\ forall i, i ∈ ids -> is_Some (DISK_ID_TO_UUID self !! i)).
Proof.
  intros ids r. subst r. unfold verify_existing_unique_ids. fold ids.
  unfold bind, when.
  destruct ids as [|i0 ids0] eqn:Hids.
  { simpl. repeat split; try done. intros (H & _). done. }
  set (l := i0 :: ids0) in *. change (ret tt self) with (Ok tt, self). cbv iota beta.
  destruct (Nat.eqb_spec (length l) (length (remove_dups l))) as [Hlen|Hlen].
  - assert (Hnd : NoDup l) by (by apply remove_dups_length_NoDup).
    change (negb true) with false. cbv iota. change (ret tt self) with (Ok tt, self).
    cbv iota beta. rewrite verify_known_eq.
    destruct (List.find _ l) as [u|] eqn:Hfind; simpl.
    + repeat split; try done.
      * intros _ _ u' [= <-]. reflexivity.
      * intros (_ & _ & Hall). apply find_some in Hfind as [Hin Hu].
        apply list_elem_of_In, Hall, dict_in_lookup in Hin. by rewrite Hin in Hu.
    + repeat split; try done.
      intros i Hi. apply dict_in_lookup.
      pose proof (find_none _ _ Hfind i (proj1 (list_elem_of_In _ _) Hi)) as Hn.
      by apply negb_false_iff in Hn.
  - assert (Hnd : ~ NoDup l).
    { intros H. apply Hlen. symmetry. by apply remove_dups_length_NoDup. }
    simpl. repeat split; try done. intros (_ & H & _). done.
Qed.

(** X3. [verify_existing_unique_ids] never changes the configurator.  It
    rejects a list without any identifier, then a list with a repeated
    identifier, then the first identifier of the list that is not registered,
    each with its own message; it accepts exactly the non-empty, duplicate-free
    lists of registered identifiers. *)
Theorem verify_existing_unique_ids_spec arguments (arg : string) self :
  let ids := id_list (default "" (arguments !! arg)) in
  let r := verify_existing_unique_ids arguments arg self in
  snd r = self /\
  (ids = [] ->
   fst r = Raise (SystemExit 2 (arg +:+ "=... must contain at least one entry"))) /\
  (ids <> [] -> ~ NoDup ids ->
   fst r = Raise (SystemExit 2 (arg +:+ "=... contains duplicate identifiers"))) /\
  (ids <> [] -> NoDup ids ->
   forall u, List.find (fun i => negb (dict_in i (DISK_ID_TO_UUID self))) ids = Some u ->
   fst r = Raise (SystemExit 2 (arg +:+ "=... contains unknown identifier '" +:+ u +:+ "'"))) /\
  (fst r = Ok tt <->
   ids <> [] /\ NoDup ids /\ forall i, i ∈ ids -> is_Some (DISK_ID_TO_UUID self !! i)).
Proof. exact (verify_existing_unique_ids_cases arguments arg self). Qed.

Lemma verify_existing_unique_ids_spec_witness :
  let self := snd (run [Create_gpt "a" (Some "/dev/sda") None;
                        Create_gpt "b" (Some "/dev/sdb") None]
                       (init "/tmp/gentoo-install-python")) in
  verify_existing_unique_ids {["ids" := " a ;b;"]} "ids" self = (Ok tt, self) /\
  fst (verify_existing_unique_ids {["ids" := "a;a;b"]} "ids" self) =
    Raise (SystemExit 2 "ids=... contains duplicate identifiers") /\
  fst (verify_existing_unique_ids {["ids" := "a;unknown"]} "ids" self) =
    Raise (SystemExit 2 "ids=... contains unknown identifier 'unknown'") /\
  fst (verify_existing_unique_ids ∅ "ids" self) =
    Raise (SystemExit 2 "ids=... must contain at least one entry").
Proof.
  intros self.
  pose proof (verify_existing_unique_ids_spec {["ids" := " a ;b;"]} "ids" self) as (H1 & _ & _ & _ & H5).
  pose proof (verify_existing_unique_ids_spec {["ids" := "a;a;b"]} "ids" self) as (_ & _ & H3 & _).
  pose proof (verify_existing_unique_ids_spec {["ids" := "a;unknown"]} "ids" self) as (_ & _ & _ & H4 & _).
  pose proof (verify_existing_unique_ids_spec ∅ "ids" self) as (_ & H2 & _).
  split; [|split; [|split]].
  - rewrite (surjective_pairing (verify_existing_unique_ids {["ids" := " a ;b;"]} "ids" self)).
    rewrite H1. apply (f_equal (fun x => (x, self))). apply H5.
    change (["a"; "b"] <> [] /\ NoDup ["a"; "b"] /\
            forall i, i ∈ ["a"; "b"] -> is_Some (DISK_ID_TO_UUID self !! i)).
    split; [discriminate|]. split.
    + apply NoDup_cons. split; [|apply NoDup_singleton].
      intros Hin. by apply list_elem_of_singleton in Hin.
    + intros i Hi. apply elem_of_cons in Hi as [->|Hi]; [by eexists|].
      apply list_elem_of_singleton in Hi as ->. by eexists.
  - apply H3; [discriminate|].
    change (~ NoDup ["a"; "a"; "b"]).
    intros Hnd. apply NoDup_cons in Hnd as [Hx _]. apply Hx. by left.
  - assert (Hnd : NoDup ["a"; "unknown"]).
    { apply NoDup_cons. split; [|apply NoDup_singleton].
      intros Hin. by apply list_elem_of_singleton in Hin. }
    exact (H4 ltac:(discriminate) Hnd "unknown" eq_refl).
  - apply H2. reflexivity.
Defined.

End IdLists.

Section Serialisation.

Implicit Types (self : DiskConfigurator).

Lemma contains_char_cons (c d : ascii) (s : string) :
  contains_char c (String d s) = false -> Ascii.eqb c d = false /\ contains_char c s = false.
Proof. simpl. destruct (Ascii.eqb c d); [discriminate | by auto]. Qed.

Lemma split_char_without (c : ascii) (a : string) :
  contains_char c a = false -> split_char c a = [a].
Proof.
  induction a as [|d a IH]; [reflexivity|].
  intros H. apply contains_char_cons in H as [Hcd Ha]. simpl. rewrite Hcd, (IH Ha). reflexivity.
Qed.

Lemma split_char_app (c : ascii) (a b : string) :
  contains_char c a = false ->
  split_char c (a +:+ String c b) = a :: split_char c b.
Proof.
  induction a as [|d a IH]; intros H.
  - change ("" +:+ String c b) with (String c b). simpl. by rewrite Ascii.eqb_refl.
  - apply contains_char_cons in H as [Hcd Ha]. rewrite append_cons. simpl.
    rewrite Hcd, (IH Ha). reflexivity.
Qed.

Lemma split_char_join (c : ascii) (x : string) (l : list string) :
  Forall (fun i => contains_char c i = false) (x :: l) ->
  split_char c (join (String c "") (x :: l)) = x :: l.
Proof.
  revert x. induction l as [|y l IH]; intros x Hall.
  - apply Forall_cons in Hall as [Hx _]. simpl. by apply split_char_without.
  - apply Forall_cons in Hall as [Hx Hall].
    change (join (String c "") (x :: y :: l))
      with (x +:+ String c (join (String c "") (y :: l))).
    rewrite split_char_app by exact Hx. by rewrite IH.
Qed.

(** X4. The list of identifiers is recovered from its serialisation: when
    every identifier is non-empty, has no white space at its ends and no [;],
    joining the identifiers with [;] and reading the result back gives the same
    list; and if the list is non-empty, duplicate-free and made of registered
    identifiers, [verify_existing_unique_ids] accepts the serialisation. *)
Theorem id_list_round_trip (ids : list string) :
  Forall (fun i => i <> "" /\ strip i = i /\ contains_char ";" i = false) ids ->
  id_list (join ";" ids) = ids /\
  forall self (arg : string),
    ids <> [] -> NoDup ids ->
    (forall i, i ∈ ids -> is_Some (DISK_ID_TO_UUID self !! i)) ->
    verify_existing_unique_ids {[arg := join ";" ids]} arg self = (Ok tt, self).
Proof.
  intros Hall.
  assert (Hround : id_list (join ";" ids) = ids).
  { destruct ids as [|x l]; [reflexivity|]. unfold id_list.
    rewrite (split_char_join ";" x l)
      by (eapply Forall_impl; [exact Hall | by intros i (_ & _ & H)]).
    induction Hall as [|i l' (Hne & Hs & _) _ IH]; [reflexivity|].
    simpl. rewrite Hs. destruct i; [done|]. simpl. f_equal. exact IH. }
  split; [exact Hround|].
  intros self arg Hne Hnd Hreg.
  pose proof (verify_existing_unique_ids_cases {[arg := join ";" ids]} arg self)
    as (Hst & _ & _ & _ & Hok).
  rewrite lookup_singleton_eq in Hok. simpl in Hok. rewrite Hround in Hok.
  rewrite (surjective_pairing (verify_existing_unique_ids _ arg self)), Hst.
  f_equal. by apply Hok.
Qed.

Lemma id_list_round_trip_witness :
  id_list "part_a;part_b" = ["part_a"; "part_b"].
Proof.
  apply (id_list_round_trip ["part_a"; "part_b"]).
  repeat constructor; discriminate.
Defined.

Lemma split_once_join (c : ascii) (k v : string) :
  contains_char c k = false ->
  contains_char c (k +:+ String c v) = true /\
  split_once c (k +:+ String c v) = (k, v).
Proof.
  induction k as [|d k IH]; intros H.
  - change ("" +:+ String c v) with (String c v). simpl. by rewrite Ascii.eqb_refl.
  - apply contains_char_cons in H as [Hcd Hk]. rewrite append_cons. simpl.
    destruct (IH Hk) as [H1 H2]. by rewrite Hcd, H1, H2.
Qed.

Lemma parse_arguments_acc (l : list string) (m : gmap string string) (e : list string) :
  fold_left parse_argument l (m, e) =
  (fold_left (fun m0 arg =>
                if contains_char "=" arg
                then <[(split_once "=" arg).1 := (split_once "=" arg).2]> m0 else m0) l m,
   (e ++ List.filter (fun arg => negb (contains_char "=" arg)) l)%list).
Proof.
  revert m e. induction l as [|a l IH]; intros m e; simpl.
  - by rewrite app_nil_r.
  - destruct (contains_char "=" a) eqn:Ha; simpl.
    + destruct (split_once "=" a) as [k v]. by rewrite IH.
    + by rewrite IH, <- app_assoc.
Qed.

(** The arguments of a dictionary, written as key=value. *)
Lemma parse_rendered (l : list (string * string)) (m : gmap string string) :
  Forall (fun kv => contains_char "=" kv.1 = false) l ->
  fold_left (fun m0 arg =>
               if contains_char "=" arg
               then <[(split_once "=" arg).1 := (split_once "=" arg).2]> m0 else m0)
            (map (fun kv => kv.1 +:+ String "=" kv.2) l) m =
  fold_left (fun m0 kv => <[kv.1 := kv.2]> m0) l m.
Proof.
  intros Hall. revert m. induction Hall as [|[k v] l Hk _ IH]; intros m; [reflexivity|].
  simpl in *. destruct (split_once_join "=" k v Hk) as [-> ->]. simpl. apply IH.
Qed.

Lemma fold_left_insert_list_to_map (l : list (string * string)) (m : gmap string string) :
  fold_left (fun m0 kv => <[kv.1 := kv.2]> m0) l m = list_to_map (reverse l) ∪ m.
Proof.
  revert m. induction l as [|[k v] l IH]; intros m; simpl.
  - by rewrite (left_id_L ∅ (∪)).
  - rewrite IH, reverse_cons, list_to_map_app. simpl.
    rewrite <- (assoc_L (∪)). f_equal.
    by rewrite insert_empty, <- insert_union_singleton_l.
Qed.

(** X5. [parse_arguments_python] reads back a dictionary from its key=value
    arguments: if no key contains [=], the arguments written from the entries
    of a dictionary, followed by arguments without [=], parse to that
    dictionary and to those extra arguments, in order; and a later key=value
    overrides an earlier one for the same key. *)
Theorem parse_arguments_round_trip (m : gmap string string) (extras : list string) :
  (forall k v, m !! k = Some v -> contains_char "=" k = false) ->
  Forall (fun arg => contains_char "=" arg = false) extras ->
  parse_arguments_python
    (map (fun kv => kv.1 +:+ String "=" kv.2) (map_to_list m) ++ extras) = (m, extras) /\
  forall (l : list string) (k v : string),
    contains_char "=" k = false ->
    (parse_arguments_python (l ++ [k +:+ String "=" v])).1 !! k = Some v.
Proof.
  intros Hkeys Hextras. split.
  - unfold parse_arguments_python. rewrite parse_arguments_acc. f_equal.
    + rewrite fold_left_app.
      assert (Hnoeq : forall m0, fold_left (fun (m1 : gmap string string) arg =>
                if contains_char "=" arg
                then <[(split_once "=" arg).1 := (split_once "=" arg).2]> m1 else m1)
                extras m0 = m0).
      { intros m0. induction Hextras as [|a l Ha _ IH]; [reflexivity|].
        simpl. by rewrite Ha. }
      rewrite Hnoeq, parse_rendered.
      2:{ apply Forall_forall. intros [k v] Hin. simpl.
          apply elem_of_map_to_list in Hin. by eapply Hkeys. }
      rewrite fold_left_insert_list_to_map, (right_id_L ∅ (∪)).
      rewrite <- (list_to_map_to_list m) at 2.
      apply list_to_map_proper; [|apply reverse_Permutation].
      rewrite fmap_reverse, reverse_Permutation. apply NoDup_fst_map_to_list.
    + simpl. rewrite List.filter_app.
      assert (H1 : List.filter (fun arg => negb (contains_char "=" arg))
                (map (fun kv : string * string => kv.1 +:+ String "=" kv.2) (map_to_list m)) = []).
      { assert (Hk : Forall (fun kv : string * string => contains_char "=" kv.1 = false)
                       (map_to_list m)).
        { apply Forall_forall. intros [k v] Hin. simpl.
          apply elem_of_map_to_list in Hin. by eapply Hkeys. }
        induction Hk as [|[k v] l Hk _ IH]; [reflexivity|]. simpl in *.
        destruct (split_once_join "=" k v Hk) as [-> _]. exact IH. }
      assert (H2 : List.filter (fun arg => negb (contains_char "=" arg)) extras = extras).
      { induction Hextras as [|a l Ha _ IH]; [reflexivity|]. simpl. by rewrite Ha, IH. }
      by rewrite H1, H2.
  - intros l k v Hk. unfold parse_arguments_python. rewrite parse_arguments_acc. simpl.
    rewrite fold_left_app. simpl.
    destruct (split_once_join "=" k v Hk) as [-> ->]. simpl. apply lookup_insert_eq.
Qed.

Lemma parse_arguments_round_trip_witness :
  parse_arguments_python ["new_id=gpt"; "--force"] = (<["new_id" := "gpt"]> ∅, ["--force"]).
Proof.
  destruct (parse_arguments_round_trip {["new_id" := "gpt"]} ["--force"]) as [H _].
  - intros k v Hkv. apply lookup_singleton_Some in Hkv as [<- _]. reflexivity.
  - repeat constructor.
  - exact H.
Defined.

End Serialisation.

(** ** What the classic recipe produces *)

Section ClassicRecipe.

Implicit Types (self : DiskConfigurator).

Lemma classic_partition_type (type : string) :
  type ∈ partition_types ->
  type = "bios" \/ type = "efi" \/ type = "swap" \/ type = "raid" \/ type = "luks" \/
  type = "linux".
Proof. unfold partition_types. set_unfold. tauto. Qed.

(** The table and the partitions of the recipe are accepted under
    [classic_accepts], and what follows them runs on [classic_partitions]. *)
Lemma classic_partitions_accepted {A : Type} (device swap type : string)
    (k : Config.M A) self :
  classic_accepts swap type self ->
  (create_gpt "gpt" (Some device) None ;;
   create_partition ("part_" +:+ type) "gpt" "1GiB" type ;;
   when (negb (swap =? "false")) (create_partition "part_swap" "gpt" swap "swap") ;;
   create_partition "part_root" "gpt" "remaining" "linux" ;;
   k) self = k (classic_partitions device swap type self).
Proof.
  intros (Hty & Hswap & Hgpt & Hboot & Hsw & Hroot & Hflag).
  assert (Hflag' : default false (DISK_GPT_HAD_SIZE_REMAINING self !! "gpt") = false).
  { destruct (DISK_GPT_HAD_SIZE_REMAINING self !! "gpt") as [[]|]; simpl; congruence. }
  assert (Hty' : tuple_in type partition_types = true) by (by apply tuple_in_elem).
  apply classic_partition_type in Hty.
  assert (Hsemi : contains_char ";" ("part_" +:+ type) = false).
  { destruct Hty as [->|[->|[->|[->|[->| ->]]]]]; reflexivity. }
  assert (Hne1 : "part_" +:+ type <> "gpt") by discriminate.
  assert (Hne2 : "part_" +:+ type <> "part_root").
  { destruct Hty as [->|[->|[->|[->|[->| ->]]]]]; discriminate. }
  unfold classic_partitions.
  unfold bind at 1. rewrite create_gpt_accepted by (by apply new_id_error_None).
  set (s1 := gpt_post "gpt" (Some device) None self).
  destruct (post_fields "gpt" "" "" "" (Some device) None self) as (Hu1 & Hf1 & _).
  fold s1 in Hu1, Hf1.
  unfold bind at 1. rewrite create_partition_accepted; cycle 1.
  { apply new_id_error_None. split; [discriminate|]. split; [exact Hsemi|].
    rewrite Hu1, lookup_insert_ne by done. exact Hboot. }
  { apply dict_in_lookup.
    destruct (post_fields ("part_" +:+ type) "" "" "" None None s1) as (_ & _ & _ & -> & _).
    rewrite lookup_insert_ne, Hu1, lookup_insert_eq by done. by eexists. }
  { exact Hty'. }
  { rewrite Hf1. exact Hflag'. }
  set (s2 := partition_post ("part_" +:+ type) "gpt" "1GiB" type s1).
  destruct (post_fields ("part_" +:+ type) "gpt" "1GiB" type None None s1)
    as (_ & _ & Hu2 & _ & Hf2).
  specialize (Hf2 eq_refl). fold s2 in Hu2, Hf2.
  set (s3 := if swap =? "false" then s2 else partition_post "part_swap" "gpt" swap "swap" s2).
  assert (Hs3 : when (negb (swap =? "false"))
                  (create_partition "part_swap" "gpt" swap "swap") s2 = (Ok tt, s3) /\
                DISK_ID_TO_UUID s3 !! "part_root" = None /\
                DISK_ID_TO_UUID s3 !! "gpt" = Some (uuid_for "gpt") /\
                DISK_GPT_HAD_SIZE_REMAINING s3 = DISK_GPT_HAD_SIZE_REMAINING self).
  { subst s3. destruct (String.eqb_spec swap "false") as [->|Hswf]; simpl.
    - rewrite Hu2, Hu1, Hf2, Hf1, !lookup_insert_ne, lookup_insert_eq by done. by auto.
    - destruct Hswap as [Hswap|[Hrem Htys]]; [done|].
      apply String.eqb_neq in Hrem.
      assert (Hswne : "part_" +:+ type <> "part_swap").
      { intros H. apply Htys. by injection H. }
      destruct (post_fields "part_swap" "gpt" swap "swap" None None s2)
        as (_ & _ & Hu3 & Hm3 & Hf3).
      specialize (Hf3 Hrem). split.
      { apply create_partition_accepted.
        - apply new_id_error_None. split; [discriminate|]. split; [reflexivity|].
          rewrite Hu2, Hu1, !lookup_insert_ne by done. by apply Hsw.
        - apply dict_in_lookup.
          rewrite Hm3, Hu2, Hu1, !lookup_insert_ne, lookup_insert_eq by done. by eexists.
        - reflexivity.
        - by rewrite Hf2, Hf1. }
      rewrite Hu3, Hu2, Hu1, Hf3, Hf2, Hf1, !lookup_insert_ne, lookup_insert_eq by done.
      by auto. }
  destruct Hs3 as (Hs3 & Hroot3 & Hgpt3 & Hf3).
  unfold bind at 1. rewrite Hs3.
  unfold bind at 1. rewrite create_partition_accepted; [reflexivity| | | |].
  - apply new_id_error_None. split; [discriminate|]. split; [reflexivity|exact Hroot3].
  - apply dict_in_lookup.
    destruct (post_fields "part_root" "" "" "" None None s3) as (_ & _ & _ & -> & _).
    rewrite lookup_insert_ne, Hgpt3 by done. by eexists.
  - reflexivity.
  - by rewrite Hf3.
Qed.

Lemma same_roles_trans (a b c : DiskConfigurator) :
  same_roles a b -> same_roles b c -> same_roles a c.
Proof.
  unfold same_roles. intros (?&?&?&?&?&?&?&?&?) (?&?&?&?&?&?&?&?&?).
  repeat split; congruence.
Qed.

Lemma gpt_post_fields new_id device tbl self :
  same_roles self (gpt_post new_id device tbl self) /\
  DISK_ACTIONS (gpt_post new_id device tbl self) =
    (DISK_ACTIONS self ++ [gpt_action new_id device tbl])%list /\
  DISK_ID_PART_TO_GPT_ID (gpt_post new_id device tbl self) = DISK_ID_PART_TO_GPT_ID self.
Proof. destruct self. repeat split. Qed.

Lemma partition_post_fields new_id id_val size type self :
  same_roles self (partition_post new_id id_val size type self) /\
  DISK_ACTIONS (partition_post new_id id_val size type self) =
    (DISK_ACTIONS self ++ [partition_action new_id id_val size type])%list /\
  DISK_ID_PART_TO_GPT_ID (partition_post new_id id_val size type self) =
    <[new_id := id_val]> (DISK_ID_PART_TO_GPT_ID self) /\
  (size = "remaining" ->
   DISK_GPT_HAD_SIZE_REMAINING (partition_post new_id id_val size type self) =
     <[id_val := true]> (DISK_GPT_HAD_SIZE_REMAINING self)).
Proof.
  unfold partition_post. destruct self, (String.eqb_spec size "remaining"); repeat split; done.
Qed.

(** The configurator after the partitions of the recipe. *)
Lemma classic_partitions_fields (device swap type : string) self :
  type ∈ partition_types ->
  let s := classic_partitions device swap type self in
  same_roles self s /\
  DISK_ACTIONS s =
    (DISK_ACTIONS self ++
     [gpt_action "gpt" (Some device) None;
      partition_action ("part_" +:+ type) "gpt" "1GiB" type] ++
     (if String.eqb swap "false" then []
      else [partition_action "part_swap" "gpt" swap "swap"]) ++
     [partition_action "part_root" "gpt" "remaining" "linux"])%list /\
  DISK_ID_TO_UUID s !! "part_luks_root" = DISK_ID_TO_UUID self !! "part_luks_root" /\
  DISK_ID_PART_TO_GPT_ID s !! "part_root" = Some "gpt" /\
  table_full "gpt" s.
Proof.
  intros Hty s. apply classic_partition_type in Hty.
  assert (Hne : "part_" +:+ type <> "part_luks_root").
  { destruct Hty as [->|[->|[->|[->|[->| ->]]]]]; discriminate. }
  subst s. unfold classic_partitions.
  set (s1 := gpt_post "gpt" (Some device) None self).
  set (s2 := partition_post ("part_" +:+ type) "gpt" "1GiB" type s1).
  set (s3 := if swap =? "false" then s2 else partition_post "part_swap" "gpt" swap "swap" s2).
  destruct (gpt_post_fields "gpt" (Some device) None self) as (Hr1 & Ha1 & _).
  destruct (post_fields "gpt" "" "" "" (Some device) None self) as (Hu1 & _).
  destruct (partition_post_fields ("part_" +:+ type) "gpt" "1GiB" type s1) as (Hr2 & Ha2 & _).
  destruct (post_fields ("part_" +:+ type) "gpt" "1GiB" type None None s1)
    as (_ & _ & Hu2 & _).
  fold s1 in Hr1, Ha1, Hu1. fold s2 in Hr2, Ha2, Hu2.
  assert (H3 : same_roles s2 s3 /\
               DISK_ACTIONS s3 =
                 (DISK_ACTIONS s2 ++
                  (if String.eqb swap "false" then []
                   else [partition_action "part_swap" "gpt" swap "swap"]))%list /\
               DISK_ID_TO_UUID s3 !! "part_luks_root" = DISK_ID_TO_UUID s2 !! "part_luks_root" /\
               DISK_ID_TO_UUID s3 !! "gpt" = DISK_ID_TO_UUID s2 !! "gpt").
  { subst s3. destruct (swap =? "false").
    - rewrite app_nil_r. by repeat split.
    - destruct (partition_post_fields "part_swap" "gpt" swap "swap" s2) as (Hr & Ha & _).
      destruct (post_fields "part_swap" "gpt" swap "swap" None None s2) as (_ & _ & Hu & _).
      rewrite Hu, !lookup_insert_ne by done. by auto. }
  destruct H3 as (Hr3 & Ha3 & Hu3 & Hg3).
  destruct (partition_post_fields "part_root" "gpt" "remaining" "linux" s3)
    as (Hr4 & Ha4 & Hp4 & Hf4).
  destruct (post_fields "part_root" "gpt" "remaining" "linux" None None s3)
    as (_ & _ & Hu4 & _).
  split; [|split; [|split; [|split]]].
  - eauto using same_roles_trans.
  - rewrite Ha4, Ha3, Ha2, Ha1, <- !app_assoc. reflexivity.
  - rewrite Hu4, lookup_insert_ne, Hu3, Hu2, lookup_insert_ne, Hu1, lookup_insert_ne by done.
    reflexivity.
  - rewrite Hp4. apply lookup_insert_eq.
  - split.
    + rewrite (Hf4 eq_refl). apply lookup_insert_eq.
    + rewrite Hu4, lookup_insert_ne, Hg3, Hu2, lookup_insert_ne, Hu1, lookup_insert_eq by done.
      by eexists.
Qed.

(** X6. Under [classic_accepts] ([type] is one of the six partition types;
    either no swap partition is asked for, or its size is not "remaining" and
    [type] is not swap; the identifiers gpt, part_<type>, part_root and, with
    a swap partition, part_swap are unused; the table gpt is not full), with
    [root_fs] ext4 or btrfs and, when [luks] is "true", part_luks_root
    registered, the recipe succeeds: it appends its whole plan, makes the root partition (or the encrypted volume)
    the root with the mount options of the file system, records the boot
    partition as the EFI partition when [type] is efi and as the BIOS partition
    for every other type, records the swap partition unless [swap] is "false",
    and leaves the table gpt full. *)
Theorem classic_layout_supported (device swap type luks root_fs : string) self :
  classic_accepts swap type self ->
  root_fs = "ext4" \/ root_fs = "btrfs" ->
  (luks = "true" -> is_Some (DISK_ID_TO_UUID self !! "part_luks_root")) ->
  exists self',
    create_classic_single_disk_layout device swap type luks root_fs self = (Ok tt, self') /\
    DISK_ACTIONS self' =
      (DISK_ACTIONS self ++ classic_plan device swap type luks root_fs)%list /\
    DISK_ID_ROOT self' = Some (classic_root_id luks) /\
    DISK_ID_ROOT_TYPE self' = Some root_fs /\
    DISK_ID_ROOT_MOUNT_OPTS self' = Some (root_mount_opts root_fs) /\
    (if String.eqb type "efi"
     then DISK_ID_EFI self' = Some "part_efi" /\ DISK_ID_BIOS self' = DISK_ID_BIOS self
     else DISK_ID_BIOS self' = Some ("part_" +:+ type) /\
          DISK_ID_EFI self' = DISK_ID_EFI self) /\
    DISK_ID_SWAP self' =
      (if String.eqb swap "false" then DISK_ID_SWAP self else Some "part_swap") /\
    DISK_ID_PART_TO_GPT_ID self' !! "part_root" = Some "gpt" /\
    table_full "gpt" self'.
Proof.
  intros Hacc Hfs Hluks. pose proof Hacc as (Hty & _).
  unfold create_classic_single_disk_layout. cbv zeta.
  rewrite (classic_partitions_accepted device swap type _ self Hacc).
  destruct (classic_partitions_fields device swap type self Hty)
    as (Hroles & Hacts & Hlu & Hp2g & Hflag & Hreg).
  set (s4 := classic_partitions device swap type self) in *. clearbody s4.
  assert (Hfs' : (root_fs =? "btrfs") = true \/
                 (root_fs =? "btrfs") = false /\ (root_fs =? "ext4") = true).
  { destruct Hfs as [->| ->]; [right | left]; by auto. }
  assert (Hefi : if type =? "efi" then "part_" +:+ type = "part_efi" else True).
  { destruct (String.eqb_spec type "efi") as [->|]; done. }
  unfold classic_plan, classic_root_id, root_mount_opts, table_full.
  destruct Hroles as (R1 & R2 & R3 & R4 & R5 & R6 & R7 & R8 & R9).
  rewrite <- R4, <- R5, <- R6. clear R1 R2 R3 R4 R5 R6 R7 R8 R9.
  rewrite <- Hlu in Hluks. clear Hlu Hacc Hty.
  destruct s4. simpl in *. rewrite Hacts. clear Hacts.
  unfold bind, ret, when, modify, gets, getitem, append_action, die_trace, raise.
  destruct (String.eqb_spec luks "true") as [->|Hl]; simpl.
  - destruct (Hluks eq_refl) as [u Hu]. rewrite Hu. simpl.
    destruct (swap =? "false"), (type =? "efi"); simpl;
      destruct Hfs' as [Hb|[Hb He]]; rewrite Hb, ?He; simpl;
      (eexists; split; [reflexivity|]); simpl; rewrite <- ?app_assoc, ?Hefi;
      repeat split; by eauto.
  - destruct (swap =? "false"), (type =? "efi"); simpl;
      destruct Hfs' as [Hb|[Hb He]]; rewrite Hb, ?He; simpl;
      (eexists; split; [reflexivity|]); simpl; rewrite <- ?app_assoc, ?Hefi;
      repeat split; by eauto.
Qed.

Lemma classic_layout_supported_witness :
  exists self',
    create_classic_single_disk_layout "/dev/sda" "8GiB" "bios" "false" "btrfs"
      (init "/tmp/gentoo-install-python") = (Ok tt, self') /\
    DISK_ID_BIOS self' = Some "part_bios" /\ DISK_ID_EFI self' = None /\
    DISK_ID_ROOT_MOUNT_OPTS self' = Some "defaults,noatime,compress-force=zstd,subvol=/root".
Proof.
  destruct (classic_layout_supported "/dev/sda" "8GiB" "bios" "false" "btrfs"
              (init "/tmp/gentoo-install-python"))
    as (self' & Hrun & _ & _ & _ & Hopts & [Hbios Hefi] & _).
  - split; [apply tuple_in_elem; reflexivity|].
    split; [right; split; discriminate|].
    repeat split; try reflexivity; discriminate.
  - by right.
  - discriminate.
  - exists self'. by auto.
Defined.

(** X7. Under [classic_accepts], with [luks] "true" and part_luks_root not
    registered, the recipe ends, whatever the root file system, with
    [KeyError] for part_luks_root: the table, the partitions and the
    create_luks action are in the plan and the encryption flags are set, but
    no dracut fragment, no format action and no role is recorded. *)
Theorem classic_layout_luks_unregistered (device swap type root_fs : string) self :
  classic_accepts swap type self ->
  DISK_ID_TO_UUID self !! "part_luks_root" = None ->
  exists self',
    create_classic_single_disk_layout device swap type "true" root_fs self =
      (Raise (KeyError "part_luks_root"), self') /\
    DISK_ACTIONS self' =
      (DISK_ACTIONS self ++
       [gpt_action "gpt" (Some device) None;
        partition_action ("part_" +:+ type) "gpt" "1GiB" type] ++
       (if String.eqb swap "false" then []
        else [partition_action "part_swap" "gpt" swap "swap"]) ++
       [partition_action "part_root" "gpt" "remaining" "linux";
        "action=create_luks new_id=part_luks_root name=root id=part_root;"])%list /\
    USED_LUKS self' = true /\ USED_ENCRYPTION self' = true /\
    DISK_DRACUT_CMDLINE self' = DISK_DRACUT_CMDLINE self /\
    DISK_ID_ROOT self' = DISK_ID_ROOT self /\
    DISK_ID_EFI self' = DISK_ID_EFI self /\ DISK_ID_BIOS self' = DISK_ID_BIOS self.
Proof.
  intros Hacc Hnone. pose proof Hacc as (Hty & _).
  unfold create_classic_single_disk_layout. cbv zeta.
  rewrite (classic_partitions_accepted device swap type _ self Hacc).
  destruct (classic_partitions_fields device swap type self Hty)
    as (Hroles & Hacts & Hlu & _).
  set (s4 := classic_partitions device swap type self) in *. clearbody s4.
  destruct Hroles as (R1 & R2 & R3 & R4 & R5 & R6 & R7 & R8 & R9).
  rewrite <- R3, <- R4, <- R5, <- R7. clear R1 R2 R3 R4 R5 R6 R7 R8 R9.
  rewrite <- Hlu in Hnone. clear Hlu Hacc Hty.
  destruct s4. simpl in *.
  unfold bind, ret, when, modify, gets, getitem, append_action, die_trace, raise. simpl.
  rewrite Hnone. eexists. split; [reflexivity|]. simpl. rewrite Hacts, <- !app_assoc.
  repeat split. simpl. do 3 f_equal. by rewrite <- app_assoc.
Qed.

Lemma classic_layout_luks_unregistered_witness :
  exists self',
    create_classic_single_disk_layout "/dev/nvme0n1" "false" "bios" "true" "btrfs"
      (init "/tmp/gentoo-install-python") = (Raise (KeyError "part_luks_root"), self') /\
    USED_LUKS self' = true /\ DISK_ID_ROOT self' = None.
Proof.
  destruct (classic_layout_luks_unregistered "/dev/nvme0n1" "false" "bios" "btrfs"
              (init "/tmp/gentoo-install-python"))
    as (self' & Hrun & _ & Hl & _ & _ & Hroot & _).
  - split; [apply tuple_in_elem; reflexivity|].
    split; [by left|].
    repeat split; try reflexivity; discriminate.
  - reflexivity.
  - exists self'. by auto.
Defined.

(** The recipe on a configurator where gpt is registered. *)
Lemma classic_layout_gpt_registered (device swap type luks root_fs : string) self :
  is_Some (DISK_ID_TO_UUID self !! "gpt") ->
  create_classic_single_disk_layout device swap type luks root_fs self =
    (Raise (SystemExit 2 "Identifier 'gpt' already exists"), self).
Proof.
  intros Hreg. apply dict_in_lookup in Hreg.
  unfold create_classic_single_disk_layout. cbv zeta. unfold bind at 1.
  rewrite create_gpt_eq. unfold create_gpt_summary, new_id_error.
  change (given None) with (@None string). simpl negb. cbv iota.
  change (contains_char ";" "gpt") with false. cbv iota. rewrite Hreg.
  destruct (given (Some device)); reflexivity.
Qed.

(** A recipe that returned has filled the table gpt. *)
Lemma classic_layout_fills (device swap type luks root_fs : string) self self' :
  create_classic_single_disk_layout device swap type luks root_fs self = (Ok tt, self') ->
  table_full "gpt" self'.
Proof.
  unfold create_classic_single_disk_layout. cbv zeta.
  unfold bind at 1. destruct (create_gpt _ _ _ self) as [[[]|e1] s1]; [|discriminate].
  unfold bind at 1. destruct (create_partition _ _ _ _ s1) as [[[]|e2] s2]; [|discriminate].
  unfold bind at 1.
  destruct (when _ _ s2) as [[[]|e3] s3]; [|discriminate].
  unfold bind at 1.
  destruct (create_partition "part_root" "gpt" "remaining" "linux" s3) as [[[]|e4] s4] eqn:H4;
    [|discriminate].
  apply remaining_partition_fills in H4. revert H4. unfold table_full.
  destruct s4. simpl.
  unfold bind, ret, when, modify, gets, getitem, append_action, die_trace, raise. simpl.
  intros Hfull.
  destruct (luks =? "true"); simpl;
    [destruct (DISK_ID_TO_UUID0 !! "part_luks_root"); simpl; [|discriminate]|];
    destruct (swap =? "false"), (type =? "efi"); simpl;
    destruct (root_fs =? "btrfs"); simpl; try (intros [= <-]; exact Hfull);
    destruct (root_fs =? "ext4"); simpl; try (intros [= <-]; exact Hfull); discriminate.
Qed.

(** X8. The recipe is used once per configurator.  After a call that
    returned, the table gpt is full and registered: every further
    [create_partition] on gpt is rejected, and every further call of the
    recipe, whatever its arguments, is rejected with "Identifier 'gpt' already
    exists" and changes nothing. *)
Theorem classic_layout_only_once (device swap type luks root_fs : string) self self' :
  create_classic_single_disk_layout device swap type luks root_fs self = (Ok tt, self') ->
  (forall device' swap' type' luks' root_fs',
     create_classic_single_disk_layout device' swap' type' luks' root_fs' self' =
       (Raise (SystemExit 2 "Identifier 'gpt' already exists"), self')) /\
  (forall new_id size' type',
     exists e s, create_partition new_id "gpt" size' type' self' = (Raise e, s)).
Proof.
  intros Hrun. apply classic_layout_fills in Hrun. split.
  - intros. apply classic_layout_gpt_registered. by destruct Hrun.
  - intros new_id size' type'.
    destruct (table_full_rejects new_id "gpt" size' type' self' Hrun) as (e & s & H & _).
    by eauto.
Qed.

Lemma classic_layout_only_once_witness :
  let self' := snd (create_classic_single_disk_layout "/dev/sda" "8GiB" "efi" "false" "ext4"
                      (init "/tmp/gentoo-install-python")) in
  create_classic_single_disk_layout "/dev/sdb" "false" "bios" "false" "btrfs" self' =
    (Raise (SystemExit 2 "Identifier 'gpt' already exists"), self').
Proof.
  intros self'.
  assert (Hrun : create_classic_single_disk_layout "/dev/sda" "8GiB" "efi" "false" "ext4"
                   (init "/tmp/gentoo-install-python") = (Ok tt, self'))
    by (vm_compute; reflexivity).
  apply (classic_layout_only_once _ _ _ _ _ _ _ Hrun).
Defined.

End ClassicRecipe.

(** * Further properties of the device utilities *)

Import UtilsRest.

Section ResolverFrame.

Implicit Types (sys : System) (w : World).

Lemma run_blkid_export_frame sys device tag_value w :
  snd (_run_blkid_export sys device tag_value w) = w.
Proof.
  unfold _run_blkid_export, bind, ret, raise, die.
  destruct (subprocess_run sys blkid_gc_cmd); try reflexivity.
  destruct (subprocess_run sys (blkid_export_cmd device tag_value)); try reflexivity.
  by destruct (given tag_value).
Qed.

Lemma get_device_by_blkid_field_frame sys (blkid_field field_value : string) w :
  snd (get_device_by_blkid_field sys blkid_field field_value w) = w.
Proof.
  unfold get_device_by_blkid_field, bind.
  pose proof (run_blkid_export_frame sys None (Some (blkid_field +:+ "=" +:+ field_value)) w) as H.
  destruct (_run_blkid_export sys None _ w) as [[out|e] w1]; simpl in H; subst w1;
    [|reflexivity].
  by destruct (re_search_bol match_devname true out).
Qed.

Lemma get_device_by_partuuid_frame sys (partuuid : string) w :
  snd (get_device_by_partuuid sys partuuid w) = w.
Proof.
  unfold get_device_by_partuuid, bind. rewrite os_path_exists_eq.
  destruct (_ || _); [reflexivity | apply get_device_by_blkid_field_frame].
Qed.

Lemma get_device_by_uuid_frame sys (uuid : string) w :
  snd (get_device_by_uuid sys uuid w) = w.
Proof.
  unfold get_device_by_uuid, bind. rewrite os_path_exists_eq.
  destruct (_ || _); [reflexivity | apply get_device_by_blkid_field_frame].
Qed.

Lemma get_device_by_mdadm_uuid_frame sys (uuid : string) w :
  snd (get_device_by_mdadm_uuid sys uuid w) = w.
Proof.
  unfold get_device_by_mdadm_uuid, die, raise, ret.
  destruct (subprocess_run sys mdadm_cmd); try reflexivity.
  by destruct (re_search _ _).
Qed.

Lemma canonicalize_device_frame sys (given_dev : string) w :
  snd (canonicalize_device sys given_dev w) = w.
Proof. unfold canonicalize_device. by destruct (listdir sys "/dev/disk/by-id"). Qed.

(** The lookup by table UUID leaves the world as it is, or fills the empty
    cache with what lsblk printed. *)
Lemma get_device_by_ptuuid_frame sys (ptuuid : string) w :
  let w' := snd (get_device_by_ptuuid sys ptuuid w) in
  w' = w \/
  (CACHED_LSBLK_OUTPUT w = None /\
   exists out, subprocess_run sys lsblk_cmd = Completed out /\
               w' = set_CACHED_LSBLK_OUTPUT (Some out) w).
Proof.
  unfold get_device_by_ptuuid, cache_lsblk_output, bind, gets, when, modify, die, raise, ret.
  destruct w as [rsv [c|] fs ds]; simpl.
  - left. destruct (truthy c); [|reflexivity]. by destruct (re_search _ _).
  - destruct (subprocess_run sys lsblk_cmd) as [out| |] eqn:Hrun; simpl; try by left.
    right. split; [reflexivity|]. exists out. split; [reflexivity|].
    destruct (truthy out); [|reflexivity]. by destruct (re_search _ _).
Qed.

(** The resolver, by the entry of the table. *)
Lemma resolve_device_by_id_eq sys (id_val : string) w :
  resolve_device_by_id sys id_val w =
    match DISK_ID_TO_RESOLVABLE w !! id_val with
    | None =>
        (Raise (SystemExit 1 ("Cannot resolve id='" +:+ id_val +:+
                              "' to a block device (no table entry)")), w)
    | Some entry =>
        if contains_char ":" entry then
          let (type_val, arg) := split_once ":" entry in
          (dev <-
             (if String.eqb type_val "partuuid" then get_device_by_partuuid sys arg
              else if String.eqb type_val "ptuuid" then get_device_by_ptuuid sys arg
              else if String.eqb type_val "uuid" then get_device_by_uuid sys arg
              else if String.eqb type_val "mdadm" then get_device_by_mdadm_uuid sys arg
              else if String.eqb type_val "luks" then ret (get_device_by_luks_name arg)
              else if String.eqb type_val "device" then ret arg
              else die ("Cannot resolve '" +:+ entry +:+ "' to device (unknown type)")) ;;
           canonicalize_device sys dev) w
        else (Raise (SystemExit 1 ("Invalid resolve entry format: '" +:+ entry +:+ "'")), w)
    end.
Proof.
  unfold resolve_device_by_id, bind, gets, when, getitem, dict_in, die, raise, ret.
  destruct (DISK_ID_TO_RESOLVABLE w !! id_val) as [entry|]; [|reflexivity].
  destruct (contains_char ":" entry); [|reflexivity].
  cbv beta iota. simpl negb. cbv beta iota. by destruct (split_once ":" entry).
Qed.

(** The same for the resolver. *)
Lemma resolve_device_by_id_world sys (id_val : string) w :
  let w' := snd (resolve_device_by_id sys id_val w) in
  w' = w \/
  (CACHED_LSBLK_OUTPUT w = None /\
   exists out, subprocess_run sys lsblk_cmd = Completed out /\
               w' = set_CACHED_LSBLK_OUTPUT (Some out) w).
Proof.
  cbv zeta.
  assert (Hstep : forall (m : M string),
            snd (m w) = w ->
            snd ((dev <- m ;; canonicalize_device sys dev) w) = w).
  { intros m Hm. unfold bind. destruct (m w) as [[d|e] w1]; simpl in Hm; subst w1;
      [apply canonicalize_device_frame | reflexivity]. }
  rewrite resolve_device_by_id_eq.
  destruct (DISK_ID_TO_RESOLVABLE w !! id_val) as [entry|]; [|by left].
  destruct (contains_char ":" entry); [|by left].
  destruct (split_once ":" entry) as [type_val arg].
  destruct (type_val =? "partuuid"); [left; apply Hstep, get_device_by_partuuid_frame|].
  destruct (type_val =? "ptuuid").
  { unfold bind.
    pose proof (get_device_by_ptuuid_frame sys arg w) as Hpt. cbv zeta in Hpt.
    destruct (get_device_by_ptuuid sys arg w) as [[d|e] w1]; simpl in Hpt.
    - rewrite canonicalize_device_frame. exact Hpt.
    - exact Hpt. }
  destruct (type_val =? "uuid"); [left; apply Hstep, get_device_by_uuid_frame|].
  destruct (type_val =? "mdadm"); [left; apply Hstep, get_device_by_mdadm_uuid_frame|].
  destruct (type_val =? "luks"); [left; by apply Hstep|].
  destruct (type_val =? "device"); [left; by apply Hstep|].
  by left.
Qed.

(** X9. Whatever the table holds and whatever the machine answers,
    [resolve_device_by_id] never changes the resolve table or a file; of the
    module globals only the lsblk cache can change, and only from empty to
    the output that lsblk printed during the call. *)
Theorem resolve_device_by_id_frame sys (id_val : string) w :
  let w' := snd (resolve_device_by_id sys id_val w) in
  DISK_ID_TO_RESOLVABLE w' = DISK_ID_TO_RESOLVABLE w /\
  files w' = files w /\
  (CACHED_LSBLK_OUTPUT w' = CACHED_LSBLK_OUTPUT w \/
   (CACHED_LSBLK_OUTPUT w = None /\
    exists out, subprocess_run sys lsblk_cmd = Completed out /\
                CACHED_LSBLK_OUTPUT w' = Some out)).
Proof.
  intros w'. destruct (resolve_device_by_id_world sys id_val w)
    as [Hw|(Hnone & out & Hrun & Hw)]; fold w' in Hw; rewrite Hw.
  - by auto.
  - destruct w; simpl in *. by eauto 8.
Qed.

End ResolverFrame.

Section BadEntries.

Implicit Types (sys : System) (w : World).

(** X10. A table that cannot be read ends the resolver in [die] before any
    probe runs and with the world untouched: an identifier without an entry,
    an entry without a colon, and an entry whose kind (the text before the
    first colon, compared as it is written) is none of partuuid, ptuuid,
    uuid, mdadm, luks, device each have their own message. *)
Theorem resolve_device_by_id_bad_entry sys (id_val : string) w :
  (DISK_ID_TO_RESOLVABLE w !! id_val = None ->
   resolve_device_by_id sys id_val w =
     (Raise (SystemExit 1 ("Cannot resolve id='" +:+ id_val +:+
                           "' to a block device (no table entry)")), w)) /\
  (forall entry : string,
     DISK_ID_TO_RESOLVABLE w !! id_val = Some entry ->
     contains_char ":" entry = false ->
     resolve_device_by_id sys id_val w =
       (Raise (SystemExit 1 ("Invalid resolve entry format: '" +:+ entry +:+ "'")), w)) /\
  (forall kind arg : string,
     DISK_ID_TO_RESOLVABLE w !! id_val = Some (kind +:+ ":" +:+ arg) ->
     contains_char ":" kind = false ->
     tuple_in kind ["partuuid"; "ptuuid"; "uuid"; "mdadm"; "luks"; "device"] = false ->
     resolve_device_by_id sys id_val w =
       (Raise (SystemExit 1 ("Cannot resolve '" +:+ (kind +:+ ":" +:+ arg) +:+
                             "' to device (unknown type)")), w)).
Proof.
  repeat split.
  - intros Hid. by rewrite resolve_device_by_id_eq, Hid.
  - intros entry Hid Hc. by rewrite resolve_device_by_id_eq, Hid, Hc.
  - intros kind arg Hid Hc Hk. rewrite resolve_device_by_id_eq, Hid.
    destruct (split_once_join ":" kind arg Hc) as [Hin Hsplit].
    change (kind +:+ ":" +:+ arg) with (kind +:+ String ":" arg).
    rewrite Hin, Hsplit.
    unfold tuple_in in Hk. simpl in Hk.
    repeat (apply orb_false_iff in Hk as [? Hk]).
    repeat match goal with H : (kind =? _) = false |- _ => rewrite H; clear H end.
    reflexivity.
Qed.

Lemma resolve_device_by_id_bad_entry_witness :
  resolve_device_by_id bare_system "root"
    (mkWorld (<["root" := "UUID:1234"]> ∅) None ∅ []) =
    (Raise (SystemExit 1 "Cannot resolve 'UUID:1234' to device (unknown type)"),
     mkWorld (<["root" := "UUID:1234"]> ∅) None ∅ []).
Proof.
  destruct (resolve_device_by_id_bad_entry bare_system "root"
              (mkWorld (<["root" := "UUID:1234"]> ∅) None ∅ [])) as (_ & _ & H).
  exact (H "UUID" "1234" (lookup_insert_eq _ _ _) eq_refl eq_refl).
Defined.

End BadEntries.

Section Canonical.

Implicit Types (sys : System) (w : World).

Lemma canonicalize_loop_idem sys (real given_dev : string) (entries : list string) :
  canonicalize_loop sys real (canonicalize_loop sys real given_dev entries) entries =
    canonicalize_loop sys real given_dev entries.
Proof.
  induction entries as [|e entries IH]; [reflexivity|]. cbn [canonicalize_loop].
  destruct (realpath sys (os_path_join "/dev/disk/by-id" e) =? real) eqn:He.
  - reflexivity.
  - exact IH.
Qed.

Lemma canonicalize_loop_realpath sys (given_dev : string) (entries : list string) :
  realpath sys (canonicalize_loop sys (realpath sys given_dev) given_dev entries) =
    realpath sys given_dev.
Proof.
  destruct (canonicalize_loop_spec sys (realpath sys given_dev) given_dev entries)
    as [[-> _]|(e & _ & _ & H)]; [reflexivity | exact H].
Qed.

(** X11. A path that [canonicalize_device] returns names the same device as
    the path it was given (their real paths are equal), and it is canonical:
    canonicalising it again returns it unchanged.  The call changes nothing in
    the world. *)
Theorem canonicalize_device_idempotent sys (given_dev p : string) w w' :
  canonicalize_device sys given_dev w = (Ok p, w') ->
  w' = w /\
  realpath sys p = realpath sys given_dev /\
  canonicalize_device sys p w = (Ok p, w).
Proof.
  unfold canonicalize_device, ret, raise.
  destruct (listdir sys "/dev/disk/by-id") as [entries|]; [|discriminate].
  intros [= <- <-]. split; [reflexivity|].
  split; [apply canonicalize_loop_realpath|].
  by rewrite canonicalize_loop_realpath, canonicalize_loop_idem.
Qed.

Lemma canonicalize_device_idempotent_witness :
  realpath (one_disk_system "") "/dev/disk/by-id/ata-DISK0" = "/dev/sda" /\
  canonicalize_device (one_disk_system "") "/dev/disk/by-id/ata-DISK0" sample_world =
    (Ok "/dev/disk/by-id/ata-DISK0", sample_world).
Proof.
  assert (H : canonicalize_device (one_disk_system "") "/dev/sda" sample_world =
                (Ok "/dev/disk/by-id/ata-DISK0", sample_world)) by reflexivity.
  destruct (canonicalize_device_idempotent _ _ _ _ _ H) as (_ & H1 & H2).
  split; [exact H1 | exact H2].
Defined.

(** X12. When the entries of /dev/disk/by-id are file names (none begins
    with a slash), a canonical path that differs from the given one is
    /dev/disk/by-id/ followed by an entry of the directory, and
    [shorten_device] gives back that entry: joining it to the directory again
    gives the canonical path. *)
Theorem shorten_canonical_device sys (given_dev p : string) w w' (entries : list string) :
  listdir sys "/dev/disk/by-id" = Some entries ->
  Forall (fun e => startswith "/" e = false) entries ->
  canonicalize_device sys given_dev w = (Ok p, w') ->
  p <> given_dev ->
  shorten_device p ∈ entries /\
  p = "/dev/disk/by-id/" +:+ shorten_device p /\
  os_path_join "/dev/disk/by-id" (shorten_device p) = p.
Proof.
  intros Hls Hnames. unfold canonicalize_device, ret. rewrite Hls. intros [= <- <-] Hne.
  destruct (canonicalize_loop_spec sys (realpath sys given_dev) given_dev entries)
    as [[Hr _]|(e & He & Hr & _)]; [done|].
  rewrite Hr. rewrite Forall_forall in Hnames. specialize (Hnames e He).
  assert (Hjoin : os_path_join "/dev/disk/by-id" e = "/dev/disk/by-id/" +:+ e).
  { unfold os_path_join. rewrite Hnames. reflexivity. }
  assert (Hshort : shorten_device ("/dev/disk/by-id/" +:+ e) = e).
  { unfold shorten_device. by rewrite strip_prefix_app. }
  rewrite Hjoin, Hshort. by rewrite Hjoin.
Qed.

Lemma shorten_canonical_device_witness :
  shorten_device "/dev/disk/by-id/ata-DISK0" ∈ ["wwn-0x5000"; "ata-DISK0"].
Proof.
  refine (proj1 (shorten_canonical_device (one_disk_system "") "/dev/sda"
                   "/dev/disk/by-id/ata-DISK0" sample_world sample_world
                   ["wwn-0x5000"; "ata-DISK0"] eq_refl _ eq_refl _)).
  - repeat constructor.
  - discriminate.
Defined.

End Canonical.

Section LsblkCache.

Implicit Types (sys : System) (w : World).

Lemma get_device_by_ptuuid_cached sys (ptuuid out : string) w :
  CACHED_LSBLK_OUTPUT w = Some out ->
  get_device_by_ptuuid sys ptuuid w =
    (match given (Some out) with
     | None => Raise (SystemExit 1 "lsblk output cache is empty.")
     | Some output =>
         match re_search (match_lsblk_row (lower ptuuid)) (lower output) with
         | None => Raise (SystemExit 1 ("Could not find PTUUID='" +:+ lower ptuuid +:+
                                        "' in lsblk output"))
         | Some name => Ok name
         end
     end, w).
Proof.
  intros Hc. unfold get_device_by_ptuuid, bind, gets, when, die, raise, ret.
  destruct w as [rsv c fs ds]. simpl in Hc. subst c. simpl.
  destruct (truthy out); [|reflexivity]. by destruct (re_search _ _).
Qed.

(** X13. lsblk runs at most once per process.  After a lookup by table UUID
    that found the cache filled or could run lsblk, the cache is filled, and
    from then on every lookup answers from the cache alone: it leaves the
    world as it is and its result does not depend on the machine, so the same
    question gets the same answer even if the disks have changed; in
    particular an empty lsblk output stays cached and every later lookup dies
    with "lsblk output cache is empty.". *)
Theorem lsblk_output_cached_once sys (ptuuid : string) w :
  (is_Some (CACHED_LSBLK_OUTPUT w) \/ exists out, subprocess_run sys lsblk_cmd = Completed out) ->
  let r := get_device_by_ptuuid sys ptuuid w in
  is_Some (CACHED_LSBLK_OUTPUT (snd r)) /\
  (forall sys', get_device_by_ptuuid sys' ptuuid (snd r) = r) /\
  (forall sys' (q : string),
     get_device_by_ptuuid sys' q (snd r) = (fst (get_device_by_ptuuid sys q (snd r)), snd r)) /\
  (CACHED_LSBLK_OUTPUT (snd r) = Some "" ->
   forall sys' (q : string),
     get_device_by_ptuuid sys' q (snd r) =
       (Raise (SystemExit 1 "lsblk output cache is empty."), snd r)).
Proof.
  intros Hpre r.
  assert (Hcached : exists out,
             CACHED_LSBLK_OUTPUT (snd r) = Some out /\
             r = (fst (get_device_by_ptuuid sys ptuuid (snd r)), snd r)).
  { subst r. destruct w as [rsv [c|] fs ds].
    - exists c. rewrite (get_device_by_ptuuid_cached sys ptuuid c (mkWorld rsv (Some c) fs ds) eq_refl).
      split; [reflexivity|]. cbn [fst snd].
      by rewrite (get_device_by_ptuuid_cached sys ptuuid c (mkWorld rsv (Some c) fs ds) eq_refl).
    - destruct Hpre as [[c Hc']|[out Hrun]]; [discriminate|].
      exists out.
      assert (Hfirst : get_device_by_ptuuid sys ptuuid (mkWorld rsv None fs ds) =
                (fst (get_device_by_ptuuid sys ptuuid (mkWorld rsv (Some out) fs ds)),
                 mkWorld rsv (Some out) fs ds)).
      { rewrite (get_device_by_ptuuid_cached sys ptuuid out (mkWorld rsv (Some out) fs ds) eq_refl).
        unfold get_device_by_ptuuid, cache_lsblk_output, bind, gets, when, modify, die,
          raise, ret.
        simpl. rewrite Hrun. simpl.
        destruct (truthy out); [|reflexivity]. by destruct (re_search _ _). }
      rewrite Hfirst. by split. }
  destruct Hcached as (out & Hout & Hr).
  split; [by rewrite Hout|]. split; [|split].
  - intros sys'. rewrite Hr at 2.
    by rewrite !(get_device_by_ptuuid_cached _ ptuuid out (snd r) Hout).
  - intros sys' q. by rewrite !(get_device_by_ptuuid_cached _ q out (snd r) Hout).
  - intros Hempty sys' q. by rewrite (get_device_by_ptuuid_cached _ q "" (snd r) Hempty).
Qed.

Lemma lsblk_output_cached_once_witness :
  let r := get_device_by_ptuuid (one_disk_system "") "0af3" sample_world in
  fst r = Ok "/dev/sda" /\ get_device_by_ptuuid bare_system "0af3" (snd r) = r.
Proof.
  intros r. split; [reflexivity|].
  refine (proj1 (proj2 (lsblk_output_cached_once (one_disk_system "") "0af3" sample_world _))
            bare_system).
  right. eexists. reflexivity.
Defined.

End LsblkCache.

Section MdUuid.

Implicit Types (sys : System) (w : World).

Lemma lower_char_idem (c : ascii) : lower_char (lower_char c) = lower_char c.
Proof. destruct c as [[] [] [] [] [] [] [] []]; reflexivity. Qed.

Lemma lower_char_dash (c : ascii) : Ascii.eqb "-" (lower_char c) = Ascii.eqb "-" c.
Proof. destruct c as [[] [] [] [] [] [] [] []]; reflexivity. Qed.

Lemma lower_idem (s : string) : lower (lower s) = lower s.
Proof. induction s as [|c s IH]; [reflexivity|]. cbn [lower]. by rewrite lower_char_idem, IH. Qed.

Lemma lower_length (s : string) : String.length (lower s) = String.length s.
Proof. induction s as [|c s IH]; simpl; [reflexivity|]. by rewrite IH. Qed.

Lemma remove_dash_lower (s : string) : remove_char "-" (lower s) = lower (remove_char "-" s).
Proof.
  induction s as [|c s IH]; [reflexivity|]. cbn [lower remove_char]. rewrite lower_char_dash.
  destruct (Ascii.eqb "-" c); cbn [lower]; by rewrite IH.
Qed.

Lemma remove_char_idem (c : ascii) (s : string) :
  remove_char c (remove_char c s) = remove_char c s.
Proof.
  induction s as [|d s IH]; simpl; [reflexivity|].
  destruct (Ascii.eqb c d) eqn:Hcd; [exact IH|]. simpl. by rewrite Hcd, IH.
Qed.

Lemma four_groups (h : string) :
  String.length h = 32%nat ->
  h = substring 0 8 h +:+ substring 8 8 h +:+ substring 16 8 h +:+ substring 24 8 h /\
  String.length (substring 0 8 h) = 8%nat /\ String.length (substring 8 8 h) = 8%nat /\
  String.length (substring 16 8 h) = 8%nat /\ String.length (substring 24 8 h) = 8%nat.
Proof.
  intros Hlen.
  do 32 (destruct h as [|? h]; [discriminate Hlen|]).
  destruct h; [|discriminate Hlen]. repeat split.
Qed.

(** X14. The mdadm form of a UUID does not depend on the case of its letters
    or on its dashes, so the lookup of an array is insensitive to both; and
    when the UUID has 32 characters besides dashes, the form is these
    characters, lower-cased, in four groups of eight separated by colons. *)
Theorem uuid_to_mduuid_normal_form (uuid : string) :
  uuid_to_mduuid (lower uuid) = uuid_to_mduuid uuid /\
  uuid_to_mduuid (remove_char "-" uuid) = uuid_to_mduuid uuid /\
  (forall sys w,
     get_device_by_mdadm_uuid sys (remove_char "-" (lower uuid)) w =
       get_device_by_mdadm_uuid sys uuid w) /\
  (String.length (remove_char "-" uuid) = 32%nat ->
   exists a b c d : string,
     remove_char "-" (lower uuid) = a +:+ b +:+ c +:+ d /\
     String.length a = 8%nat /\ String.length b = 8%nat /\
     String.length c = 8%nat /\ String.length d = 8%nat /\
     uuid_to_mduuid uuid = a +:+ ":" +:+ b +:+ ":" +:+ c +:+ ":" +:+ d).
Proof.
  assert (H1 : uuid_to_mduuid (lower uuid) = uuid_to_mduuid uuid).
  { unfold uuid_to_mduuid. by rewrite lower_idem. }
  assert (H2 : uuid_to_mduuid (remove_char "-" uuid) = uuid_to_mduuid uuid).
  { unfold uuid_to_mduuid. by rewrite <- remove_dash_lower, remove_char_idem. }
  split; [exact H1|]. split; [exact H2|]. split.
  - intros sys w. unfold get_device_by_mdadm_uuid.
    replace (uuid_to_mduuid (remove_char "-" (lower uuid))) with (uuid_to_mduuid uuid);
      [reflexivity|].
    unfold uuid_to_mduuid.
    by rewrite (remove_dash_lower (remove_char "-" (lower uuid))), remove_char_idem,
      <- remove_dash_lower, lower_idem.
  - intros Hlen. unfold uuid_to_mduuid.
    set (h := remove_char "-" (lower uuid)).
    assert (Hh : String.length h = 32%nat).
    { subst h. by rewrite remove_dash_lower, lower_length. }
    destruct (four_groups h Hh) as (Heq & Ha & Hb & Hc & Hd).
    exists (substring 0 8 h), (substring 8 8 h), (substring 16 8 h), (substring 24 8 h).
    by repeat split.
Qed.

Lemma uuid_to_mduuid_normal_form_witness :
  exists a b c d : string,
    remove_char "-" (lower "0AF3C2D1-1111-2222-3333-444455556666") = a +:+ b +:+ c +:+ d /\
    String.length a = 8%nat /\ String.length b = 8%nat /\
    String.length c = 8%nat /\ String.length d = 8%nat /\
    uuid_to_mduuid "0AF3C2D1-1111-2222-3333-444455556666" =
      a +:+ ":" +:+ b +:+ ":" +:+ c +:+ ":" +:+ d.
Proof.
  exact (proj2 (proj2 (proj2
    (uuid_to_mduuid_normal_form "0AF3C2D1-1111-2222-3333-444455556666"))) eq_refl).
Defined.

End MdUuid.

Section UuidStoreSafety.

Implicit Types (sys : System) (w : World).





End UuidStoreSafety.

Section BlkidField.

Implicit Types (sys : System) (w : World).

Lemma match_blkid_field_sound (blkid_field s g : string) :
  match_blkid_field blkid_field s = Some g ->
  exists q rest, s = (blkid_field +:+ "=") +:+ q +:+ g +:+ rest /\
    (q = "" \/ q = dquote \/ q = "'") /\ g <> "" /\ all_chars devname_char g = true.
Proof.
  unfold match_blkid_field.
  destruct (strip_prefix (blkid_field +:+ "=") s) as [r|] eqn:Hp; [|discriminate].
  apply strip_prefix_Some in Hp. subst s.
  destruct (span devname_char (skip_optional_quote r)) as [g' rest] eqn:Hs.
  destruct (truthy g') eqn:Hg; [|discriminate]. intros [= ->].
  apply span_app in Hs as [Hr Hall]. apply truthy_ne in Hg.
  unfold skip_optional_quote in Hr. destruct r as [|c r].
  - destruct g; [done | discriminate Hr].
  - destruct (Ascii.eqb c dquote_char || Ascii.eqb c "'") eqn:Hq.
    + apply orb_true_iff in Hq as [Hq|Hq]; apply Ascii.eqb_eq in Hq; subst c r.
      * exists dquote, rest. by auto.
      * exists "'", rest. by auto.
    + exists "", rest. split; [by rewrite Hr | by auto].
Qed.

Lemma all_chars_lstrip (f : ascii -> bool) (s : string) :
  all_chars f s = true -> all_chars f (lstrip s) = true.
Proof.
  induction s as [|c s IH]; [done|]. intros H. cbn [lstrip].
  destruct (isspace c); [|exact H].
  simpl in H. apply andb_true_iff in H as [_ H]. by apply IH.
Qed.

Lemma all_chars_rstrip (f : ascii -> bool) (s : string) :
  all_chars f s = true -> all_chars f (rstrip s) = true.
Proof.
  induction s as [|c s IH]; [done|]. intros H.
  simpl in H. apply andb_true_iff in H as [Hc H]. specialize (IH H).
  cbn [rstrip]. destruct (rstrip s) as [|d r].
  - destruct (isspace c); [reflexivity|]. simpl. by rewrite Hc.
  - change (f c && all_chars f (String d r) = true). by rewrite Hc, IH.
Qed.

(** X16. A value that [get_blkid_field_by_device] returns was read from the
    export that blkid printed for the device: the export has, at the start of
    a line, the field, an equals sign, an optional quote and a non-empty run
    of characters other than quotes and newline, and the value is that run
    without its surrounding white space; it holds no quote and no newline.
    The call needs partprobe to be installed, and changes nothing. *)
Theorem get_blkid_field_by_device_sound sys (blkid_field device v : string) w w' :
  get_blkid_field_by_device sys blkid_field device w = (Ok v, w') ->
  w' = w /\
  subprocess_run sys partprobe_cmd <> NoSuchProgram /\
  all_chars devname_char v = true /\ strip v = v /\
  exists out pre q g post,
    subprocess_run sys (blkid_export_cmd (Some device) None) = Completed out /\
    out = pre +:+ (blkid_field +:+ "=") +:+ q +:+ g +:+ post /\
    line_start pre /\ (q = "" \/ q = dquote \/ q = "'") /\
    g <> "" /\ all_chars devname_char g = true /\ v = strip g.
Proof.
  unfold get_blkid_field_by_device, _run_blkid_export, bind, ret, raise, die.
  destruct (subprocess_run sys partprobe_cmd) as [pout|perr|] eqn:Hprobe; try discriminate;
    (destruct (subprocess_run sys blkid_gc_cmd) as [gout|gerr|]; try discriminate;
     destruct (subprocess_run sys (blkid_export_cmd (Some device) None)) as [out| |] eqn:Hrun;
       try discriminate;
     destruct (re_search_bol (match_blkid_field blkid_field) true out) as [g|] eqn:Hs;
       try discriminate;
     intros [= <- <-];
     apply re_search_bol_Some in Hs as (pre & post & -> & Hm & Hpre);
     apply match_blkid_field_sound in Hm as (q & rest & -> & Hq & Hg & Hall);
     (split; [reflexivity|]); (split; [discriminate|]);
     (split; [by apply all_chars_rstrip, all_chars_lstrip|]);
     (split; [apply strip_idem|]);
     exists (pre +:+ (blkid_field +:+ "=") +:+ q +:+ g +:+ rest), pre, q, g, rest;
     repeat split; try assumption;
     destruct Hpre as [[-> _]|Hpre]; [by left | by right]).
Qed.

Lemma get_blkid_field_by_device_sound_witness :
  subprocess_run
    (mkSystem (fun cmd => if decide (cmd = blkid_export_cmd (Some "/dev/sda1") None)
                          then Completed "DEVNAME=/dev/sda1
UUID='1234-ABCD'
TYPE=vfat
" else Completed "")
              (fun _ _ => false) (fun path => path) (fun _ => None)
              (fun _ => "") (fun _ => IoOk) (fun _ => IoOk) (fun _ => IoOk))
    partprobe_cmd <> NoSuchProgram.
Proof.
  refine (proj1 (proj2 (get_blkid_field_by_device_sound _ "UUID" "/dev/sda1" "1234-ABCD"
                          sample_world sample_world _))).
  vm_compute. reflexivity.
Defined.

End BlkidField.

Section AskPrompt.

(** X17. [ask] answers with the first line of the input that, without its
    surrounding white space and in lower case, is one of the recognised
    responses: yes for the empty line, y and yes, no for n and no.  Every line
    before it is read and dropped, the prompt is written once per line read,
    and the lines after it are left on the input.  When the input ends before
    a recognised line, the call dies after writing the prompt once more. *)
Theorem ask_first_recognised (prompt : string) (junk : list string) (out : list string) :
  Forall (fun l => tuple_in (lower (strip l)) (Prompt.yes_responses ++ Prompt.no_responses)
                   = false) junk ->
  (forall (line : string) (rest : list string),
     tuple_in (lower (strip line)) (Prompt.yes_responses ++ Prompt.no_responses) = true ->
     Prompt.ask prompt (Prompt.mkTerminal (junk ++ line :: rest) out) =
       (Ok (tuple_in (lower (strip line)) Prompt.yes_responses),
        Prompt.mkTerminal rest
          (out ++ replicate (S (length junk)) (prompt +:+ " (Y/n) ")))) /\
  Prompt.ask prompt (Prompt.mkTerminal junk out) =
    (Raise (SystemExit 1 "Error in reading input (EOF)"),
     Prompt.mkTerminal [] (out ++ replicate (S (length junk)) (prompt +:+ " (Y/n) "))).
Proof.
  unfold Prompt.ask. cbn [Prompt.stdin].
  assert (Hsplit : forall x : string,
            tuple_in x (Prompt.yes_responses ++ Prompt.no_responses) =
              tuple_in x Prompt.yes_responses || tuple_in x Prompt.no_responses).
  { intros x. unfold tuple_in. apply existsb_app. }
  revert out. induction junk as [|j junk IH]; intros out Hjunk.
  - split.
    + intros line rest Hline. rewrite Hsplit in Hline.
      cbn [app Prompt.ask_loop Prompt.stdin Prompt.stdout length replicate].
      destruct (tuple_in (lower (strip line)) Prompt.yes_responses); [reflexivity|].
      cbn [orb] in Hline. by rewrite Hline.
    + reflexivity.
  - apply Forall_cons in Hjunk as [Hj Hjunk]. rewrite Hsplit in Hj.
    apply orb_false_iff in Hj as [Hy Hn].
    destruct (IH (out ++ [prompt +:+ " (Y/n) "])%list Hjunk) as [IH1 IH2].
    assert (Hout : forall n,
              ((out ++ [prompt +:+ " (Y/n) "]) ++ replicate n (prompt +:+ " (Y/n) ") =
               out ++ replicate (S n) (prompt +:+ " (Y/n) "))%list).
    { intros n. by rewrite <- app_assoc. }
    split.
    + intros line rest Hline.
      cbn [app Prompt.ask_loop Prompt.stdin Prompt.stdout length].
      rewrite Hy, Hn. rewrite (IH1 line rest Hline). by rewrite Hout.
    + cbn [Prompt.ask_loop Prompt.stdin Prompt.stdout length].
      rewrite Hy, Hn. rewrite IH2. by rewrite Hout.
Qed.

Lemma ask_first_recognised_witness :
  Prompt.ask "Continue?" (Prompt.mkTerminal ["maybe"; "  No "; "y"] []) =
    (Ok false, Prompt.mkTerminal ["y"] ["Continue? (Y/n) "; "Continue? (Y/n) "]).
Proof.
  refine (proj1 (ask_first_recognised "Continue?" ["maybe"] [] _) "  No " ["y"] _).
  - repeat constructor.
  - reflexivity.
Defined.

End AskPrompt.

(** * Further properties of the builder *)

Section Growth.

Implicit Types (self : DiskConfigurator).

Lemma membership_ok_init (base_dir : string) : membership_ok (init base_dir).
Proof. split; intros ? ? H; discriminate H. Qed.

(** One builder call, accepted or rejected, on a configurator that satisfies
    [membership_ok]: the three registries and the plan only gain entries. *)
Lemma exec_grows (c : call) self r self' :
  exec c self = (r, self') -> membership_ok self ->
  DISK_ID_TO_UUID self ⊆ DISK_ID_TO_UUID self' /\
  DISK_ID_PART_TO_GPT_ID self ⊆ DISK_ID_PART_TO_GPT_ID self' /\
  DISK_GPT_HAD_SIZE_REMAINING self ⊆ DISK_GPT_HAD_SIZE_REMAINING self' /\
  DISK_ACTIONS self `prefix_of` DISK_ACTIONS self'.
Proof.
  intros Hex [Hp Hf]. split; [exact (exec_registry_grows _ _ _ _ Hex)|].
  destruct r as [[]|e].
  - destruct c as [new_id device|new_id device id_val|new_id id_val size type];
      simpl in Hex.
    + rewrite register_existing_eq in Hex. unfold register_existing_summary in Hex.
      destruct (new_id_error new_id self); [discriminate|]. injection Hex as <-.
      destruct self; simpl. repeat split; try done. by apply prefix_app_r.
    + rewrite create_gpt_eq in Hex. unfold create_gpt_summary in Hex.
      destruct (given device), (given id_val); try discriminate;
        (destruct (new_id_error new_id self); [discriminate|]);
        try destruct (dict_in _ _); try discriminate;
        injection Hex as <-; destruct self; simpl; repeat split; try done;
        by apply prefix_app_r.
    + rewrite create_partition_eq in Hex. unfold create_partition_summary in Hex.
      destruct (new_id_error new_id self) eqn:He; [discriminate|].
      destruct (negb (dict_in _ _)); [discriminate|].
      destruct (negb (tuple_in _ _)); [discriminate|].
      destruct (default false _) eqn:Hflag; [discriminate|].
      injection Hex as <-.
      apply new_id_error_None in He as (_ & _ & Hnew).
      assert (Hfresh : DISK_ID_PART_TO_GPT_ID self !! new_id = None).
      { destruct (DISK_ID_PART_TO_GPT_ID self !! new_id) as [t|] eqn:Hpt; [|reflexivity].
        destruct (Hp _ _ Hpt) as [[u Hu] _]. congruence. }
      assert (Hclear : DISK_GPT_HAD_SIZE_REMAINING self !! id_val = None).
      { destruct (DISK_GPT_HAD_SIZE_REMAINING self !! id_val) as [b|] eqn:Hb; [|reflexivity].
        destruct (Hf _ _ Hb) as [-> _]. discriminate Hflag. }
      destruct (partition_post_fields new_id id_val size type self) as (_ & Hacts & Hp2g & Hrem).
      rewrite Hacts, Hp2g. split; [by apply insert_subseteq|].
      split; [|by apply prefix_app_r].
      destruct (String.eqb_spec size "remaining") as [Hsz|Hsz].
      * rewrite (Hrem Hsz). by apply insert_subseteq.
      * apply String.eqb_neq in Hsz.
        destruct (post_fields new_id id_val size type None None self)
          as (_ & _ & _ & _ & Hkeep).
        by rewrite (Hkeep Hsz).
  - apply exec_rejected in Hex as [[-> _]|[-> _]]; [done|].
    destruct (minted_other_fields (new_id_of c) self) as (-> & _ & -> & -> & _). done.
Qed.

(** X18. The builder never rewrites its history.  Between any two points of
    a sequence of builder calls on a new configurator, whatever was accepted
    or rejected in between, every identifier keeps its UUID, every partition
    keeps its table, every full table stays full, and the plan keeps its
    actions in their place: the later plan extends the earlier one. *)
Theorem run_extends (cs1 cs2 : list call) (base_dir : string) :
  let self1 := snd (run cs1 (init base_dir)) in
  let self2 := snd (run cs2 self1) in
  DISK_ID_TO_UUID self1 ⊆ DISK_ID_TO_UUID self2 /\
  DISK_ID_PART_TO_GPT_ID self1 ⊆ DISK_ID_PART_TO_GPT_ID self2 /\
  DISK_GPT_HAD_SIZE_REMAINING self1 ⊆ DISK_GPT_HAD_SIZE_REMAINING self2 /\
  DISK_ACTIONS self1 `prefix_of` DISK_ACTIONS self2.
Proof.
  intros self1 self2.
  assert (Hok : membership_ok self1).
  { apply (run_preserves membership_ok exec_membership_ok), membership_ok_init. }
  subst self2. clearbody self1. revert self1 Hok.
  induction cs2 as [|c cs IH]; intros self Hok; [done|].
  simpl. destruct (exec c self) as [r s1] eqn:Hex.
  destruct (exec_grows _ _ _ _ Hex Hok) as (H1 & H2 & H3 & H4).
  specialize (IH s1 (exec_membership_ok _ _ _ _ Hex Hok)).
  destruct (run cs s1) as [rs s2]. simpl in *.
  destruct IH as (I1 & I2 & I3 & I4).
  repeat split; etrans; eassumption.
Qed.

End Growth.

Section ResolveEntries.

Implicit Types (self : DiskConfigurator).

Lemma exec_keeps_resolve_table (c : call) self :
  Config.DISK_ID_TO_RESOLVABLE (snd (exec c self)) = Config.DISK_ID_TO_RESOLVABLE self.
Proof.
  destruct (exec c self) as [[[]|e] self'] eqn:Hex; simpl.
  - destruct c as [new_id device|new_id device id_val|new_id id_val size type];
      simpl in Hex.
    + rewrite register_existing_eq in Hex. unfold register_existing_summary in Hex.
      destruct (new_id_error new_id self); [discriminate|]. injection Hex as <-.
      by destruct self.
    + rewrite create_gpt_eq in Hex. unfold create_gpt_summary in Hex.
      destruct (given device), (given id_val); try discriminate;
        (destruct (new_id_error new_id self); [discriminate|]);
        try destruct (dict_in _ _); try discriminate;
        injection Hex as <-; by destruct self.
    + rewrite create_partition_eq in Hex. unfold create_partition_summary in Hex.
      destruct (new_id_error new_id self); [discriminate|].
      destruct (negb (dict_in _ _)); [discriminate|].
      destruct (negb (tuple_in _ _)); [discriminate|].
      destruct (default false _); [discriminate|].
      injection Hex as <-. unfold partition_post.
      by destruct self, (size =? "remaining").
  - apply exec_rejected in Hex as [[-> _]|[-> _]]; [done|].
    by destruct (minted_other_fields (new_id_of c) self) as (_ & -> & _).
Qed.

Lemma classic_layout_keeps_resolve_table (device swap type luks root_fs : string) self :
  Config.DISK_ID_TO_RESOLVABLE
    (snd (create_classic_single_disk_layout device swap type luks root_fs self)) =
  Config.DISK_ID_TO_RESOLVABLE self.
Proof.
  unfold create_classic_single_disk_layout. cbv zeta.
  unfold bind at 1.
  pose proof (exec_keeps_resolve_table (Create_gpt "gpt" (Some device) None) self) as H1.
  cbn [exec] in H1.
  destruct (create_gpt _ _ _ self) as [[[]|e1] s1]; cbn [snd] in H1; [|exact H1].
  unfold bind at 1.
  pose proof (exec_keeps_resolve_table
                (Create_partition ("part_" +:+ type) "gpt" "1GiB" type) s1) as H2.
  cbn [exec] in H2.
  destruct (create_partition _ _ _ _ s1) as [[[]|e2] s2]; cbn [snd] in H2;
    rewrite H1 in H2; clear H1; [|exact H2].
  unfold bind at 1.
  assert (H3 : Config.DISK_ID_TO_RESOLVABLE
                 (snd (when (negb (swap =? "false"))
                         (create_partition "part_swap" "gpt" swap "swap") s2)) =
               Config.DISK_ID_TO_RESOLVABLE self).
  { rewrite <- H2. unfold when. destruct (negb (swap =? "false")); [|reflexivity].
    apply (exec_keeps_resolve_table (Create_partition "part_swap" "gpt" swap "swap")). }
  clear H2.
  destruct (when _ _ s2) as [[[]|e3] s3]; cbn [snd] in H3; [|exact H3].
  unfold bind at 1.
  pose proof (exec_keeps_resolve_table
                (Create_partition "part_root" "gpt" "remaining" "linux") s3) as H4.
  cbn [exec] in H4.
  destruct (create_partition "part_root" "gpt" "remaining" "linux" s3) as [[[]|e4] s4];
    cbn [snd] in H4; rewrite H3 in H4; clear H3; [|exact H4].
  rewrite <- H4. clear H4. destruct s4. simpl.
  unfold bind, ret, when, modify, gets, getitem, append_action, die_trace, raise. simpl.
  destruct (luks =? "true"); simpl;
    [destruct (DISK_ID_TO_UUID0 !! "part_luks_root"); simpl; [|reflexivity]|];
    destruct (swap =? "false"), (type =? "efi"); simpl;
    destruct (root_fs =? "btrfs"); simpl; try reflexivity;
    destruct (root_fs =? "ext4"); reflexivity.
Qed.

(** X19. Nothing in the builder writes the resolve table.  After any
    sequence of builder calls on a new configurator, and after the classic
    recipe on top of it, whatever was accepted or rejected,
    [DISK_ID_TO_RESOLVABLE] is still empty: the resolve entries of the
    identifiers are only printed. *)
Theorem builder_never_writes_resolve_table
    (cs : list call) (device swap type luks root_fs base_dir : string) :
  let self := snd (run cs (init base_dir)) in
  Config.DISK_ID_TO_RESOLVABLE self = ∅ /\
  Config.DISK_ID_TO_RESOLVABLE
    (snd (create_classic_single_disk_layout device swap type luks root_fs self)) = ∅.
Proof.
  intros self.
  assert (Hrun : Config.DISK_ID_TO_RESOLVABLE self = ∅).
  { apply (run_preserves (fun s => Config.DISK_ID_TO_RESOLVABLE s = ∅)); [|reflexivity].
    intros c s r s' Hex Hs.
    pose proof (exec_keeps_resolve_table c s) as H. rewrite Hex in H. simpl in H. congruence. }
  split; [exact Hrun|]. by rewrite classic_layout_keeps_resolve_table.
Qed.

End ResolveEntries.

Section TableArgument.

Implicit Types (self : DiskConfigurator).

(** X20. [create_partition] checks its table argument only for being a
    registered identifier, and only after the new identifier has been
    registered.  Any registered identifier that is not marked full is
    therefore accepted as the table, whether it names a table, a partition or
    an existing device; and so is the new identifier itself: the partition is
    then recorded as its own table. *)
Theorem create_partition_table_unchecked (new_id id_val size type : string) self :
  new_id_error new_id self = None ->
  id_val = new_id \/ is_Some (DISK_ID_TO_UUID self !! id_val) ->
  tuple_in type partition_types = true ->
  default false (DISK_GPT_HAD_SIZE_REMAINING self !! id_val) = false ->
  exists self',
    create_partition new_id id_val size type self = (Ok tt, self') /\
    DISK_ID_PART_TO_GPT_ID self' !! new_id = Some id_val /\
    is_Some (DISK_ID_TO_UUID self' !! new_id) /\
    DISK_ACTIONS self' =
      (DISK_ACTIONS self ++ [partition_action new_id id_val size type])%list.
Proof.
  intros He Hid Hty Hflag. exists (partition_post new_id id_val size type self).
  destruct (partition_post_fields new_id id_val size type self) as (_ & Hacts & Hp2g & _).
  destruct (post_fields new_id id_val size type None None self) as (_ & _ & Huu & Hm & _).
  split; [|split; [|split]].
  - apply create_partition_accepted; try assumption.
    apply dict_in_lookup. rewrite Hm.
    destruct Hid as [->|Hreg].
    + rewrite lookup_insert_eq. by eexists.
    + destruct (decide (new_id = id_val)) as [->|Hne].
      * rewrite lookup_insert_eq. by eexists.
      * by rewrite lookup_insert_ne.
  - rewrite Hp2g. apply lookup_insert_eq.
  - rewrite Huu, lookup_insert_eq. by eexists.
  - exact Hacts.
Qed.

Lemma create_partition_table_unchecked_witness :
  exists self',
    create_partition "p" "p" "1GiB" "linux" (init "/tmp/gentoo-install-python") =
      (Ok tt, self') /\
    DISK_ID_PART_TO_GPT_ID self' !! "p" = Some "p".
Proof.
  destruct (create_partition_table_unchecked "p" "p" "1GiB" "linux"
              (init "/tmp/gentoo-install-python")) as (self' & Hrun & Hp & _).
  - reflexivity.
  - by left.
  - reflexivity.
  - reflexivity.
  - exists self'. by split.
Defined.

End TableArgument.

Section RecipeConflicts.

Implicit Types (self : DiskConfigurator).

(** The table and the first partition of the recipe. *)
Lemma classic_table_and_boot {A : Type} (device type : string) (k : Config.M A) self :
  type ∈ partition_types ->
  DISK_ID_TO_UUID self !! "gpt" = None ->
  DISK_ID_TO_UUID self !! ("part_" +:+ type) = None ->
  DISK_GPT_HAD_SIZE_REMAINING self !! "gpt" <> Some true ->
  let s2 := partition_post ("part_" +:+ type) "gpt" "1GiB" type
              (gpt_post "gpt" (Some device) None self) in
  (create_gpt "gpt" (Some device) None ;;
   create_partition ("part_" +:+ type) "gpt" "1GiB" type ;;
   k) self = k s2 /\
  DISK_ID_TO_UUID s2 =
    <["part_" +:+ type := uuid_for ("part_" +:+ type)]>
      (<["gpt" := uuid_for "gpt"]> (DISK_ID_TO_UUID self)) /\
  DISK_GPT_HAD_SIZE_REMAINING s2 = DISK_GPT_HAD_SIZE_REMAINING self /\
  "part_" +:+ type <> "part_root".
Proof.
  intros Hty Hgpt Hboot Hflag.
  assert (Hflag' : default false (DISK_GPT_HAD_SIZE_REMAINING self !! "gpt") = false).
  { destruct (DISK_GPT_HAD_SIZE_REMAINING self !! "gpt") as [[]|]; simpl; congruence. }
  assert (Hty' : tuple_in type partition_types = true) by (by apply tuple_in_elem).
  apply classic_partition_type in Hty.
  assert (Hsemi : contains_char ";" ("part_" +:+ type) = false).
  { destruct Hty as [->|[->|[->|[->|[->| ->]]]]]; reflexivity. }
  assert (Hne1 : "part_" +:+ type <> "gpt") by discriminate.
  assert (Hne2 : "part_" +:+ type <> "part_root").
  { destruct Hty as [->|[->|[->|[->|[->| ->]]]]]; discriminate. }
  cbv zeta.
  unfold bind at 1. rewrite create_gpt_accepted by (by apply new_id_error_None).
  set (s1 := gpt_post "gpt" (Some device) None self).
  destruct (post_fields "gpt" "" "" "" (Some device) None self) as (Hu1 & Hf1 & _).
  fold s1 in Hu1, Hf1.
  unfold bind at 1. rewrite create_partition_accepted; cycle 1.
  { apply new_id_error_None. split; [discriminate|]. split; [exact Hsemi|].
    rewrite Hu1, lookup_insert_ne by done. exact Hboot. }
  { apply dict_in_lookup.
    destruct (post_fields ("part_" +:+ type) "" "" "" None None s1) as (_ & _ & _ & -> & _).
    rewrite lookup_insert_ne, Hu1, lookup_insert_eq by done. by eexists. }
  { exact Hty'. }
  { rewrite Hf1. exact Hflag'. }
  destruct (post_fields ("part_" +:+ type) "gpt" "1GiB" type None None s1)
    as (_ & _ & Hu2 & _ & Hf2).
  specialize (Hf2 eq_refl).
  split; [reflexivity|]. split; [by rewrite Hu2, Hu1|]. split; [by rewrite Hf2, Hf1 | exact Hne2].
Qed.

(** X21. Two ways in which the swap argument makes the recipe fail half
    way, on a configurator where the identifiers of the recipe are unused.
    With [type] swap and a swap partition asked for, both partitions want the
    identifier part_swap: the call is rejected with "Identifier 'part_swap'
    already exists" after the table and the first partition.  With the swap
    size "remaining", the swap partition fills the table: the root partition
    is rejected with the error of the full table, after its identifier has
    been registered.  Nothing is rolled back in either case. *)
Theorem classic_layout_swap_conflicts (device swap type luks root_fs : string) self :
  type ∈ partition_types ->
  DISK_ID_TO_UUID self !! "gpt" = None ->
  DISK_ID_TO_UUID self !! ("part_" +:+ type) = None ->
  DISK_GPT_HAD_SIZE_REMAINING self !! "gpt" <> Some true ->
  let s2 := partition_post ("part_" +:+ type) "gpt" "1GiB" type
              (gpt_post "gpt" (Some device) None self) in
  (type = "swap" -> swap <> "false" ->
   create_classic_single_disk_layout device swap type luks root_fs self =
     (Raise (SystemExit 2 "Identifier 'part_swap' already exists"), s2)) /\
  (type <> "swap" -> swap = "remaining" ->
   DISK_ID_TO_UUID self !! "part_swap" = None ->
   DISK_ID_TO_UUID self !! "part_root" = None ->
   create_classic_single_disk_layout device swap type luks root_fs self =
     (Raise (table_full_error "gpt"),
      minted "part_root" (partition_post "part_swap" "gpt" "remaining" "swap" s2))).
Proof.
  intros Hty Hgpt Hboot Hflag s2.
  assert (Hflag' : default false (DISK_GPT_HAD_SIZE_REMAINING self !! "gpt") = false).
  { destruct (DISK_GPT_HAD_SIZE_REMAINING self !! "gpt") as [[]|]; simpl; congruence. }
  unfold create_classic_single_disk_layout. cbv zeta.
  match goal with
  | |- context [bind (create_gpt _ _ _) (fun _ => bind (create_partition _ _ _ _) (fun _ => ?k))] =>
      destruct (classic_table_and_boot device type k self Hty Hgpt Hboot Hflag)
        as (Hrun & Hu2 & Hf2 & Hne2)
  end.
  cbv zeta in Hrun, Hu2, Hf2. fold s2 in Hrun, Hu2, Hf2. rewrite Hrun. clear Hrun.
  clearbody s2. split.
  - intros -> Hsw. apply String.eqb_neq in Hsw. rewrite Hsw. simpl negb. unfold when.
    unfold bind at 1. rewrite create_partition_eq. unfold create_partition_summary, new_id_error.
    change (negb (truthy "part_swap")) with false.
    change (contains_char ";" "part_swap") with false. cbv iota.
    assert (Hin : dict_in "part_swap" (DISK_ID_TO_UUID s2) = true).
    { apply dict_in_lookup. rewrite Hu2. change ("part_" +:+ "swap") with "part_swap".
      rewrite lookup_insert_eq. by eexists. }
    by rewrite Hin.
  - intros Htys -> Hswap Hroot. change (negb ("remaining" =? "false")) with true. unfold when.
    assert (Hswne : "part_" +:+ type <> "part_swap").
    { intros H. apply Htys. by injection H. }
    unfold bind at 1. rewrite create_partition_accepted; cycle 1.
    { apply new_id_error_None. split; [discriminate|]. split; [reflexivity|].
      rewrite Hu2, !lookup_insert_ne by done. exact Hswap. }
    { apply dict_in_lookup.
      destruct (post_fields "part_swap" "" "" "" None None s2) as (_ & _ & _ & -> & _).
      rewrite Hu2, !lookup_insert_ne, lookup_insert_eq by done. by eexists. }
    { reflexivity. }
    { by rewrite Hf2. }
    set (s3 := partition_post "part_swap" "gpt" "remaining" "swap" s2).
    destruct (post_fields "part_swap" "gpt" "remaining" "swap" None None s2)
      as (_ & _ & Hu3 & _ & _).
    destruct (partition_post_fields "part_swap" "gpt" "remaining" "swap" s2)
      as (_ & _ & _ & Hf3).
    specialize (Hf3 eq_refl). fold s3 in Hu3, Hf3.
    unfold bind at 1. rewrite create_partition_eq. unfold create_partition_summary.
    assert (He : new_id_error "part_root" s3 = None).
    { apply new_id_error_None. split; [discriminate|]. split; [reflexivity|].
      rewrite Hu3, Hu2, !lookup_insert_ne by done. exact Hroot. }
    assert (Hin : dict_in "gpt" (DISK_ID_TO_UUID (minted "part_root" s3)) = true).
    { apply dict_in_lookup.
      destruct (post_fields "part_root" "" "" "" None None s3) as (_ & _ & _ & -> & _).
      rewrite Hu3, Hu2, !lookup_insert_ne, lookup_insert_eq by done. by eexists. }
    rewrite He, Hin, Hf3, lookup_insert_eq. reflexivity.
Qed.

Lemma classic_layout_swap_conflicts_witness :
  let r := create_classic_single_disk_layout "/dev/sda" "remaining" "efi" "false" "ext4"
             (init "/tmp/gentoo-install-python") in
  fst r = Raise (SystemExit 1
            "Cannot add another partition to table (gpt) after size=remaining was used") /\
  is_Some (DISK_ID_TO_UUID (snd r) !! "part_root").
Proof.
  intros r.
  assert (H : r = (Raise (table_full_error "gpt"),
                   minted "part_root"
                     (partition_post "part_swap" "gpt" "remaining" "swap"
                        (partition_post ("part_" +:+ "efi") "gpt" "1GiB" "efi"
                           (gpt_post "gpt" (Some "/dev/sda") None
                              (init "/tmp/gentoo-install-python")))))).
  { refine (proj2 (classic_layout_swap_conflicts "/dev/sda" "remaining" "efi" "false" "ext4"
                     (init "/tmp/gentoo-install-python") _ eq_refl eq_refl _)
              _ eq_refl eq_refl eq_refl).
    - apply tuple_in_elem. reflexivity.
    - discriminate.
    - discriminate. }
  rewrite H. split; [reflexivity|]. vm_compute. by eexists.
Defined.

End RecipeConflicts.

Section ResolvedPaths.

Implicit Types (sys : System) (w : World).

Lemma split_once_spec (c : ascii) (s k a : string) :
  contains_char c s = true -> split_once c s = (k, a) ->
  s = k +:+ String c a /\ contains_char c k = false.
Proof.
  revert k a. induction s as [|d s IH]; intros k a; [discriminate|]. simpl.
  destruct (Ascii.eqb_spec c d) as [->|Hcd].
  - intros _ [= <- <-]. by split.
  - intros Hin. destruct (split_once c s) as [k' a'] eqn:Hsp. intros [= <- <-].
    destruct (IH _ _ Hin eq_refl) as [-> Hk]. split; [reflexivity|]. simpl.
    apply Ascii.eqb_neq in Hcd. by rewrite Hcd.
Qed.

Lemma canonicalize_device_fixed sys (given_dev p : string) w w' :
  canonicalize_device sys given_dev w = (Ok p, w') ->
  canonicalize_device sys p w' = (Ok p, w').
Proof.
  unfold canonicalize_device, ret, raise.
  destruct (listdir sys "/dev/disk/by-id") as [entries|]; [|discriminate].
  intros [= <- <-]. by rewrite canonicalize_loop_realpath, canonicalize_loop_idem.
Qed.

(** X22. A path that [resolve_device_by_id] returns is canonical:
    canonicalising it again gives the same path.  And it comes from an entry
    of the table that is written kind:argument, with the kind one of
    partuuid, ptuuid, uuid, mdadm, luks and device. *)
Theorem resolve_device_by_id_canonical sys (id_val p : string) w w' :
  resolve_device_by_id sys id_val w = (Ok p, w') ->
  canonicalize_device sys p w' = (Ok p, w') /\
  exists kind arg : string,
    DISK_ID_TO_RESOLVABLE w !! id_val = Some (kind +:+ ":" +:+ arg) /\
    contains_char ":" kind = false /\
    tuple_in kind ["partuuid"; "ptuuid"; "uuid"; "mdadm"; "luks"; "device"] = true.
Proof.
  rewrite resolve_device_by_id_eq.
  destruct (DISK_ID_TO_RESOLVABLE w !! id_val) as [entry|]; [|discriminate].
  destruct (contains_char ":" entry) eqn:Hc; [|discriminate].
  destruct (split_once ":" entry) as [kind arg] eqn:Hsp.
  destruct (split_once_spec _ _ _ _ Hc Hsp) as [-> Hk].
  unfold bind at 1.
  match goal with |- context [match ?m w with _ => _ end] => destruct (m w) as [[d|e] w1] eqn:Hm end;
    [|discriminate].
  intros Hcan. split; [by eapply canonicalize_device_fixed|].
  exists kind, arg. split; [reflexivity|]. split; [exact Hk|].
  unfold tuple_in. simpl.
  destruct (kind =? "partuuid"); [reflexivity|].
  destruct (kind =? "ptuuid"); [reflexivity|].
  destruct (kind =? "uuid"); [reflexivity|].
  destruct (kind =? "mdadm"); [reflexivity|].
  destruct (kind =? "luks"); [reflexivity|].
  destruct (kind =? "device"); [reflexivity|].
  discriminate Hm.
Qed.

Lemma resolve_device_by_id_canonical_witness :
  canonicalize_device (one_disk_system "") "/dev/disk/by-id/ata-DISK0" sample_world =
    (Ok "/dev/disk/by-id/ata-DISK0", sample_world).
Proof.
  refine (proj1 (resolve_device_by_id_canonical (one_disk_system "") "disk"
                   "/dev/disk/by-id/ata-DISK0" sample_world sample_world _)).
  vm_compute. reflexivity.
Defined.

End ResolvedPaths.
